(** * Multi-Format Intake Agent: classification, routing and session memory

    A shallow embedding of the Python sources

      - [agents/classifier_agent.py]   (module [Classifier])
      - [memory/memory_manager.py]     (module [Memory])
      - [agents/json_agent.py], [agents/email_parser_agent.py],
        [agents/pdf_agent.py]          (module [Agents])
      - [main.py], [route_to_agent]    (module [Router])
      - [main.py], the request handlers (module [Main])

    together with the library functions they call: [json.loads]
    (module [Json]), [hashlib.md5] (module [MD5]) and binary64 arithmetic
    (Rocq's primitive floats).

    Conventions.
    - A Python [str] is a Rocq [string]: a sequence of bytes, read as the
      UTF-8 encoding of the text.  [lower] and [strip] act on the ASCII
      range and leave the bytes of longer encodings alone.
    - A Python [float] is a primitive binary64 float.
    - The Redis server is an explicit store threaded through every call;
      an exception is an explicit outcome, and [try]/[except] is a handler
      on outcomes.  An exception that does not derive from [Exception]
      is an outcome of its own, which [except Exception] lets pass.
    - A method runs from its first command to its last with nothing else
      touching the server in between: no other request, and no key
      reaching the end of its time to live.
    - What the process cannot decide itself (the random identifier, the
      clock, the text-generation service, the PDF reader, the regular
      expression engine, [eval], [json.dumps] and [str] on structured
      values) is a field of a record [World]; every theorem that does not
      name a particular world holds for all of them.  [eval] runs the
      response of the text service as code: it is given the store and
      returns the store it leaves. *)

From Stdlib Require Import Floats ZArith QArith Ascii String List Lia Bool Sorted.
From stdpp Require Import gmap strings list.

Set Warnings "-register-all,-inexact-float".

Open Scope string_scope.
Open Scope list_scope.
Open Scope stdpp_scope.

(* ===================================================================== *)
(** * Python strings *)
(* ===================================================================== *)

Module PyStr.

Definition code (c : ascii) : N := N_of_ascii c.

Definition in_range (lo hi : N) (c : ascii) : bool :=
  (N.leb lo (code c) && N.leb (code c) hi)%bool.

Definition is_upper (c : ascii) : bool := in_range 65 90 c.
Definition is_lower (c : ascii) : bool := in_range 97 122 c.
Definition is_digit (c : ascii) : bool := in_range 48 57 c.

(** [str.lower()] on one character. *)
Definition lower_char (c : ascii) : ascii :=
  if is_upper c then ascii_of_N (code c + 32) else c.

(** [s.lower()] *)
Fixpoint lower (s : string) : string :=
  match s with
  | EmptyString => EmptyString
  | String c t => String (lower_char c) (lower t)
  end.

(** The characters [str.strip()] removes: tab, line feed, vertical tab,
    form feed, carriage return, the four separators 0x1c-0x1f and the
    space. *)
Definition is_space (c : ascii) : bool :=
  (in_range 9 13 c || in_range 28 32 c)%bool.

(** [s.lstrip()] *)
Fixpoint lstrip (s : string) : string :=
  match s with
  | EmptyString => EmptyString
  | String c t => if is_space c then lstrip t else s
  end.

(** [s.rstrip()] : drop the trailing run of blanks. *)
Fixpoint rstrip (s : string) : string :=
  match s with
  | EmptyString => EmptyString
  | String c t =>
      match rstrip t with
      | EmptyString => if is_space c then EmptyString else String c EmptyString
      | t' => String c t'
      end
  end.

(** [s.strip()] *)
Definition strip (s : string) : string := rstrip (lstrip s).

(** [s.startswith(p)] *)
Definition startswith (p s : string) : bool := String.prefix p s.

(** [s[n:]] *)
Fixpoint drop (n : nat) (s : string) : string :=
  match n, s with
  | S n', String _ t => drop n' t
  | _, _ => s
  end.

(** [s.endswith(p)] : [p] is no longer than [s] and equals its tail. *)
Definition endswith (p s : string) : bool :=
  (Nat.leb (String.length p) (String.length s)
   && String.eqb (drop (String.length s - String.length p) s) p)%bool.

(** [needle in hay] on strings: [needle] occurs as a contiguous run. *)
Fixpoint contains (needle hay : string) : bool :=
  (String.prefix needle hay ||
   match hay with
   | EmptyString => false
   | String _ t => contains needle t
   end)%bool.

(** [any(w in s for w in ws)] *)
Definition contains_any (ws : list string) (s : string) : bool :=
  existsb (fun w => contains w s) ws.

(** [x in xs] for a list of strings. *)
Definition mem (x : string) (xs : list string) : bool :=
  existsb (String.eqb x) xs.

(** [s.split(sep)] for a one-character separator: never empty. *)
Fixpoint split (sep : ascii) (s : string) : list string :=
  match s with
  | EmptyString => [EmptyString]
  | String c t =>
      if Ascii.eqb c sep then EmptyString :: split sep t
      else match split sep t with
           | [] => [String c EmptyString]
           | w :: ws => String c w :: ws
           end
  end.

(** [xs[-1]] on a list that [split] returned. *)
Definition last_item (xs : list string) : string := List.last xs EmptyString.

(** [s[:n]] *)
Fixpoint take (n : nat) (s : string) : string :=
  match n, s with
  | S n', String c t => String c (take n' t)
  | _, _ => EmptyString
  end.

(** [sep.join(xs)] *)
Fixpoint join (sep : string) (xs : list string) : string :=
  match xs with
  | [] => EmptyString
  | [x] => x
  | x :: rest => x +:+ sep +:+ join sep rest
  end.

(** [s.strip(chars)] for a one-character set. *)
Fixpoint lstrip_char (ch : ascii) (s : string) : string :=
  match s with
  | EmptyString => EmptyString
  | String c t => if Ascii.eqb c ch then lstrip_char ch t else s
  end.

Fixpoint rstrip_char (ch : ascii) (s : string) : string :=
  match s with
  | EmptyString => EmptyString
  | String c t =>
      match rstrip_char ch t with
      | EmptyString => if Ascii.eqb c ch then EmptyString else String c EmptyString
      | t' => String c t'
      end
  end.

Definition strip_char (ch : ascii) (s : string) : string :=
  rstrip_char ch (lstrip_char ch s).

(** [s.replace(a, b)] for one-character [a] and [b]. *)
Fixpoint replace_char (a b : ascii) (s : string) : string :=
  match s with
  | EmptyString => EmptyString
  | String c t => String (if Ascii.eqb c a then b else c) (replace_char a b t)
  end.

Definition upper_char (c : ascii) : ascii :=
  if is_lower c then ascii_of_N (code c - 32) else c.

(** [s.title()] : a letter that follows a letter is lowered, any other
    letter is raised. *)
Fixpoint title_go (after_letter : bool) (s : string) : string :=
  match s with
  | EmptyString => EmptyString
  | String c t =>
      if (is_upper c || is_lower c)%bool
      then String (if after_letter then lower_char c else upper_char c) (title_go true t)
      else String c (title_go false t)
  end.

Definition title (s : string) : string := title_go false s.

(** [s.isupper()] : some upper-case letter and no lower-case one. *)
Fixpoint any_char (p : ascii -> bool) (s : string) : bool :=
  match s with
  | EmptyString => false
  | String c t => (p c || any_char p t)%bool
  end.

Definition isupper (s : string) : bool :=
  (any_char is_upper s && negb (any_char is_lower s))%bool.

(** [len(s.split())] : the number of maximal runs of non-blank
    characters. *)
Fixpoint count_words_go (in_word : bool) (s : string) : nat :=
  match s with
  | EmptyString => 0
  | String c t =>
      if is_space c then count_words_go false t
      else if in_word then count_words_go true t
      else S (count_words_go true t)
  end.

Definition count_words (s : string) : nat := count_words_go false s.

(** [s.split(sep, 1)] when [sep] occurs: the text before the first
    occurrence and the text after it. *)
Fixpoint split_first (sep : ascii) (s : string) : option (string * string) :=
  match s with
  | EmptyString => None
  | String c t =>
      if Ascii.eqb c sep then Some (EmptyString, t)
      else match split_first sep t with
           | Some (a, b) => Some (String c a, b)
           | None => None
           end
  end.

(** [str(n)] for a natural number. *)
Definition digit_char (n : nat) : ascii := ascii_of_nat (48 + n).

Fixpoint show_nat_go (fuel n : nat) (acc : string) : string :=
  match fuel with
  | O => acc
  | S f =>
      let acc' := String (digit_char (n mod 10)) acc in
      if Nat.ltb n 10 then acc' else show_nat_go f (n / 10) acc'
  end.

Definition show_nat (n : nat) : string := show_nat_go (S n) n EmptyString.

(** [s.split()] : the maximal runs of non-blank characters, in order.
    A non-blank character starts a word of its own when the text after it
    is empty or starts with a blank, and joins the word that follows
    otherwise. *)
Definition word_ends (s : string) : bool :=
  match s with
  | EmptyString => true
  | String c _ => is_space c
  end.

Fixpoint fields (s : string) : list string :=
  match s with
  | EmptyString => []
  | String c t =>
      if is_space c then fields t
      else
        match fields t with
        | w :: ws =>
            if word_ends t then String c EmptyString :: w :: ws else String c w :: ws
        | [] => [String c EmptyString]
        end
  end.

(** [s.strip(chars)] for a set of characters. *)
Fixpoint lstrip_chars (chars : list ascii) (s : string) : string :=
  match s with
  | EmptyString => EmptyString
  | String c t => if existsb (Ascii.eqb c) chars then lstrip_chars chars t else s
  end.

Fixpoint rstrip_chars (chars : list ascii) (s : string) : string :=
  match s with
  | EmptyString => EmptyString
  | String c t =>
      match rstrip_chars chars t with
      | EmptyString =>
          if existsb (Ascii.eqb c) chars then EmptyString else String c EmptyString
      | t' => String c t'
      end
  end.

Definition strip_chars (chars : list ascii) (s : string) : string :=
  rstrip_chars chars (lstrip_chars chars s).

(** [s.count(c)] for a one-character [c]. *)
Fixpoint count_char (c : ascii) (s : string) : nat :=
  match s with
  | EmptyString => 0
  | String x t => (if Ascii.eqb x c then 1 else 0) + count_char c t
  end.

End PyStr.


(* ===================================================================== *)
(** * Python values *)
(* ===================================================================== *)

(** The values that travel through the pipeline.  [VFloat] is a float
    read from a JSON document, kept as the decimal text it was read from;
    [VNum] is a float the code computed; [VOther] is any object that is
    neither a string, a mapping nor a list (bytes, a tuple, a set, ...),
    given by its truth value and by the text [str()] returns for it. *)
Inductive PyVal : Type :=
| VNone
| VBool (b : bool)
| VInt (n : Z)
| VFloat (lexeme : string)
| VNum (x : float)
| VStr (s : string)
| VList (items : list PyVal)
| VDict (entries : list (string * PyVal))
| VOther (truthy : bool) (shown : string).

Module Dict.

(** A [dict] with string keys, in insertion order, one entry per key. *)
Definition t : Type := list (string * PyVal).

(** [d.get(k)] / [d[k]] *)
Fixpoint get (k : string) (d : t) : option PyVal :=
  match d with
  | [] => None
  | (k', v) :: rest => if String.eqb k' k then Some v else get k rest
  end.

(** [d[k] = v] : overwrite in place, or append a new entry. *)
Fixpoint set (k : string) (v : PyVal) (d : t) : t :=
  match d with
  | [] => [(k, v)]
  | (k', v') :: rest =>
      if String.eqb k' k then (k', v) :: rest else (k', v') :: set k v rest
  end.

(** [list(d.keys())] *)
Definition keys (d : t) : list string := map fst d.

(** [dict(pairs)] *)
Definition of_pairs (ps : list (string * PyVal)) : t :=
  fold_left (fun d kv => set (fst kv) (snd kv) d) ps [].

End Dict.

(** The values [json.dumps] serialises: no object of another kind
    anywhere inside. *)
Fixpoint jsonable (v : PyVal) : bool :=
  match v with
  | VList items => forallb jsonable items
  | VDict entries => forallb (fun kv => jsonable (snd kv)) entries
  | VOther _ _ => false
  | _ => true
  end.

(** [isinstance(v, str)], [isinstance(v, dict)], [isinstance(v, (dict, list))] *)
Definition is_str (v : PyVal) : bool :=
  match v with VStr _ => true | _ => false end.

Definition is_dict (v : PyVal) : bool :=
  match v with VDict _ => true | _ => false end.

Definition is_dict_or_list (v : PyVal) : bool :=
  match v with VDict _ | VList _ => true | _ => false end.

(* ===================================================================== *)
(** * [json.loads] *)
(* ===================================================================== *)

(** The decoder of Python's [json] package with its default settings
    ([strict=True], no hooks): RFC 8259 documents plus the literals [NaN],
    [Infinity] and [-Infinity].  [None] is a raised [JSONDecodeError].
    Two limits of the interpreter are left out: the recursion limit, which
    makes Python refuse documents nested some thousand levels deep, and
    the limit on the number of digits of an integer. *)
Module Json.
Import PyStr.

Definition dquote : ascii := "034"%char.
Definition backslash : ascii := "\"%char.

(** The decoder's white space: space, tab, line feed, carriage return. *)
Definition is_ws (c : ascii) : bool :=
  (Ascii.eqb c " " || Ascii.eqb c "009" || Ascii.eqb c "010" || Ascii.eqb c "013")%bool.

Fixpoint skip_ws (s : string) : string :=
  match s with
  | EmptyString => EmptyString
  | String c t => if is_ws c then skip_ws t else s
  end.

(** ** String literals *)

Definition hexval (c : ascii) : option N :=
  if is_digit c then Some (code c - 48)%N
  else if in_range 97 102 c then Some (code c - 87)%N
  else if in_range 65 70 c then Some (code c - 55)%N
  else None.

Definition hex4 (a b c d : ascii) : option N :=
  match hexval a, hexval b, hexval c, hexval d with
  | Some x, Some y, Some z, Some w => Some (((x * 16 + y) * 16 + z) * 16 + w)%N
  | _, _, _, _ => None
  end.

Definition byte (n : N) : ascii := ascii_of_N n.

(** The UTF-8 bytes of a code point (a lone surrogate is encoded like any
    other three-byte code point). *)
Definition utf8 (cp : N) : string :=
  if N.ltb cp 128 then String (byte cp) EmptyString
  else if N.ltb cp 2048 then
    String (byte (192 + cp / 64)) (String (byte (128 + cp mod 64)) EmptyString)
  else if N.ltb cp 65536 then
    String (byte (224 + cp / 4096))
      (String (byte (128 + (cp / 64) mod 64))
         (String (byte (128 + cp mod 64)) EmptyString))
  else
    String (byte (240 + cp / 262144))
      (String (byte (128 + (cp / 4096) mod 64))
         (String (byte (128 + (cp / 64) mod 64))
            (String (byte (128 + cp mod 64)) EmptyString))).

(** The one-letter escapes. *)
Definition unescape (e : ascii) : option ascii :=
  if Ascii.eqb e dquote then Some dquote
  else if Ascii.eqb e backslash then Some backslash
  else if Ascii.eqb e "/" then Some "/"%char
  else if Ascii.eqb e "b" then Some "008"%char
  else if Ascii.eqb e "f" then Some "012"%char
  else if Ascii.eqb e "n" then Some "010"%char
  else if Ascii.eqb e "r" then Some "013"%char
  else if Ascii.eqb e "t" then Some "009"%char
  else None.

Definition is_high_surrogate (u : N) : bool := (N.leb 55296 u && N.leb u 56319)%bool.
Definition is_low_surrogate (u : N) : bool := (N.leb 56320 u && N.leb u 57343)%bool.

Definition emit (out : string) (k : option (string * string)) : option (string * string) :=
  match k with
  | Some (t, rest) => Some (out +:+ t, rest)
  | None => None
  end.

(** The body of a string literal, read from just after the opening quote:
    the decoded text and what follows the closing quote. *)
Fixpoint scan_string (s : string) : option (string * string) :=
  match s with
  | EmptyString => None
  | String c r =>
      if Ascii.eqb c dquote then Some (EmptyString, r)
      else if Ascii.eqb c backslash then
        match r with
        | EmptyString => None
        | String e r1 =>
            if Ascii.eqb e "u" then
              match r1 with
              | String h1 (String h2 (String h3 (String h4 r5))) =>
                  match hex4 h1 h2 h3 h4 with
                  | None => None
                  | Some u =>
                      match r5 with
                      | String b (String x (String g1 (String g2 (String g3 (String g4 r11))))) =>
                          if (is_high_surrogate u && Ascii.eqb b backslash && Ascii.eqb x "u")%bool
                          then match hex4 g1 g2 g3 g4 with
                               | None => None
                               | Some u2 =>
                                   if is_low_surrogate u2
                                   then emit (utf8 (65536 + (u - 55296) * 1024 + (u2 - 56320))%N)
                                             (scan_string r11)
                                   else emit (utf8 u) (scan_string r5)
                               end
                          else emit (utf8 u) (scan_string r5)
                      | _ => emit (utf8 u) (scan_string r5)
                      end
                  end
              | _ => None
              end
            else match unescape e with
                 | Some ch => emit (String ch EmptyString) (scan_string r1)
                 | None => None
                 end
        end
      else if N.ltb (code c) 32 then None
      else emit (String c EmptyString) (scan_string r)
  end.

(** ** Numbers

    An optional minus sign, then either a single 0 or a nonzero digit and
    more digits; then optionally a point and one digit or more; then
    optionally e or E, an optional sign and one digit or more. *)

Fixpoint span_digits (s : string) : string * string :=
  match s with
  | EmptyString => (EmptyString, EmptyString)
  | String c t =>
      if is_digit c then let '(ds, rest) := span_digits t in (String c ds, rest)
      else (EmptyString, s)
  end.

Fixpoint digits_value (s : string) (acc : Z) : Z :=
  match s with
  | EmptyString => acc
  | String c t => digits_value t (acc * 10 + (Z.of_N (code c) - 48))%Z
  end.

(** The integer part: the sign, and the digits with what follows them. *)
Definition scan_int (s : string) : option (bool * string * string) :=
  let '(neg, s1) :=
    match s with
    | String c t => if Ascii.eqb c "-" then (true, t) else (false, s)
    | EmptyString => (false, s)
    end in
  match s1 with
  | String c t =>
      if Ascii.eqb c "0" then Some (neg, String c EmptyString, t)
      else if is_digit c then
        let '(ds, rest) := span_digits t in Some (neg, String c ds, rest)
      else None
  | EmptyString => None
  end.

(** The optional fraction: its text ([""] when absent) and the rest. *)
Definition scan_frac (s : string) : string * string :=
  match s with
  | String c t =>
      if Ascii.eqb c "." then
        match span_digits t with
        | (EmptyString, _) => (EmptyString, s)
        | (ds, rest) => (String c ds, rest)
        end
      else (EmptyString, s)
  | EmptyString => (EmptyString, s)
  end.

(** The optional exponent. *)
Definition scan_exp (s : string) : string * string :=
  match s with
  | String c t =>
      if (Ascii.eqb c "e" || Ascii.eqb c "E")%bool then
        let '(sign, t1) :=
          match t with
          | String g t' =>
              if (Ascii.eqb g "-" || Ascii.eqb g "+")%bool
              then (String g EmptyString, t') else (EmptyString, t)
          | EmptyString => (EmptyString, t)
          end in
        match span_digits t1 with
        | (EmptyString, _) => (EmptyString, s)
        | (ds, rest) => (String c (sign +:+ ds), rest)
        end
      else (EmptyString, s)
  | EmptyString => (EmptyString, s)
  end.

Definition scan_number (s : string) : option (PyVal * string) :=
  match scan_int s with
  | None => None
  | Some (neg, ds, r1) =>
      let '(frac, r2) := scan_frac r1 in
      let '(ex, r3) := scan_exp r2 in
      let sign := if neg then "-" else EmptyString in
      match frac, ex with
      | EmptyString, EmptyString =>
          Some (VInt (if neg then - digits_value ds 0 else digits_value ds 0)%Z, r3)
      | _, _ => Some (VFloat (sign +:+ ds +:+ frac +:+ ex), r3)
      end
  end.

(** ** Values, arrays and objects *)

Fixpoint parse_value (fuel : nat) (s : string) {struct fuel} : option (PyVal * string) :=
  match fuel with
  | O => None
  | S f =>
      match s with
      | EmptyString => None
      | String c r =>
          if Ascii.eqb c dquote then
            match scan_string r with
            | Some (t, r') => Some (VStr t, r')
            | None => None
            end
          else if Ascii.eqb c "{" then
            match skip_ws r with
            | String c1 r1 =>
                if Ascii.eqb c1 "}" then Some (VDict [], r1)
                else parse_members f (String c1 r1) []
            | EmptyString => None
            end
          else if Ascii.eqb c "[" then
            match skip_ws r with
            | String c1 r1 =>
                if Ascii.eqb c1 "]" then Some (VList [], r1)
                else parse_elems f (String c1 r1) []
            | EmptyString => None
            end
          else if startswith "null" s then Some (VNone, drop 4 s)
          else if startswith "true" s then Some (VBool true, drop 4 s)
          else if startswith "false" s then Some (VBool false, drop 5 s)
          else match scan_number s with
               | Some res => Some res
               | None =>
                   if startswith "NaN" s then Some (VFloat "NaN", drop 3 s)
                   else if startswith "Infinity" s then Some (VFloat "Infinity", drop 8 s)
                   else if startswith "-Infinity" s then Some (VFloat "-Infinity", drop 9 s)
                   else None
               end
      end
  end

(** the elements of an array, from the start of an element *)
with parse_elems (fuel : nat) (s : string) (acc : list PyVal) {struct fuel}
  : option (PyVal * string) :=
  match fuel with
  | O => None
  | S f =>
      match parse_value f s with
      | None => None
      | Some (v, r) =>
          match skip_ws r with
          | String c r' =>
              if Ascii.eqb c "]" then Some (VList (acc ++ [v]), r')
              else if Ascii.eqb c "," then parse_elems f (skip_ws r') (acc ++ [v])
              else None
          | EmptyString => None
          end
      end
  end

(** the members of an object, from the opening quote of a key; a key
    that repeats keeps its first place and takes the last value *)
with parse_members (fuel : nat) (s : string) (acc : Dict.t) {struct fuel}
  : option (PyVal * string) :=
  match fuel with
  | O => None
  | S f =>
      match s with
      | EmptyString => None
      | String c r =>
          if Ascii.eqb c dquote then
            match scan_string r with
            | None => None
            | Some (k, r1) =>
                match skip_ws r1 with
                | EmptyString => None
                | String c2 r2 =>
                    if Ascii.eqb c2 ":" then
                      match parse_value f (skip_ws r2) with
                      | None => None
                      | Some (v, r3) =>
                          match skip_ws r3 with
                          | EmptyString => None
                          | String c3 r4 =>
                              if Ascii.eqb c3 "}" then Some (VDict (Dict.set k v acc), r4)
                              else if Ascii.eqb c3 ","
                              then parse_members f (skip_ws r4) (Dict.set k v acc)
                              else None
                          end
                      end
                    else None
                end
            end
          else None
      end
  end.

(** Every call of the three functions above consumes one unit of fuel and
    at most two calls go by between two characters read. *)
Definition fuel_for (s : string) : nat := 2 * String.length s + 2.

(** [json.loads(s)] : one value between optional white space, and
    nothing after it. *)
Definition loads (s : string) : option PyVal :=
  match parse_value (fuel_for s) (skip_ws s) with
  | Some (v, rest) =>
      match skip_ws rest with
      | EmptyString => Some v
      | _ => None
      end
  | None => None
  end.

End Json.

(* ===================================================================== *)
(** * The world outside the process *)
(* ===================================================================== *)

(** The exceptions the code can meet that derive from [Exception]: what
    an [except Exception] clause catches. *)
Inductive exn : Type :=
| ValueError (msg : string)
| JSONDecodeError (doc : string)
| TypeError (what : string)
| AttributeError (what : string)
| KeyError (key : string)
| IndexError
| SyntaxError (text : string).

(** The exceptions that do not derive from [Exception]: [SystemExit]
    (what [exit()] raises), [KeyboardInterrupt] and [GeneratorExit].  An
    [except Exception] clause lets them pass. *)
Inductive interrupt : Type :=
| SystemExit (code : PyVal)
| KeyboardInterrupt
| GeneratorExit.

(** The Redis server as the code uses it: hashes by key, one set of
    session identifiers, the time-to-live set on a key, and the number of
    readings taken from the world so far. *)
Record Store : Type := {
  hashes : gmap string (gmap string string);
  active : gset string;
  expiry : gmap string Z;
  tick : nat
}.

(** How a call ends: it returns, it raises an exception that derives from
    [Exception], or it is left by one that does not. *)
Inductive outcome (A : Type) : Type :=
| Ok (a : A)
| Raise (e : exn)
| Interrupt (i : interrupt).
Arguments Ok {A} a.
Arguments Raise {A} e.
Arguments Interrupt {A} i.

(** A message as [email.parser.Parser().parsestr] returns it: the header
    fields in order, and the payload. *)
Record Message : Type := {
  msg_items : list (string * string);
  msg_payload : PyVal
}.

(** Flags of a regular-expression search. *)
Record ReFlags : Type := { re_ignorecase : bool; re_multiline : bool }.

(** Everything the code asks of its environment.  Readings that differ
    from one call to the next (identifiers, the clock, generated text) are
    indexed by the number of readings made so far. *)
Record World : Type := {
  (** [float(text) != 0.0] for the text of a float read from a document *)
  w_float_nonzero : string -> bool;
  (** [str(v)] of a float, a list or a dict *)
  w_repr : PyVal -> string;
  (** [json.dumps(v)] of a non-empty container; [None] when it raises *)
  w_dumps : PyVal -> option string;
  (** what [json.dumps(v)] raises when it raises: [Some msg] for
      [ValueError(msg)] (a circular reference, a number out of range),
      [None] for [TypeError] (an object it cannot serialise) *)
  w_dumps_error : PyVal -> option string;
  (** [str(uuid.uuid4())] *)
  w_uuid : nat -> string;
  (** [datetime.now().isoformat()] *)
  w_now : nat -> string;
  (** [llm_client.generate(prompt)], a method of [utility/llm_client.py]
      (a file that is not among the sources: the strategies only await
      its answer); [None] when the call raises *)
  w_generate : nat -> string -> option string;
  (** [eval(text)] as the email strategy calls it, with [self] in scope
      and through it the memory manager and its Redis client: the
      expression is code, so besides returning a value or raising it can
      write to the server.  The result is how the evaluation ends and the
      store it leaves.  (What an expression does to the process itself,
      to its classes and functions, is outside this model.) *)
  w_eval : string -> Store -> outcome PyVal * Store;
  (** [PyPDF2.PdfReader(io.BytesIO(content)).pages] with [extract_text()]
      of each page ([None] for a page whose extraction raises); the left
      case is [str(e)] of an exception raised outside the per-page guard *)
  w_pdf_pages : PyVal -> string + list (option string);
  (** [Parser().parsestr(text)]; [None] when it raises *)
  w_parsestr : string -> option Message;
  (** [re.search(pattern, text, flags)]: the groups 0, 1, ... of the
      leftmost match *)
  w_search : string -> ReFlags -> string -> option (list string);
  (** [re.findall(pattern, text)] *)
  w_findall : string -> string -> list string;
  (** [str(e)] of an exception a library raised *)
  w_error_text : exn -> string
}.

(** [str(n)] for an integer. *)
Definition show_Z (n : Z) : string :=
  if Z.ltb n 0 then "-" +:+ PyStr.show_nat (Z.to_nat (- n))
  else PyStr.show_nat (Z.to_nat n).

(** [str(v)] *)
Definition py_str (w : World) (v : PyVal) : string :=
  match v with
  | VStr s => s
  | VNone => "None"
  | VBool true => "True"
  | VBool false => "False"
  | VInt n => show_Z n
  | VOther _ shown => shown
  | VFloat _ | VNum _ | VList _ | VDict _ => w_repr w v
  end.

(** [bool(v)] *)
Definition truthy_of (w : World) (v : PyVal) : bool :=
  match v with
  | VNone => false
  | VBool b => b
  | VInt n => negb (Z.eqb n 0)
  | VFloat lexeme => w_float_nonzero w lexeme
  | VNum x => negb (PrimFloat.eqb x 0%float)
  | VStr s => negb (String.eqb s EmptyString)
  | VList l => match l with [] => false | _ => true end
  | VDict d => match d with [] => false | _ => true end
  | VOther b _ => b
  end.

(** [json.dumps(v)] *)
Definition json_dumps (w : World) (v : PyVal) : option string :=
  match v with
  | VList [] => Some "[]"
  | VDict [] => Some "{}"
  | _ => w_dumps w v
  end.

(** The exception [json.dumps(v)] raises on a value it refuses. *)
Definition dumps_error (w : World) (v : PyVal) : exn :=
  match w_dumps_error w v with
  | Some msg => ValueError msg
  | None => TypeError "Object is not JSON serializable"
  end.

(* ===================================================================== *)
(** * agents/classifier_agent.py *)
(* ===================================================================== *)

Module Classifier.
Import PyStr.

(** [self.format_patterns] *)
Definition format_patterns : list (string * string) :=
  [ ("application/pdf", "pdf");
    ("application/json", "json");
    ("text/json", "json");
    ("message/rfc822", "email");
    ("text/plain", "text");
    ("text/html", "html") ].

Fixpoint assoc (k : string) (l : list (string * string)) : option string :=
  match l with
  | [] => None
  | (k', v) :: rest => if String.eqb k' k then Some v else assoc k rest
  end.

(** [_is_json_string] *)
Definition is_json_string (content : PyVal) : bool :=
  match content with
  | VStr s => match Json.loads s with Some _ => true | None => false end
  | _ => false
  end.

(** [_looks_like_email] *)
Definition looks_like_email (content : string) : bool :=
  contains_any ["from:"; "to:"; "subject:"; "date:"; "@"] (lower content).

(** The first test of [_determine_format]:
    [if file_type and file_type in self.format_patterns]. *)
Definition format_of_file_type (file_type : option string) : option string :=
  match file_type with
  | Some ft => if String.eqb ft EmptyString then None else assoc ft format_patterns
  | None => None
  end.

(** The second test: the extension of a non-empty filename. *)
Definition format_of_filename (filename : option string) : option string :=
  match filename with
  | None => None
  | Some fn =>
      if String.eqb fn EmptyString then None
      else
        let extension := last_item (split "." (lower fn)) in
        if String.eqb extension "pdf" then Some "pdf"
        else if mem extension ["json"; "jsonl"] then Some "json"
        else if mem extension ["eml"; "msg"] then Some "email"
        else if mem extension ["txt"; "text"] then Some "text"
        else if mem extension ["html"; "htm"] then Some "html"
        else None
  end.

(** The third test: the structure of the content. *)
Definition format_of_content (content : PyVal) : string :=
  if (is_dict content || is_json_string content)%bool then "json"
  else match content with
       | VStr s =>
           if startswith "%PDF" (strip s) then "pdf"
           else if looks_like_email s then "email"
           else if startswith "<html" (strip s) then "html"
           else "text"
       | _ => "unknown"
       end.

(** [_determine_format] *)
Definition determine_format (content : PyVal) (file_type filename : option string)
  : string :=
  match format_of_file_type file_type with
  | Some f => f
  | None =>
      match format_of_filename filename with
      | Some f => f
      | None => format_of_content content
      end
  end.

(** [_determine_intent]; the [metadata] argument is never read. *)
Definition determine_intent (w : World) (content : PyVal) (format_type : string)
    (metadata : option Dict.t) : string :=
  let content_str := lower (py_str w content) in
  if contains_any ["invoice"; "bill"; "payment"; "charge"] content_str
  then "invoice_processing"
  else if contains_any ["resume"; "cv"; "experience"; "education"] content_str
  then "resume_parsing"
  else if contains_any ["order"; "purchase"; "buy"; "cart"] content_str
  then "order_processing"
  else if contains_any ["support"; "help"; "issue"; "problem"] content_str
  then "support_ticket"
  else if contains_any ["application"; "apply"; "form"] content_str
  then "form_processing"
  else if String.eqb format_type "email" then "email_processing"
  else if String.eqb format_type "pdf" then "document_processing"
  else "general_processing".

(** [min(a, b)] on floats: the first argument unless the second is
    smaller. *)
Definition py_min (a b : float) : float := if PrimFloat.ltb b a then b else a.

(** [_calculate_confidence] *)
Definition calculate_confidence (content : PyVal) (format_type intent : string)
  : float :=
  let base_confidence := 0.7%float in
  let base_confidence :=
    if mem format_type ["pdf"; "json"; "email"]
    then (base_confidence + 0.2)%float else base_confidence in
  let base_confidence :=
    if negb (String.eqb intent "general_processing")
    then (base_confidence + 0.1)%float else base_confidence in
  py_min base_confidence 1.0%float.

Record Metadata : Type := {
  md_file_type : option string;
  md_filename : option string;
  md_content_length : nat
}.

Record Classification : Type := {
  format : string;
  intent : string;
  confidence : float;
  metadata : Metadata
}.

(** [classify] *)
Definition classify (w : World) (content : PyVal)
    (file_type filename : option string) (metadata : option Dict.t)
  : Classification :=
  let format_type := determine_format content file_type filename in
  let intent := determine_intent w content format_type metadata in
  let confidence := calculate_confidence content format_type intent in
  {| format := format_type;
     intent := intent;
     confidence := confidence;
     metadata :=
       {| md_file_type := file_type;
          md_filename := filename;
          md_content_length :=
            if truthy_of w content then String.length (py_str w content) else 0 |} |}.

(** All the words that [_determine_intent] looks for. *)
Definition intent_keywords : list string :=
  ["invoice"; "bill"; "payment"; "charge"]
    ++ ["resume"; "cv"; "experience"; "education"]
    ++ ["order"; "purchase"; "buy"; "cart"]
    ++ ["support"; "help"; "issue"; "problem"]
    ++ ["application"; "apply"; "form"].

(** The formats that raise the confidence. *)
Definition clear_formats : list string := ["pdf"; "json"; "email"].

(** The score in exact arithmetic, as the specification words it: start
    at 7/10, add 2/10 on a clear format, add 1/10 on an intent other than
    [general_processing], clamp at 1. *)
Definition exact_confidence (format_type intent : string) : Q :=
  let score :=
    ((7 # 10)
     + (if mem format_type clear_formats then 2 # 10 else 0)
     + (if negb (String.eqb intent "general_processing") then 1 # 10 else 0))%Q in
  if Qle_bool 1 score then 1%Q else score.

End Classifier.

(* ===================================================================== *)
(** * [hashlib.md5] *)
(* ===================================================================== *)

(** MD5 as RFC 1321 defines it, on 32-bit words held in [Z] with the
    wrap-around written out. *)
Module MD5.
Open Scope Z_scope.

Definition wrap32 (x : Z) : Z := x mod 2 ^ 32.
Definition add32 (a b : Z) : Z := wrap32 (a + b).
Definition not32 (x : Z) : Z := Z.lxor x 0xffffffff.
Definition rotl32 (x n : Z) : Z :=
  wrap32 (Z.lor (Z.shiftl x n) (Z.shiftr x (32 - n))).

(** per-round left rotations *)
Definition shifts : list Z :=
  [ 7; 12; 17; 22; 7; 12; 17; 22; 7; 12; 17; 22; 7; 12; 17; 22;
    5; 9; 14; 20; 5; 9; 14; 20; 5; 9; 14; 20; 5; 9; 14; 20;
    4; 11; 16; 23; 4; 11; 16; 23; 4; 11; 16; 23; 4; 11; 16; 23;
    6; 10; 15; 21; 6; 10; 15; 21; 6; 10; 15; 21; 6; 10; 15; 21 ].

(** the integer parts of 2^32 * abs (sin (i + 1)) *)
Definition K : list Z :=
  [ 0xd76aa478; 0xe8c7b756; 0x242070db; 0xc1bdceee;
    0xf57c0faf; 0x4787c62a; 0xa8304613; 0xfd469501;
    0x698098d8; 0x8b44f7af; 0xffff5bb1; 0x895cd7be;
    0x6b901122; 0xfd987193; 0xa679438e; 0x49b40821;
    0xf61e2562; 0xc040b340; 0x265e5a51; 0xe9b6c7aa;
    0xd62f105d; 0x02441453; 0xd8a1e681; 0xe7d3fbc8;
    0x21e1cde6; 0xc33707d6; 0xf4d50d87; 0x455a14ed;
    0xa9e3e905; 0xfcefa3f8; 0x676f02d9; 0x8d2a4c8a;
    0xfffa3942; 0x8771f681; 0x6d9d6122; 0xfde5380c;
    0xa4beea44; 0x4bdecfa9; 0xf6bb4b60; 0xbebfbc70;
    0x289b7ec6; 0xeaa127fa; 0xd4ef3085; 0x04881d05;
    0xd9d4d039; 0xe6db99e5; 0x1fa27cf8; 0xc4ac5665;
    0xf4292244; 0x432aff97; 0xab9423a7; 0xfc93a039;
    0x655b59c3; 0x8f0ccc92; 0xffeff47d; 0x85845dd1;
    0x6fa87e4f; 0xfe2ce6e0; 0xa3014314; 0x4e0811a1;
    0xf7537e82; 0xbd3af235; 0x2ad7d2bb; 0xeb86d391 ].

Definition bytes_of (s : string) : list Z :=
  map (fun c => Z.of_N (N_of_ascii c)) (list_ascii_of_string s).

(** the four bytes of a word, least significant first *)
Definition word_le (x : Z) : list Z :=
  [ x mod 256; (x / 256) mod 256; (x / 65536) mod 256; (x / 16777216) mod 256 ].

(** padding: a 1 bit, zeros up to 56 modulo 64, the bit length on 64 bits *)
Definition pad (msg : list Z) : list Z :=
  let n := length msg in
  let zeros := ((119 - n mod 64) mod 64)%nat in
  let bits := (8 * Z.of_nat n) mod 2 ^ 64 in
  msg ++ [128] ++ repeat 0 zeros ++ word_le (bits mod 2 ^ 32) ++ word_le (bits / 2 ^ 32).

(** little-endian words of a byte sequence *)
Fixpoint words (fuel : nat) (bs : list Z) : list Z :=
  match fuel, bs with
  | S f, b0 :: b1 :: b2 :: b3 :: rest =>
      (b0 + 256 * b1 + 65536 * b2 + 16777216 * b3) :: words f rest
  | _, _ => []
  end.

Definition state : Type := Z * Z * Z * Z.

Definition init : state := (0x67452301, 0xefcdab89, 0x98badcfe, 0x10325476).

Definition step (M : list Z) (st : state) (i : nat) : state :=
  let '(A, B, C, D) := st in
  let '(F, g) :=
    if (i <? 16)%nat then (Z.lor (Z.land B C) (Z.land (not32 B) D), i)
    else if (i <? 32)%nat then (Z.lor (Z.land D B) (Z.land (not32 D) C), ((5 * i + 1) mod 16)%nat)
    else if (i <? 48)%nat then (Z.lxor (Z.lxor B C) D, ((3 * i + 5) mod 16)%nat)
    else (Z.lxor C (Z.lor B (not32 D)), ((7 * i) mod 16)%nat) in
  let F := add32 (add32 (add32 F A) (nth i K 0)) (nth g M 0) in
  (D, add32 B (rotl32 F (nth i shifts 0)), B, C).

Definition chunk (st : state) (M : list Z) : state :=
  let '(a0, b0, c0, d0) := st in
  let '(A, B, C, D) := fold_left (step M) (seq 0 64) st in
  (add32 a0 A, add32 b0 B, add32 c0 C, add32 d0 D).

Fixpoint chunks (fuel : nat) (ws : list Z) (st : state) : state :=
  match fuel with
  | O => st
  | S f =>
      match ws with
      | [] => st
      | _ => chunks f (skipn 16 ws) (chunk st (firstn 16 ws))
      end
  end.

Definition digest (s : string) : list Z :=
  let bs := pad (bytes_of s) in
  let ws := words (length bs) bs in
  let '(a, b, c, d) := chunks (length ws) ws init in
  word_le a ++ word_le b ++ word_le c ++ word_le d.

Definition hex_digit (n : Z) : ascii :=
  if n <? 10 then ascii_of_N (Z.to_N (48 + n)) else ascii_of_N (Z.to_N (87 + n)).

Fixpoint hex_bytes (bs : list Z) : string :=
  match bs with
  | [] => EmptyString
  | b :: rest => String (hex_digit (b / 16)) (String (hex_digit (b mod 16)) (hex_bytes rest))
  end.

(** [hashlib.md5(s.encode()).hexdigest()] *)
Definition hexdigest (s : string) : string := hex_bytes (digest s).

End MD5.

(* ===================================================================== *)
(** * The store and the monad of the code *)
(* ===================================================================== *)

(** A computation reads and writes the store and returns or raises. *)
Definition M (A : Type) : Type := Store -> outcome A * Store.

Definition ret {A : Type} (a : A) : M A := fun st => (Ok a, st).

Definition raise {A : Type} (e : exn) : M A := fun st => (Raise e, st).

Definition bind {A B : Type} (m : M A) (k : A -> M B) : M B :=
  fun st =>
    match m st with
    | (Ok a, st') => k a st'
    | (Raise e, st') => (Raise e, st')
    | (Interrupt i, st') => (Interrupt i, st')
    end.

(** [try: m except Exception as e: handler e] *)
Definition try_except {A : Type} (m : M A) (handler : exn -> M A) : M A :=
  fun st =>
    match m st with
    | (Ok a, st') => (Ok a, st')
    | (Raise e, st') => handler e st'
    | (Interrupt i, st') => (Interrupt i, st')
    end.

Notation "'let*' x ':=' m 'in' k" := (bind m (fun x => k))
  (at level 10, x pattern, m at level 100, k at level 200).

(** One reading of the world: the current index, which then advances. *)
Definition reading : M nat :=
  fun st =>
    (Ok (tick st),
     {| hashes := hashes st; active := active st; expiry := expiry st;
        tick := S (tick st) |}).

(** [datetime.now().isoformat()] *)
Definition now (w : World) : M string :=
  let* t := reading in ret (w_now w t).

(** ** The Redis commands the code issues *)

Module Redis.

(** [EXISTS key] *)
Definition exists_ (key : string) : M bool :=
  fun st => (Ok (bool_decide (is_Some (hashes st !! key))), st).

(** [HGETALL key] *)
Definition hgetall (key : string) : M (gmap string string) :=
  fun st => (Ok (default ∅ (hashes st !! key)), st).

(** [HSET key mapping]: the fields of [mapping] overwrite or extend the
    hash at [key]. *)
Definition hset (key : string) (mapping : gmap string string) : M unit :=
  fun st =>
    (Ok tt,
     {| hashes := <[key := mapping ∪ default ∅ (hashes st !! key)]> (hashes st);
        active := active st; expiry := expiry st; tick := tick st |}).

(** [SADD active_sessions member] *)
Definition sadd (member : string) : M unit :=
  fun st =>
    (Ok tt,
     {| hashes := hashes st; active := {[member]} ∪ active st;
        expiry := expiry st; tick := tick st |}).

(** [EXPIRE key seconds] *)
Definition expire (key : string) (seconds : Z) : M unit :=
  fun st =>
    (Ok tt,
     {| hashes := hashes st; active := active st;
        expiry := if bool_decide (is_Some (hashes st !! key))
                  then <[key := seconds]> (expiry st) else expiry st;
        tick := tick st |}).

(** The server's own step: it drops a key whose time to live is over. *)
Definition expired (key : string) : M unit :=
  fun st =>
    (Ok tt,
     {| hashes := delete key (hashes st); active := active st;
        expiry := delete key (expiry st); tick := tick st |}).

(** [SMEMBERS active_sessions]: the members, in the order in which the
    client's set yields them. *)
Definition smembers : M (list string) :=
  fun st => (Ok (elements (active st)), st).

(** [SREM active_sessions member] *)
Definition srem (member : string) : M unit :=
  fun st =>
    (Ok tt,
     {| hashes := hashes st; active := active st ∖ {[member]};
        expiry := expiry st; tick := tick st |}).

End Redis.

(* ===================================================================== *)
(** * memory/memory_manager.py *)
(* ===================================================================== *)

Module Memory.

Definition session_prefix : string := "session:".

Definition session_key (session_id : string) : string :=
  session_prefix +:+ session_id.

(** [json.dumps(v) if isinstance(v, (dict, list)) else str(v)] *)
Definition encode (w : World) (v : PyVal) : option string :=
  if is_dict_or_list v then json_dumps w v else Some (py_str w v).

(** The dict comprehension over [d.items()]: [None] when one
    [json.dumps] raises. *)
Fixpoint encode_items (w : World) (d : Dict.t) : option (list (string * string)) :=
  match d with
  | [] => Some []
  | (k, v) :: rest =>
      match encode w v, encode_items w rest with
      | Some s, Some rest' => Some ((k, s) :: rest')
      | _, _ => None
      end
  end.

(** The value at which the comprehension stops: the first one that
    [json.dumps] refuses. *)
Fixpoint refused (w : World) (d : Dict.t) : PyVal :=
  match d with
  | [] => VNone
  | (k, v) :: rest =>
      match encode w v with
      | Some _ => refused w rest
      | None => v
      end
  end.

Definition encode_mapping (w : World) (d : Dict.t) : M (gmap string string) :=
  match encode_items w d with
  | Some items => ret (list_to_map items)
  | None => raise (dumps_error w (refused w d))
  end.

(** The dict [session_data] that [create_session] builds; [timestamp] is
    the [isoformat()] text of the datetime passed in. *)
Definition session_data (session_id source input_type intent timestamp : string)
  : Dict.t :=
  [ ("session_id", VStr session_id);
    ("source", VStr source);
    ("input_type", VStr input_type);
    ("intent", VStr intent);
    ("created_at", VStr timestamp);
    ("updated_at", VStr timestamp);
    ("status", VStr "active");
    ("processing_history", VList []);
    ("extracted_data", VDict []);
    ("metadata", VDict []) ].

(** The keys of [session_data]. *)
Definition creation_fields : list string :=
  [ "session_id"; "source"; "input_type"; "intent"; "created_at"; "updated_at";
    "status"; "processing_history"; "extracted_data"; "metadata" ].

(** [create_session] *)
Definition create_session (w : World) (source input_type intent timestamp : string)
  : M string :=
  let* t := reading in
  let session_id := w_uuid w t in
  let key := session_key session_id in
  let* mapping :=
    encode_mapping w (session_data session_id source input_type intent timestamp) in
  let* _ := Redis.hset key mapping in
  let* _ := Redis.sadd session_id in
  let* _ := Redis.expire key 86400 in
  ret session_id.

(** The loop of [get_session]: parse a field as JSON, keep the text when
    that fails. *)
Definition decode_field (value : string) : PyVal :=
  match Json.loads value with
  | Some v => v
  | None => VStr value
  end.

(** [get_session] *)
Definition get_session (session_id : string) : M (option (gmap string PyVal)) :=
  let key := session_key session_id in
  let* present := Redis.exists_ key in
  if negb present then ret None
  else
    let* raw_data := Redis.hgetall key in
    ret (Some (decode_field <$> raw_data)).

(** [update_session]: the answer, and the [updates] dict as the call
    leaves it (the caller's object gains the key [updated_at]). *)
Definition update_session (w : World) (session_id : string) (updates : Dict.t)
  : M (bool * Dict.t) :=
  let key := session_key session_id in
  let* present := Redis.exists_ key in
  if negb present then ret (false, updates)
  else
    let* stamp := now w in
    let updates := Dict.set "updated_at" (VStr stamp) updates in
    let* redis_updates := encode_mapping w updates in
    let* _ := Redis.hset key redis_updates in
    ret (true, updates).

(** [update_session] on a hash whose time to live ends while the method
    runs: [EXISTS] still finds the key, the server drops it, and [HSET]
    then creates it anew. *)
Definition update_session_across_expiry (w : World) (session_id : string)
    (updates : Dict.t) : M (bool * Dict.t) :=
  let key := session_key session_id in
  let* present := Redis.exists_ key in
  if negb present then ret (false, updates)
  else
    let* stamp := now w in
    let updates := Dict.set "updated_at" (VStr stamp) updates in
    let* redis_updates := encode_mapping w updates in
    let* _ := Redis.expired key in
    let* _ := Redis.hset key redis_updates in
    ret (true, updates).

(** [if not session]: the session is absent or an empty dict. *)
Definition missing (session : option (gmap string PyVal)) : bool :=
  match session with
  | None => true
  | Some d => bool_decide (d = ∅)
  end.

(** [add_processing_step] *)
Definition add_processing_step (w : World) (session_id agent_name : string)
    (result : PyVal) : M bool :=
  let* session := get_session session_id in
  if missing session then ret false
  else
    let* stamp := now w in
    let processing_step :=
      VDict [ ("agent", VStr agent_name); ("timestamp", VStr stamp);
              ("result", result) ] in
    match default ∅ session !! "processing_history" with
    | None => raise (KeyError "processing_history")
    | Some (VList steps) =>
        let* r :=
          update_session w session_id
            [ ("processing_history", VList (steps ++ [processing_step])) ] in
        ret (fst r)
    | Some _ => raise (AttributeError "append")
    end.

(** [store_extracted_data] *)
Definition store_extracted_data (w : World) (session_id data_key : string)
    (data_value : PyVal) : M bool :=
  let* session := get_session session_id in
  if missing session then ret false
  else
    match default ∅ session !! "extracted_data" with
    | None => raise (KeyError "extracted_data")
    | Some (VDict d) =>
        let* r :=
          update_session w session_id
            [ ("extracted_data", VDict (Dict.set data_key data_value d)) ] in
        ret (fst r)
    | Some _ => raise (TypeError "item assignment")
    end.

(** [delete_session] *)
Definition delete_session (session_id : string) : M bool :=
  fun st =>
    let key := session_key session_id in
    (Ok (bool_decide (is_Some (hashes st !! key))),
     {| hashes := delete key (hashes st);
        active := active st ∖ {[session_id]};
        expiry := delete key (expiry st);
        tick := tick st |}).

(** The loop of [get_all_sessions] over the identifiers still to visit. *)
Fixpoint collect_sessions (session_ids : list string)
    (sessions : list (gmap string PyVal)) : M (list (gmap string PyVal)) :=
  match session_ids with
  | [] => ret sessions
  | session_id :: rest =>
      let* session := get_session session_id in
      if missing session then collect_sessions rest sessions
      else collect_sessions rest (sessions ++ [default ∅ session])
  end.

(** [get_all_sessions] *)
Definition get_all_sessions : M (list (gmap string PyVal)) :=
  let* session_ids := Redis.smembers in
  collect_sessions session_ids [].

(** The loop of [cleanup_expired_sessions]. *)
Fixpoint cleanup_members (session_ids : list string) : M unit :=
  match session_ids with
  | [] => ret tt
  | session_id :: rest =>
      let* present := Redis.exists_ (session_key session_id) in
      if negb present
      then let* _ := Redis.srem session_id in cleanup_members rest
      else cleanup_members rest
  end.

(** [cleanup_expired_sessions] *)
Definition cleanup_expired_sessions : M unit :=
  let* session_ids := Redis.smembers in
  cleanup_members session_ids.

End Memory.

(* ===================================================================== *)
(** * The extraction strategies *)
(* ===================================================================== *)

Module Agents.
Import PyStr Memory.

Definition nl : string := String "010"%char EmptyString.
Definition q : string := String Json.dquote EmptyString.

(** The pieces of a formatted string, put together. *)
Fixpoint concat_all (pieces : list string) : string :=
  match pieces with
  | [] => EmptyString
  | piece :: rest => piece +:+ concat_all rest
  end.

(** [str(b)] for a bool *)
Definition show_bool (b : bool) : string := if b then "True" else "False".

(** [str(e)] *)
Definition exn_text (w : World) (e : exn) : string :=
  match e with
  | ValueError msg => msg
  | KeyError k => "'" +:+ k +:+ "'"
  | _ => w_error_text w e
  end.

(** [x or dflt] for an optional string *)
Definition or_else (x : option string) (dflt : string) : string :=
  match x with
  | Some s => if String.eqb s EmptyString then dflt else s
  | None => dflt
  end.

Definition opt_str (x : option string) : PyVal :=
  match x with Some s => VStr s | None => VNone end.

Definition no_flags : ReFlags := {| re_ignorecase := false; re_multiline := false |}.
Definition ignorecase : ReFlags := {| re_ignorecase := true; re_multiline := false |}.
Definition multiline : ReFlags := {| re_ignorecase := false; re_multiline := true |}.
Definition ignorecase_multiline : ReFlags :=
  {| re_ignorecase := true; re_multiline := true |}.

(** [bool(re.search(p, text, flags))] for the first pattern that matches *)
Definition any_match (w : World) (flags : ReFlags) (patterns : list string)
    (text : string) : bool :=
  existsb (fun p => match w_search w p flags text with Some _ => true | None => false end)
          patterns.

(** [m.group(n)]; a match of a pattern with n groups has n + 1 entries *)
Definition group (n : nat) (groups : list string) : string := nth n groups EmptyString.

(* ------------------------------------------------------------------- *)
(** ** agents/json_agent.py, class JSONAgent *)
(* ------------------------------------------------------------------- *)

Module JSON.

Definition process (w : World) (data : PyVal) (session_id : string) : M PyVal :=
  try_except
    (let result :=
       VDict
         [ ("status", VStr "success");
           ("data_type", VStr "json");
           ("keys_found",
            VList (match data with VDict d => map VStr (Dict.keys d) | _ => [] end));
           ("total_fields",
            VInt (match data with VDict d => Z.of_nat (length d) | _ => 0%Z end));
           ("processed_data", data) ] in
     let* _ := add_processing_step w session_id "JSONAgent" result in
     let* _ := store_extracted_data w session_id "json_data" data in
     ret result)
    (fun e =>
       let error_result :=
         VDict
           [ ("status", VStr "error");
             ("error", VStr (exn_text w e));
             ("data_type", VStr "json") ] in
       let* _ := add_processing_step w session_id "JSONAgent" error_result in
       ret error_result).

End JSON.

(* ------------------------------------------------------------------- *)
(** ** agents/email_parser_agent.py *)
(* ------------------------------------------------------------------- *)

Module Email.

(** The dict [_parse_email_structure] returns. *)
Record ParsedEmail : Type := {
  pe_headers : Dict.t;
  pe_subject : string;
  pe_from : string;
  pe_to : string;
  pe_date : string;
  pe_body : PyVal
}.

Definition parsed_to_val (pe : ParsedEmail) : PyVal :=
  VDict
    [ ("headers", VDict (pe_headers pe));
      ("subject", VStr (pe_subject pe));
      ("from", VStr (pe_from pe));
      ("to", VStr (pe_to pe));
      ("date", VStr (pe_date pe));
      ("body", pe_body pe) ].

(** [msg.get(name, dflt)]: the first field of that name, letter case
    apart. *)
Fixpoint msg_get (name : string) (items : list (string * string)) (dflt : string)
  : string :=
  match items with
  | [] => dflt
  | (k, v) :: rest =>
      if String.eqb (lower k) (lower name) then v else msg_get name rest dflt
  end.

Definition header_names : list string :=
  ["from"; "to"; "subject"; "date"; "cc"; "bcc"].

(** The loop of [_parse_plain_text_email] from line number [i] on: the
    headers found and the line the body starts at. *)
Fixpoint scan_headers (lines : list string) (i : nat) (headers : Dict.t)
    (body_start : nat) : Dict.t * nat :=
  match lines with
  | [] => (headers, body_start)
  | line :: rest =>
      match split_first ":" line with
      | Some (key, value) =>
          let key := strip key in
          let value := strip value in
          if mem (lower key) header_names
          then scan_headers rest (S i) (Dict.set key (VStr value) headers) (S i)
          else scan_headers rest (S i) headers body_start
      | None =>
          if String.eqb (strip line) EmptyString then (headers, S i)
          else scan_headers rest (S i) headers body_start
      end
  end.

(** [headers.get(a, headers.get(b, ''))] *)
Definition header_or (headers : Dict.t) (a b : string) : PyVal :=
  match Dict.get a headers with
  | Some v => v
  | None => default (VStr EmptyString) (Dict.get b headers)
  end.

Definition text_of (v : PyVal) : string :=
  match v with VStr s => s | _ => EmptyString end.

(** [_parse_plain_text_email] *)
Definition parse_plain_text_email (email_body : string) : ParsedEmail :=
  let lines := split "010" (strip email_body) in
  let '(headers, body_start) := scan_headers lines 0 [] 0 in
  let body := strip (join nl (skipn body_start lines)) in
  {| pe_headers := headers;
     pe_subject := text_of (header_or headers "Subject" "subject");
     pe_from := text_of (header_or headers "From" "from");
     pe_to := text_of (header_or headers "To" "to");
     pe_date := text_of (header_or headers "Date" "date");
     pe_body := VStr body |}.

(** [_parse_email_structure] *)
Definition parse_email_structure (w : World) (email_body : string) : ParsedEmail :=
  match w_parsestr w email_body with
  | Some msg =>
      let items := msg_items msg in
      {| pe_headers := Dict.of_pairs (map (fun kv => (fst kv, VStr (snd kv))) items);
         pe_subject := msg_get "Subject" items EmptyString;
         pe_from := msg_get "From" items EmptyString;
         pe_to := msg_get "To" items EmptyString;
         pe_date := msg_get "Date" items EmptyString;
         pe_body := msg_payload msg |}
  | None => parse_plain_text_email email_body
  end.

Definition signature_patterns : list string :=
  [ "Best regards,\s*\n([^\n]+)";
    "Sincerely,\s*\n([^\n]+)";
    "Thanks,\s*\n([^\n]+)";
    "Regards,\s*\n([^\n]+)" ].

(** [_extract_name_from_content] *)
Fixpoint first_signature (w : World) (patterns : list string) (content : string)
  : string :=
  match patterns with
  | [] => "Unknown Sender"
  | p :: rest =>
      match w_search w p ignorecase_multiline content with
      | Some groups => strip (group 1 groups)
      | None => first_signature w rest content
      end
  end.

Definition extract_name_from_content (w : World) (content : string) : string :=
  first_signature w signature_patterns content.

Definition address_pattern : string := "[\w\.-]+@[\w\.-]+\.\w+".
Definition name_pattern : string := "^([^<]+)<".

(** [_extract_sender_info]; [IndexError] is [split('@')[1]] on an
    address without the sign. *)
Definition extract_sender_info (w : World) (email_body : string)
    (parsed_email : ParsedEmail) : outcome Dict.t :=
  let from_field := pe_from parsed_email in
  let email_address :=
    match w_search w address_pattern no_flags from_field with
    | Some groups => group 0 groups
    | None => EmptyString
    end in
  let name :=
    match w_search w name_pattern no_flags from_field with
    | Some groups => strip_char Json.dquote (strip (group 1 groups))
    | None =>
        if negb (String.eqb email_address EmptyString)
        then title (replace_char "_" " "
                      (replace_char "." " " (nth 0 (split "@" email_address) EmptyString)))
        else extract_name_from_content w email_body
    end in
  let company :=
    if negb (String.eqb email_address EmptyString)
    then match nth_error (split "@" email_address) 1 with
         | Some domain => Ok (title (nth 0 (split "." domain) EmptyString))
         | None => Raise IndexError
         end
    else Ok EmptyString in
  match company with
  | Raise e => Raise e
  | Interrupt i => Interrupt i
  | Ok company =>
      Ok [ ("name", VStr name);
           ("email", VStr email_address);
           ("company", VStr company);
           ("full_from_field", VStr from_field) ]
  end.

(** The prompt of [_analyze_email_content]. *)
Definition analysis_prompt (subject : option string) (email_body : string) : string :=
  let subject_text := or_else subject "No subject" in
  let body_head := take 1500 email_body in
  concat_all [
    nl; "        Analyze this email and provide:"; nl;
    "        1. Intent/Purpose (RFQ, Support Request, Complaint, General Inquiry, etc.)";
    nl; "        2. Urgency Level (Low, Medium, High, Critical)"; nl;
    "        3. Key Topics/Tags (up to 5 relevant keywords)"; nl;
    "        4. Required Action (if any)"; nl;
    "        5. Sentiment (Positive, Neutral, Negative)"; nl; "        "; nl;
    "        Subject: "; subject_text; nl; "        "; nl; "        Email Content:";
    nl; "        "; body_head; "..."; nl; "        "; nl;
    "        Please respond in JSON format:"; nl; "        {"; nl; "            "; q;
    "intent"; q; ": "; q; "..."; q; ","; nl; "            "; q; "urgency"; q; ": ";
    q; "..."; q; ","; nl; "            "; q; "topics"; q; ": [...],"; nl;
    "            "; q; "required_action"; q; ": "; q; "..."; q; ","; nl;
    "            "; q; "sentiment"; q; ": "; q; "..."; q; ","; nl; "            "; q;
    "confidence"; q; ": "; q; "..."; q; nl; "        }"; nl; "        " ].

Definition default_analysis : PyVal :=
  VDict
    [ ("intent", VStr "General Inquiry");
      ("urgency", VStr "Medium");
      ("topics", VList [VStr "general"]);
      ("required_action", VStr "Review and respond");
      ("sentiment", VStr "Neutral");
      ("confidence", VStr "Low") ].

(** [eval(response)]: the evaluation ends as the world says and leaves
    the server as the world says; the readings the expression takes of
    its own are its own, and the count of the caller's readings stays. *)
Definition eval (w : World) (text : string) : M PyVal :=
  fun st =>
    let evaluated := w_eval w text st in
    (fst evaluated,
     {| hashes := hashes (snd evaluated); active := active (snd evaluated);
        expiry := expiry (snd evaluated); tick := tick st |}).

(** [_analyze_email_content]: whatever [eval] makes of the response,
    the default when the call raises or [eval] raises an exception that
    derives from [Exception]; any other exception leaves the method. *)
Definition analyze_email_content (w : World) (email_body : string)
    (subject : option string) : M PyVal :=
  let prompt := analysis_prompt subject email_body in
  let* t := reading in
  match w_generate w t prompt with
  | None => ret default_analysis
  | Some response => try_except (eval w response) (fun _ => ret default_analysis)
  end.

(** [d.get(k, dflt)] *)
Definition get_or (d : Dict.t) (k : string) (dflt : PyVal) : PyVal :=
  default dflt (Dict.get k d).

(** [_create_crm_record]: [sender_info[k]] raises [KeyError] on a record
    without the key, and [analysis.get] raises [AttributeError] on
    anything but a dict. *)
Definition create_crm_record (w : World) (sender_info : Dict.t) (analysis : PyVal)
    (subject : option string) (email_body : string) : M PyVal :=
  match Dict.get "name" sender_info, Dict.get "email" sender_info,
        Dict.get "company" sender_info with
  | Some name, Some email, Some company =>
      match analysis with
      | VDict a =>
          let* stamp := now w in
          ret (VDict
            [ ("contact",
               VDict [ ("name", name); ("email", email); ("company", company) ]);
              ("interaction",
               VDict [ ("type", VStr "email");
                       ("subject", VStr (or_else subject "No Subject"));
                       ("intent", get_or a "intent" (VStr "General"));
                       ("urgency", get_or a "urgency" (VStr "Medium"));
                       ("sentiment", get_or a "sentiment" (VStr "Neutral"));
                       ("topics", get_or a "topics" (VList []));
                       ("required_action", get_or a "required_action" (VStr "Review"));
                       ("content_preview",
                        VStr (if Nat.ltb 200 (String.length email_body)
                              then take 200 email_body +:+ "..." else email_body));
                       ("timestamp", VStr stamp);
                       ("status", VStr "new") ]);
              ("metadata",
               VDict [ ("content_length", VInt (Z.of_nat (String.length email_body)));
                       ("has_attachments", VBool (contains "attachment" (lower email_body)));
                       ("language", VStr "en");
                       ("source", VStr "email_parser_agent") ]) ])
      | _ => raise (AttributeError "get")
      end
  | None, _, _ => raise (KeyError "name")
  | _, None, _ => raise (KeyError "email")
  | _, _, None => raise (KeyError "company")
  end.

(** The text that [_generate_conversation_id] hashes. *)
Definition base_string (w : World) (sender_info : Dict.t) (subject : option string)
  : string :=
  py_str w (get_or sender_info "email" (VStr "unknown"))
    +:+ "_" +:+ or_else subject "no_subject".

(** [_generate_conversation_id] *)
Definition generate_conversation_id (w : World) (sender_info : Dict.t)
    (subject : option string) : string :=
  let conversation_id := take 12 (MD5.hexdigest (base_string w sender_info subject)) in
  "conv_" +:+ conversation_id.

Definition lift {A : Type} (o : outcome A) : M A := fun st => (o, st).

(** [process] on a body that is a string. *)
Definition process_text (w : World) (email_body : string) (subject : option string)
    (session_id : string) : M PyVal :=
  let parsed_email := parse_email_structure w email_body in
  let* sender_info := lift (extract_sender_info w email_body parsed_email) in
  let* analysis := analyze_email_content w email_body subject in
  let* crm_record := create_crm_record w sender_info analysis subject email_body in
  let conversation_id := generate_conversation_id w sender_info subject in
  let* stamp := now w in
  let result : Dict.t :=
    [ ("agent", VStr "email_parser_agent");
      ("conversation_id", VStr conversation_id);
      ("sender_info", VDict sender_info);
      ("analysis", analysis);
      ("crm_record", crm_record);
      ("parsed_email", parsed_to_val parsed_email);
      ("processed_at", VStr stamp) ] in
  let* r := update_session w session_id result in
  ret (VDict (snd r)).

(** [process]. The parsing steps are string operations: on a body
    that is not a string one of them raises before anything is read
    from or written to the store. *)
Definition process (w : World) (email_body : PyVal) (subject : option string)
    (session_id : string) : M PyVal :=
  match email_body with
  | VStr body => process_text w body subject session_id
  | _ => raise (TypeError "expected string")
  end.

End Email.

(* ------------------------------------------------------------------- *)
(** ** agents/pdf_agent.py *)
(* ------------------------------------------------------------------- *)

Module PDF.

(** What one page adds to the text: its number and its text, or its
    number and the error marker when [extract_text] raised. *)
Definition page_piece (page_num : nat) (page : option string) : string :=
  match page with
  | Some page_text =>
      nl +:+ "--- Page " +:+ show_nat (page_num + 1) +:+ " ---" +:+ nl +:+ page_text
  | None =>
      nl +:+ "--- Page " +:+ show_nat (page_num + 1) +:+ " (Error extracting text) ---"
        +:+ nl
  end.

(** The loop of [_extract_text_from_pdf] from page index [page_num]. *)
Fixpoint pages_text (pages : list (option string)) (page_num : nat) (text : string)
  : string :=
  match pages with
  | [] => text
  | page :: rest => pages_text rest (S page_num) (text +:+ page_piece page_num page)
  end.

(** [_extract_text_from_pdf] *)
Definition extract_text_from_pdf (w : World) (pdf_content : PyVal) : string :=
  match w_pdf_pages w pdf_content with
  | inr pages => strip (pages_text pages 0 EmptyString)
  | inl message => "Error extracting PDF text: " +:+ message
  end.

Definition table_patterns : list string :=
  [ "\|.*\|.*\|"; "\t.*\t.*\t"; "^\s*\w+\s+\$?[\d,]+\.?\d*\s*$" ].

Definition address_patterns : list string :=
  [ "\d+\s+\w+\s+(Street|St|Avenue|Ave|Road|Rd|Boulevard|Blvd)";
    "\b\d{5}(-\d{4})?\b";
    "\b[A-Z]{2}\s+\d{5}\b" ].

Definition date_patterns : list string :=
  [ "\d{1,2}/\d{1,2}/\d{2,4}";
    "\d{1,2}-\d{1,2}-\d{2,4}";
    "\b(Jan|Feb|Mar|Apr|May|Jun|Jul|Aug|Sep|Oct|Nov|Dec)\w*\s+\d{1,2},?\s+\d{2,4}";
    "\d{4}-\d{2}-\d{2}" ].

Definition amount_patterns : list string :=
  [ "\$[\d,]+\.?\d*"; "USD\s*[\d,]+\.?\d*"; "Total:?\s*\$?[\d,]+\.?\d*" ].

Definition phone_patterns : list string :=
  [ "\b\d{3}[-.]?\d{3}[-.]?\d{4}\b";
    "\(\d{3}\)\s*\d{3}[-.]?\d{4}";
    "\b\d{3}\s\d{3}\s\d{4}\b" ].

Definition email_pattern : string :=
  "\b[A-Za-z0-9._%+-]+@[A-Za-z0-9.-]+\.[A-Z|a-z]{2,}\b".

Definition detect_tables (w : World) (text : string) : bool :=
  any_match w multiline table_patterns text.
Definition detect_addresses (w : World) (text : string) : bool :=
  any_match w ignorecase address_patterns text.
Definition detect_dates (w : World) (text : string) : bool :=
  any_match w ignorecase date_patterns text.
Definition detect_amounts (w : World) (text : string) : bool :=
  any_match w ignorecase amount_patterns text.
Definition detect_phone_numbers (w : World) (text : string) : bool :=
  any_match w no_flags phone_patterns text.
Definition detect_emails (w : World) (text : string) : bool :=
  any_match w no_flags [email_pattern] text.

(** [_detect_headers] *)
Definition detect_headers (lines : list string) : bool :=
  existsb
    (fun line =>
       (negb (String.eqb (strip line) EmptyString)
        && (isupper line || Nat.leb (count_words line) 5))%bool)
    (firstn 10 lines).

(** The loop of [_identify_sections]. *)
Fixpoint sections_go (lines : list string) (sections : list string)
    (current_section : list string) : list string :=
  match lines with
  | [] =>
      match current_section with
      | [] => sections
      | _ => sections ++ [join nl current_section]
      end
  | line :: rest =>
      let line := strip line in
      if String.eqb line EmptyString then
        match current_section with
        | [] => sections_go rest sections []
        | _ => sections_go rest (sections ++ [join nl current_section]) []
        end
      else sections_go rest sections (current_section ++ [line])
  end.

(** [_identify_sections] *)
Definition identify_sections (lines : list string) : list string :=
  firstn 5 (sections_go lines [] []).

Definition float_of_nat (n : nat) : float :=
  PrimFloat.of_uint63 (Uint63.of_Z (Z.of_nat n)).

Record Structure : Type := {
  has_tables : bool;
  has_headers : bool;
  has_addresses : bool;
  has_dates : bool;
  has_amounts : bool;
  has_phone_numbers : bool;
  has_emails : bool
}.

Definition structure_elements (w : World) (text : string) (lines : list string)
  : Structure :=
  {| has_tables := detect_tables w text;
     has_headers := detect_headers lines;
     has_addresses := detect_addresses w text;
     has_dates := detect_dates w text;
     has_amounts := detect_amounts w text;
     has_phone_numbers := detect_phone_numbers w text;
     has_emails := detect_emails w text |}.

(** The dict [_analyze_document] returns. *)
Record Analysis : Type := {
  statistics : PyVal;
  structure : Structure;
  document_sections : list string
}.

Definition structure_to_val (se : Structure) : PyVal :=
  VDict
    [ ("has_tables", VBool (has_tables se));
      ("has_headers", VBool (has_headers se));
      ("has_addresses", VBool (has_addresses se));
      ("has_dates", VBool (has_dates se));
      ("has_amounts", VBool (has_amounts se));
      ("has_phone_numbers", VBool (has_phone_numbers se));
      ("has_emails", VBool (has_emails se)) ].

Definition analysis_to_val (a : Analysis) : PyVal :=
  VDict
    [ ("statistics", statistics a);
      ("structure_elements", structure_to_val (structure a));
      ("document_sections", VList (map VStr (document_sections a))) ].

(** [_analyze_document] *)
Definition analyze_document (w : World) (text : string) : Analysis :=
  let lines := split "010" text in
  let words := count_words text in
  let stats :=
    VDict
      [ ("total_lines", VInt (Z.of_nat (length lines)));
        ("total_words", VInt (Z.of_nat words));
        ("total_characters", VInt (Z.of_nat (String.length text)));
        ("avg_words_per_line",
         match lines with
         | [] => VInt 0
         | _ => VNum (float_of_nat words / float_of_nat (length lines))%float
         end) ] in
  {| statistics := stats;
     structure := structure_elements w text lines;
     document_sections := identify_sections lines |}.

(** [_basic_extraction] *)
Definition basic_extraction (w : World) (text : string) : PyVal :=
  let add (key pattern : string) (d : Dict.t) : Dict.t :=
    match w_findall w pattern text with
    | [] => d
    | found => Dict.set key (VList (map VStr found)) d
    end in
  VDict
    (add "dates" "\d{1,2}/\d{1,2}/\d{2,4}"
       (add "amounts" "\$[\d,]+\.?\d*"
          (add "phone_numbers" "\b\d{3}[-.]?\d{3}[-.]?\d{4}\b"
             (add "emails" email_pattern [])))).

(** The prompt of [_extract_key_information]. *)
Definition key_information_prompt (text : string) (analysis : Analysis) : string :=
  let se := structure analysis in
  let text_head := take 2000 text in
  concat_all [
    nl;
    "        Extract key information from this document. Based on the document analysis, focus on:";
    nl; "        - Document title/header"; nl; "        - Key dates"; nl;
    "        - Names and contact information"; nl; "        - Monetary amounts"; nl;
    "        - Important numbers (invoice numbers, account numbers, etc.)"; nl;
    "        - Addresses"; nl; "        - Main content summary"; nl; "        "; nl;
    "        Document Analysis Context:"; nl; "        - Has tables: ";
    show_bool (has_tables se); nl; "        - Has amounts: "; show_bool (has_amounts se); nl;
    "        - Has dates: "; show_bool (has_dates se); nl; "        - Has addresses: ";
    show_bool (has_addresses se); nl; "        "; nl;
    "        Document Text (first 2000 chars):"; nl; "        "; text_head; "...";
    nl; "        "; nl;
    "        Return extracted information in JSON format with clear field names.";
    nl; "        " ].

(** [_extract_key_information] *)
Definition extract_key_information (w : World) (text : string) (analysis : Analysis)
  : M PyVal :=
  let prompt := key_information_prompt text analysis in
  let* t := reading in
  match w_generate w t prompt with
  | None => ret (basic_extraction w text)
  | Some response =>
      match Json.loads response with
      | Some extracted => ret extracted
      | None => ret (basic_extraction w text)
      end
  end.

(** The prompt of [_classify_document_type]. *)
Definition document_type_prompt (text : string) : string :=
  let text_head := take 1000 text in
  concat_all [
    nl; "        Classify this document type based on its content. "; nl; "        ";
    nl; "        Common document types:"; nl; "        - Invoice"; nl;
    "        - Receipt"; nl; "        - Contract"; nl; "        - Report"; nl;
    "        - Letter"; nl; "        - Form"; nl; "        - Certificate"; nl;
    "        - Manual"; nl; "        - Brochure"; nl; "        "; nl;
    "        Document content (first 1000 chars):"; nl; "        "; text_head; "...";
    nl; "        "; nl; "        Respond with:"; nl; "        {"; nl; "            ";
    q; "document_type"; q; ": "; q; "..."; q; ","; nl; "            "; q;
    "confidence"; q; ": "; q; "high/medium/low"; q; ","; nl; "            "; q;
    "key_indicators"; q; ": ["; q; "..."; q; ", "; q; "..."; q; "],"; nl;
    "            "; q; "business_category"; q; ": "; q; "..."; q; nl; "        }";
    nl; "        " ].

Definition unknown_document : PyVal :=
  VDict
    [ ("document_type", VStr "Unknown");
      ("confidence", VStr "low");
      ("key_indicators", VList []);
      ("business_category", VStr "General") ].

(** [_classify_document_type] *)
Definition classify_document_type (w : World) (text : string) : M PyVal :=
  let prompt := document_type_prompt text in
  let* t := reading in
  match w_generate w t prompt with
  | None => ret unknown_document
  | Some response =>
      match Json.loads response with
      | Some classification => ret classification
      | None => ret unknown_document
      end
  end.

(** [process] *)
Definition process (w : World) (pdf_content : PyVal) (session_id : string)
  : M PyVal :=
  let extracted_text := extract_text_from_pdf w pdf_content in
  let document_analysis := analyze_document w extracted_text in
  let* extracted_data :=
    extract_key_information w extracted_text document_analysis in
  let* document_classification := classify_document_type w extracted_text in
  let* stamp := now w in
  let result : Dict.t :=
    [ ("agent", VStr "pdf_agent");
      ("document_classification", document_classification);
      ("extracted_text",
       VStr (if Nat.ltb 1000 (String.length extracted_text)
             then take 1000 extracted_text +:+ "..." else extracted_text));
      ("document_analysis", analysis_to_val document_analysis);
      ("extracted_data", extracted_data);
      ("processed_at", VStr stamp) ] in
  let* r := update_session w session_id result in
  ret (VDict (snd r)).

End PDF.

(* ------------------------------------------------------------------- *)
(** ** agents/json_agent.py, class PDFAgent *)
(* ------------------------------------------------------------------- *)

(** The file of [JSONAgent] also holds a strategy for documents given as
    text: word statistics and the most frequent words. *)
Module TextPDF.

Definition stop_words : list string :=
  [ "the"; "a"; "an"; "and"; "or"; "but"; "in"; "on"; "at"; "to"; "for"; "of";
    "with"; "by" ].

(** The argument of [word.strip]: full stop, comma, exclamation and
    question mark, semicolon, colon, double quote, and the round, square
    and curly brackets. *)
Definition punctuation : list ascii :=
  [ "."; ","; "!"; "?"; ";"; ":"; Json.dquote; "("; ")"; "["; "]"; "{"; "}" ]%char.

(** [word_freq.get(word, 0)] *)
Fixpoint frequency (word : string) (word_freq : list (string * nat)) : nat :=
  match word_freq with
  | [] => 0
  | (k, n) :: rest => if String.eqb k word then n else frequency word rest
  end.

(** [word_freq[word] = word_freq.get(word, 0) + 1] on a dict in insertion
    order. *)
Fixpoint bump (word : string) (word_freq : list (string * nat))
  : list (string * nat) :=
  match word_freq with
  | [] => [(word, 1)]
  | (k, n) :: rest =>
      if String.eqb k word then (k, S n) :: rest else (k, n) :: bump word rest
  end.

(** The loop of [_extract_keywords]. *)
Fixpoint count_frequency (words : list string) (word_freq : list (string * nat))
  : list (string * nat) :=
  match words with
  | [] => word_freq
  | word :: rest =>
      let word := strip_chars punctuation word in
      if (Nat.ltb 3 (String.length word) && negb (mem word stop_words))%bool
      then count_frequency rest (bump word word_freq)
      else count_frequency rest word_freq
  end.

(** [sorted(..., key=..., reverse=True)]: the largest key first, entries
    of equal key in the order they had. *)
Fixpoint insert_by_frequency (x : string * nat) (sorted : list (string * nat))
  : list (string * nat) :=
  match sorted with
  | [] => [x]
  | y :: rest =>
      if Nat.leb (snd y) (snd x) then x :: y :: rest
      else y :: insert_by_frequency x rest
  end.

Fixpoint sorted_by_frequency (entries : list (string * nat)) : list (string * nat) :=
  match entries with
  | [] => []
  | x :: rest => insert_by_frequency x (sorted_by_frequency rest)
  end.

(** The words that pass the test of the loop, in the order of the text,
    each as often as it occurs: what [_extract_keywords] is to count. *)
Definition kept_words (text : string) : list string :=
  List.filter
    (fun word => (Nat.ltb 3 (String.length word) && negb (mem word stop_words))%bool)
    (map (strip_chars punctuation) (fields (lower text))).

(** [_extract_keywords] *)
Definition extract_keywords (text : string) : list string :=
  let words := fields (lower text) in
  let word_freq := count_frequency words [] in
  map fst (sorted_by_frequency word_freq).

(** [process] *)
Definition process (w : World) (content : string) (session_id : string) : M PyVal :=
  try_except
    (let word_count := length (fields content) in
     let char_count := String.length content in
     let keywords := extract_keywords content in
     let result :=
       VDict
         [ ("status", VStr "success");
           ("data_type", VStr "pdf");
           ("word_count", VInt (Z.of_nat word_count));
           ("character_count", VInt (Z.of_nat char_count));
           ("keywords", VList (map VStr (firstn 10 keywords)));
           ("summary",
            VStr ("Processed PDF with " +:+ show_nat word_count +:+ " words")) ] in
     let* _ := add_processing_step w session_id "PDFAgent" result in
     let* _ := store_extracted_data w session_id "pdf_text" (VStr content) in
     ret result)
    (fun e =>
       let error_result :=
         VDict
           [ ("status", VStr "error");
             ("error", VStr (exn_text w e));
             ("data_type", VStr "pdf") ] in
       let* _ := add_processing_step w session_id "PDFAgent" error_result in
       ret error_result).

End TextPDF.

End Agents.

(* ===================================================================== *)
(** * main.py: the router *)
(* ===================================================================== *)

Module Router.
Import PyStr Agents.

(** [route_to_agent] *)
Definition route_to_agent (w : World) (classification : Classifier.Classification)
    (content : PyVal) (session_id : string) : M PyVal :=
  let format_type := lower (Classifier.format classification) in
  if String.eqb format_type "pdf" then PDF.process w content session_id
  else if String.eqb format_type "json" then
    match content with
    | VStr text =>
        match Json.loads text with
        | Some data => JSON.process w data session_id
        | None => raise (JSONDecodeError text)
        end
    | _ => JSON.process w content session_id
    end
  else if String.eqb format_type "email" then Email.process w content None session_id
  else raise (ValueError ("Unsupported format: " +:+ format_type)).

End Router.

(* ===================================================================== *)
(** * Sequences of strategy invocations on one session *)
(* ===================================================================== *)

Module Pipeline.
Import Agents.

(** One call of a strategy's [process] with the session's identifier. *)
Inductive invocation : Type :=
| CallJSON (data : PyVal)
| CallEmail (email_body : PyVal) (subject : option string)
| CallPDF (pdf_content : PyVal).

Definition invoke (w : World) (session_id : string) (call : invocation) : M PyVal :=
  match call with
  | CallJSON data => JSON.process w data session_id
  | CallEmail email_body subject => Email.process w email_body subject session_id
  | CallPDF pdf_content => PDF.process w pdf_content session_id
  end.

(** The store after the calls, one after the other; a call that raises
    ends its own request and the next one starts from the store it
    left. *)
Fixpoint invoke_all (w : World) (session_id : string) (calls : list invocation)
    (st : Store) : Store :=
  match calls with
  | [] => st
  | call :: rest => invoke_all w session_id rest (snd (invoke w session_id call st))
  end.

(** The text Redis holds for one field of a session. *)
Definition field (st : Store) (session_id k : string) : option string :=
  hashes st !! Memory.session_key session_id ≫= fun h : gmap string string => h !! k.

(** The fields a strategy passes to [update_session], directly or through
    [add_processing_step] and [store_extracted_data]. *)
Definition strategy_fields : list string :=
  [ "updated_at"; "processing_history"; "extracted_data";
    "agent"; "conversation_id"; "sender_info"; "analysis"; "crm_record";
    "parsed_email"; "processed_at";
    "document_classification"; "extracted_text"; "document_analysis" ].

(** What a strategy leaves alone: the other keys of the server, the
    set of active sessions, the presence of the session itself, and every
    field of it outside [strategy_fields]. *)
Record frame (session_id : string) (st st' : Store) : Prop := {
  frame_others :
    forall key, key <> Memory.session_key session_id ->
      hashes st' !! key = hashes st !! key;
  frame_active : active st' = active st;
  frame_presence :
    is_Some (hashes st' !! Memory.session_key session_id) <->
    is_Some (hashes st !! Memory.session_key session_id);
  frame_fields :
    forall k, k ∉ strategy_fields -> field st' session_id k = field st session_id k;
  frame_readings : tick st <= tick st'
}.

Definition preserves {A : Type} (session_id : string) (m : M A) : Prop :=
  forall st, frame session_id st (snd (m st)).

(** The session a listing shows for an identifier: the decoded hash
    stored under its key, when there is one and it is not empty. *)
Definition listed (st : Store) (session_id : string) : option (gmap string PyVal) :=
  match hashes st !! Memory.session_key session_id with
  | Some h =>
      if Memory.missing (Some (Memory.decode_field <$> h)) then None
      else Some (Memory.decode_field <$> h)
  | None => None
  end.

(** The store before anything is created. *)
Definition empty_store : Store :=
  {| hashes := ∅; active := ∅; expiry := ∅; tick := 0 |}.

(** A world in which the responses that the email strategy evaluates
    leave the server alone, however the evaluation ends. *)
Definition inert (w : World) : Prop :=
  forall text st, snd (Email.eval w text st) = st.

(** A computation that takes every store to one related to it by [R]. *)
Definition keeps {A : Type} (R : Store -> Store -> Prop) (m : M A) : Prop :=
  forall st, R st (snd (m st)).

(** One step appended to a stored history: the new text serialises the
    list that the old text decodes to with one step more at its end. *)
Definition appended (w : World) (old new : option string) : Prop :=
  exists text steps step text',
    old = Some text /\ Memory.decode_field text = VList steps /\
    json_dumps w (VList (steps ++ [step])) = Some text' /\ new = Some text'.

(** One key set in the stored extracted data: the new text serialises
    the mapping that the old text decodes to with the key set. *)
Definition merged (w : World) (old new : option string) : Prop :=
  exists text d data_key data_value text',
    old = Some text /\ Memory.decode_field text = VDict d /\
    json_dumps w (VDict (Dict.set data_key data_value d)) = Some text' /\
    new = Some text'.

(** A field of a stored session written anew, whatever it held: the new
    text is what [update_session] makes of a value. *)
Definition replaced (w : World) (old new : option string) : Prop :=
  exists value text, Memory.encode w value = Some text /\ new = Some text.

(** What the calls before [st'] did to one field of the session, as a
    relation between the store before and the store after. *)
Definition field_by (R : option string -> option string -> Prop)
    (session_id k : string) (st st' : Store) : Prop :=
  rtc R (field st session_id k) (field st' session_id k).

(** A call of the PDF strategy. *)
Definition is_pdf_call (call : invocation) : bool :=
  match call with CallPDF _ => true | _ => false end.

(** A computation that sets no time to live. *)
Definition untimed {A : Type} (m : M A) : Prop :=
  forall st, expiry (snd (m st)) = expiry st.

(** A computation that never takes a reading back, and that has taken
    one at least when it raises a [ValueError]. *)
Definition paced {A : Type} (m : M A) : Prop :=
  forall st,
    tick st <= tick (snd (m st)) /\
    forall msg, fst (m st) = Raise (ValueError msg) -> tick st < tick (snd (m st)).

(** A computation that writes no hash, and one that has written no hash
    when it does not return. *)
Definition reads_only {A : Type} (m : M A) : Prop :=
  forall st, hashes (snd (m st)) = hashes st.

Definition returned {A : Type} (o : outcome A) : bool :=
  match o with Ok _ => true | _ => false end.

Definition all_or_nothing {A : Type} (m : M A) : Prop :=
  forall st, returned (fst (m st)) = false -> hashes (snd (m st)) = hashes st.

End Pipeline.

(* ===================================================================== *)
(** * main.py: the request handlers *)
(* ===================================================================== *)

Module Main.
Import Agents.

(** What a request ends in: the value the handler returns, the
    [HTTPException] it raises, or an exception that does not derive from
    [Exception] and leaves the handler as it came. *)
Inductive reply (A : Type) : Type :=
| Respond (a : A)
| HTTPException (status_code : Z) (detail : string)
| Interrupted (i : interrupt).
Arguments Respond {A} a.
Arguments HTTPException {A} status_code detail.
Arguments Interrupted {A} i.

Definition endpoint (A : Type) : Type := Store -> reply A * Store.

(** What the [except Exception as e] of a handler can catch: an exception
    of the code, or an [HTTPException] that the handler raised inside its
    own [try] (the class derives from [Exception]). *)
Inductive caught : Type :=
| FromCode (e : exn)
| FromHandler (status_code : Z) (detail : string).

(** [str(e)] in the [except] clause; the text of an [HTTPException] is
    the framework's, given by [http_text]. *)
Definition detail_of (w : World) (http_text : Z -> string -> string) (c : caught)
  : string :=
  match c with
  | FromCode e => exn_text w e
  | FromHandler status_code detail => http_text status_code detail
  end.

(** [try: body  except Exception as e:
       raise HTTPException(status_code=500, detail=str(e))]
    around a body that raises no [HTTPException] of its own. *)
Definition guarded {A : Type} (w : World) (body : M A) : endpoint A :=
  fun st =>
    match body st with
    | (Ok a, st') => (Respond a, st')
    | (Raise e, st') => (HTTPException 500 (exn_text w e), st')
    | (Interrupt i, st') => (Interrupted i, st')
    end.

(** The dict the three processing handlers return. *)
Record Response : Type := {
  r_session_id : string;
  r_classification : Classifier.Classification;
  r_result : PyVal;
  r_timestamp : string
}.

(** [process_file].  [file_handler] is an object of
    [utility/file_handler.py], a file that is not among the sources:
    [upload] is what [save_upload] followed by [read_file] gives, the
    content of the file or the exception raised. *)
Definition process_file (w : World) (content_type filename : option string)
    (upload : outcome PyVal) : endpoint Response :=
  guarded w
    (let* content := Email.lift upload in
     let classification := Classifier.classify w content content_type filename None in
     let* stamp := now w in
     let* session_id :=
       Memory.create_session w (py_str w (opt_str filename))
         (Classifier.format classification) (Classifier.intent classification) stamp in
     let* result := Router.route_to_agent w classification content session_id in
     let* timestamp := now w in
     ret {| r_session_id := session_id; r_classification := classification;
            r_result := result; r_timestamp := timestamp |}).

(** [process_email] *)
Definition process_email (w : World) (email_body : string) (subject : option string)
  : endpoint Response :=
  guarded w
    (let classification :=
       Classifier.classify w (VStr email_body) (Some "email") None
         (Some [("subject", opt_str subject)]) in
     let* stamp := now w in
     let* session_id :=
       Memory.create_session w "email" "email" (Classifier.intent classification) stamp in
     let* result := Email.process w (VStr email_body) subject session_id in
     let* timestamp := now w in
     ret {| r_session_id := session_id; r_classification := classification;
            r_result := result; r_timestamp := timestamp |}).

(** [process_json]; the framework passes the body of the request as a
    dict. *)
Definition process_json (w : World) (data : Dict.t) : endpoint Response :=
  guarded w
    (match json_dumps w (VDict data) with
     | None => raise (dumps_error w (VDict data))
     | Some json_content =>
         let classification :=
           Classifier.classify w (VStr json_content) (Some "json") None None in
         let* stamp := now w in
         let* session_id :=
           Memory.create_session w "api" "json" (Classifier.intent classification) stamp in
         let* result := JSON.process w (VDict data) session_id in
         let* timestamp := now w in
         ret {| r_session_id := session_id; r_classification := classification;
                r_result := result; r_timestamp := timestamp |}
     end).

(** [get_session_memory]: the [HTTPException] with status 404 is raised
    inside the [try], so the [except Exception] clause of the same
    statement catches it. *)
Definition get_session_memory (w : World) (http_text : Z -> string -> string)
    (session_id : string) : endpoint (gmap string PyVal) :=
  fun st =>
    let body : (gmap string PyVal + caught + interrupt) * Store :=
      match Memory.get_session session_id st with
      | (Ok memory, st') =>
          if Memory.missing memory
          then (inl (inr (FromHandler 404 "Session not found")), st')
          else (inl (inl (default ∅ memory)), st')
      | (Raise e, st') => (inl (inr (FromCode e)), st')
      | (Interrupt i, st') => (inr i, st')
      end in
    match body with
    | (inl (inl memory), st') => (Respond memory, st')
    | (inl (inr e), st') => (HTTPException 500 (detail_of w http_text e), st')
    | (inr i, st') => (Interrupted i, st')
    end.

(** [get_all_sessions] *)
Definition get_all_sessions (w : World) : endpoint (list (gmap string PyVal)) :=
  guarded w Memory.get_all_sessions.

End Main.

(* ===================================================================== *)
(** * Sample worlds and stores *)
(* ===================================================================== *)

(** Concrete worlds on which the code can be run: the services are down
    in [offline]; in [replying r] the text-generation service answers
    [r]. *)
Module Sample.
Import PyStr.

Fixpoint zeros (n : nat) : string :=
  match n with
  | O => EmptyString
  | S k => String "0" (zeros k)
  end.

Definition pad (width : nat) (s : string) : string :=
  zeros (width - String.length s) +:+ s.

Definition uuid (n : nat) : string :=
  "00000000-0000-4000-8000-" +:+ pad 12 (show_nat n).

Definition clock (n : nat) : string :=
  "2024-01-01T00:00:00." +:+ pad 6 (show_nat n).

Definition hex_nibble (n : N) : ascii :=
  if N.ltb n 10 then ascii_of_N (48 + n) else ascii_of_N (87 + n).

(** A character inside a JSON string literal. *)
Definition escape_char (c : ascii) : string :=
  if Ascii.eqb c Json.dquote then String Json.backslash (String Json.dquote EmptyString)
  else if Ascii.eqb c Json.backslash then String Json.backslash (String Json.backslash EmptyString)
  else if Ascii.eqb c "010" then String Json.backslash "n"
  else if Ascii.eqb c "013" then String Json.backslash "r"
  else if Ascii.eqb c "009" then String Json.backslash "t"
  else if N.ltb (code c) 32
  then String Json.backslash
         ("u00" +:+ String (hex_nibble (code c / 16)) (String (hex_nibble (code c mod 16)) EmptyString))
  else String c EmptyString.

Fixpoint escape (s : string) : string :=
  match s with
  | EmptyString => EmptyString
  | String c t => escape_char c +:+ escape t
  end.

Definition quoted (s : string) : string :=
  String Json.dquote (escape s) +:+ String Json.dquote EmptyString.

(** The decimal text of a computed float: exact, with one fractional
    digit at least. *)
Fixpoint trim_zeros (fuel : nat) (frac : Z) (digits : nat) : Z * nat :=
  match fuel with
  | O => (frac, digits)
  | S f =>
      if (Nat.ltb 1 digits && Z.eqb (frac mod 10) 0)%bool
      then trim_zeros f (frac / 10)%Z (digits - 1)
      else (frac, digits)
  end.

Definition show_float (x : float) : string :=
  match Prim2SF x with
  | S754_zero s => if s then "-0.0" else "0.0"
  | S754_infinity s => if s then "-Infinity" else "Infinity"
  | S754_nan => "NaN"
  | S754_finite s m e =>
      let sign := if s then "-" else EmptyString in
      if Z.leb 0 e then sign +:+ show_Z (Z.pos m * 2 ^ e) +:+ ".0"
      else
        let scale := (10 ^ (- e))%Z in
        let scaled := (Z.pos m * 5 ^ (- e))%Z in
        let '(frac, digits) := trim_zeros (Z.to_nat (- e)) (scaled mod scale)%Z (Z.to_nat (- e)) in
        sign +:+ show_Z (scaled / scale) +:+ "." +:+ pad digits (show_Z frac)
  end.

Fixpoint dumps (v : PyVal) : string :=
  match v with
  | VNone => "null"
  | VBool b => if b then "true" else "false"
  | VInt n => show_Z n
  | VFloat lexeme => lexeme
  | VNum x => show_float x
  | VStr s => quoted s
  | VList items => "[" +:+ join ", " (map dumps items) +:+ "]"
  | VDict entries =>
      "{" +:+ join ", " (map (fun kv => quoted (fst kv) +:+ ": " +:+ dumps (snd kv)) entries)
        +:+ "}"
  | VOther _ shown => shown
  end.

(** [repr] for the same values, in Python's notation. *)
Fixpoint repr (v : PyVal) : string :=
  match v with
  | VNone => "None"
  | VBool b => if b then "True" else "False"
  | VInt n => show_Z n
  | VFloat lexeme => lexeme
  | VNum x => show_float x
  | VStr s => "'" +:+ s +:+ "'"
  | VList items => "[" +:+ join ", " (map repr items) +:+ "]"
  | VDict entries =>
      "{" +:+ join ", " (map (fun kv => "'" +:+ fst kv +:+ "': " +:+ repr (snd kv)) entries)
        +:+ "}"
  | VOther _ shown => shown
  end.

(** Header lines up to the first line that is not of the form
    [name: value]; the rest is the payload. *)
Fixpoint header_lines (lines : list string) (items : list (string * string))
  : list (string * string) * list string :=
  match lines with
  | [] => (items, [])
  | line :: rest =>
      if String.eqb line EmptyString then (items, rest)
      else match split_first ":" line with
           | Some (name, value) => header_lines rest (items ++ [(name, lstrip value)])
           | None => (items, lines)
           end
  end.

Definition parsestr (text : string) : option Message :=
  let '(items, body) := header_lines (split "010" text) [] in
  Some {| msg_items := items;
          msg_payload := VStr (join (String "010"%char EmptyString) body) |}.

(** [eval] of a decimal integer literal. *)
Definition eval_literal (text : string) : option PyVal :=
  match Json.scan_number (lstrip text) with
  | Some (VInt n, EmptyString) => Some (VInt n)
  | _ => None
  end.

(** An evaluator that knows decimal integer literals and nothing else;
    it leaves the store alone. *)
Definition eval_number (text : string) (st : Store) : outcome PyVal * Store :=
  match eval_literal text with
  | Some v => (Ok v, st)
  | None => (Raise (SyntaxError text), st)
  end.

(** An evaluator that also knows three expressions with an effect:
    [exit()], which raises [SystemExit]; a call of the Redis client's
    [flushall], which empties the server and returns [True]; and a call
    of its [hset] that sets one field of one hash and returns 1, the
    number of fields it adds to a hash that does not hold the field. *)
Definition eval_effect (text : string) (st : Store) : outcome PyVal * Store :=
  if String.eqb text "exit()" then (Interrupt (SystemExit VNone), st)
  else if String.eqb text "self.memory_manager.redis_client.flushall()"
  then (Ok (VBool true), {| hashes := ∅; active := ∅; expiry := ∅; tick := tick st |})
  else if String.eqb text
            "self.memory_manager.redis_client.hset('session:nobody', 'source', 'a')"
  then (Ok (VInt 1), snd (Redis.hset "session:nobody" {[ "source" := "a" ]} st))
  else eval_number text st.

Definition replying (answer : option string) : World :=
  {| w_float_nonzero := any_char (fun c => in_range 49 57 c);
     w_repr := repr;
     w_dumps := fun v => if jsonable v then Some (dumps v) else None;
     w_dumps_error := fun _ => None;
     w_uuid := uuid;
     w_now := clock;
     w_generate := fun _ _ => answer;
     w_eval := eval_number;
     w_pdf_pages := fun _ => inl "EOF marker not found";
     w_parsestr := parsestr;
     w_search := fun _ _ _ => None;
     w_findall := fun _ _ => [];
     w_error_text := fun _ => "error" |}.

Definition offline : World := replying None.

(** A world whose email parser finds a message in several parts: the
    payload is a list of message objects. *)
Definition multipart : World :=
  {| w_float_nonzero := w_float_nonzero offline;
     w_repr := w_repr offline;
     w_dumps := w_dumps offline;
     w_dumps_error := w_dumps_error offline;
     w_uuid := w_uuid offline;
     w_now := w_now offline;
     w_generate := w_generate offline;
     w_eval := w_eval offline;
     w_pdf_pages := w_pdf_pages offline;
     w_parsestr :=
       fun _ =>
         Some {| msg_items := [("Content-Type", "multipart/mixed")];
                 msg_payload :=
                   VList [ VOther true "<email.message.Message object>";
                           VOther true "<email.message.Message object>" ] |};
     w_search := w_search offline;
     w_findall := w_findall offline;
     w_error_text := w_error_text offline |}.

(** A world whose text-generation service answers [answer] and whose
    evaluator runs the two expressions with an effect. *)
Definition obeying (answer : string) : World :=
  {| w_float_nonzero := w_float_nonzero offline;
     w_repr := w_repr offline;
     w_dumps := w_dumps offline;
     w_dumps_error := w_dumps_error offline;
     w_uuid := w_uuid offline;
     w_now := w_now offline;
     w_generate := fun _ _ => Some answer;
     w_eval := eval_effect;
     w_pdf_pages := w_pdf_pages offline;
     w_parsestr := w_parsestr offline;
     w_search := w_search offline;
     w_findall := w_findall offline;
     w_error_text := w_error_text offline |}.

(** A world whose identifier generator draws the same identifier every
    time. *)
Definition repeating : World :=
  {| w_float_nonzero := w_float_nonzero offline;
     w_repr := w_repr offline;
     w_dumps := w_dumps offline;
     w_dumps_error := w_dumps_error offline;
     w_uuid := fun _ => uuid 0;
     w_now := w_now offline;
     w_generate := w_generate offline;
     w_eval := w_eval offline;
     w_pdf_pages := w_pdf_pages offline;
     w_parsestr := w_parsestr offline;
     w_search := w_search offline;
     w_findall := w_findall offline;
     w_error_text := w_error_text offline |}.

(** A world whose PDF reader opens every document and finds [pages]. *)
Definition reading_pages (pages : list (option string)) : World :=
  {| w_float_nonzero := w_float_nonzero offline;
     w_repr := w_repr offline;
     w_dumps := w_dumps offline;
     w_dumps_error := w_dumps_error offline;
     w_uuid := w_uuid offline;
     w_now := w_now offline;
     w_generate := w_generate offline;
     w_eval := w_eval offline;
     w_pdf_pages := fun _ => inr pages;
     w_parsestr := w_parsestr offline;
     w_search := w_search offline;
     w_findall := w_findall offline;
     w_error_text := w_error_text offline |}.

(** The store after one [create_session] on the empty store, and the
    identifier of that session. *)
Definition session_id : string := uuid 0.

Definition one_session : Store :=
  snd (Memory.create_session offline "email" "email" "support_ticket"
         "2024-01-01T00:00:00" Pipeline.empty_store).

End Sample.

(* ===================================================================== *)
(** * Properties *)
(* ===================================================================== *)

(** ** Strings *)

Lemma take_drop (n : nat) (s : string) : PyStr.take n s +:+ PyStr.drop n s = s.
Proof.
  revert s; induction n as [|n IH]; intros [|c t]; try reflexivity.
  exact (f_equal (String c) (IH t)).
Qed.

Lemma endswith_app (p s : string) :
  PyStr.endswith p s = true -> exists a, s = a +:+ p.
Proof.
  unfold PyStr.endswith. intros H.
  apply andb_prop in H as [_ H]. apply String.eqb_eq in H.
  exists (PyStr.take (String.length s - String.length p) s).
  pose proof (take_drop (String.length s - String.length p) s) as E.
  rewrite H in E. now symmetry.
Qed.

Lemma lower_empty (s : string) : PyStr.lower s = EmptyString -> s = EmptyString.
Proof. destruct s; simpl; [reflexivity | discriminate]. Qed.

(** Splitting at the dots a text that ends in [".pdf"] gives one item at
    least before the final ["pdf"]. *)
Lemma split_dot_pdf (a : string) :
  exists first rest, PyStr.split "." (a +:+ ".pdf") = (first :: rest) ++ ["pdf"].
Proof.
  induction a as [|c a IH].
  - exists EmptyString, []. reflexivity.
  - destruct IH as (first & rest & IH).
    change (String c a +:+ ".pdf") with (String c (a +:+ ".pdf")).
    cbn [PyStr.split]. rewrite IH.
    destruct (Ascii.eqb c "."); cbn [app].
    + exists EmptyString, (first :: rest). reflexivity.
    + exists (String c first), rest. reflexivity.
Qed.

Lemma last_item_snoc (l : list string) (x : string) : PyStr.last_item (l ++ [x]) = x.
Proof. unfold PyStr.last_item. apply last_last. Qed.

Lemma extension_pdf (s : string) :
  PyStr.endswith ".pdf" s = true -> PyStr.last_item (PyStr.split "." s) = "pdf".
Proof.
  intros H. apply endswith_app in H as [a ->].
  destruct (split_dot_pdf a) as (first & rest & ->).
  apply last_item_snoc.
Qed.

(** ** The classifier *)

Ltac in_the_list :=
  repeat (apply elem_of_cons; first [left; reflexivity | right]).

Lemma format_of_filename_pdf (filename : string) :
  PyStr.endswith ".pdf" (PyStr.lower filename) = true ->
  Classifier.format_of_filename (Some filename) = Some "pdf".
Proof.
  intros H. unfold Classifier.format_of_filename.
  destruct (String.eqb_spec filename EmptyString) as [-> | _].
  - discriminate H.
  - now rewrite (extension_pdf _ H).
Qed.

(** A hint that is a key of the format table decides the format,
    whatever the filename and the content are. *)
Lemma hint_in_table_decides (w : World) (content : PyVal) (hint f : string)
    (filename : option string) (metadata : option Dict.t) :
  (hint, f) ∈ Classifier.format_patterns ->
  Classifier.format (Classifier.classify w content (Some hint) filename metadata) = f.
Proof.
  intros Hin. cbn [Classifier.classify Classifier.format].
  unfold Classifier.determine_format, Classifier.format_patterns in *.
  repeat (apply elem_of_cons in Hin as [[= -> ->] | Hin]; [reflexivity|]).
  now apply elem_of_nil in Hin.
Qed.

(** C5, as the code has it.  The file-type hint is looked at before the
    filename: a hint that is a key of the format table decides the
    format.  So a filename that ends in [.pdf], in any letter case, makes
    the format [pdf] whatever the content is exactly when the hint is
    not one of the five keys of the table that stand for another format;
    with the hint absent, empty, unknown to the table or
    [application/pdf], the extension decides. *)
Theorem pdf_extension_wins_unless_hint_decides
    (w : World) (content : PyVal) (file_type : option string) (filename : string)
    (metadata : option Dict.t) :
  PyStr.endswith ".pdf" (PyStr.lower filename) = true ->
  (Classifier.format (Classifier.classify w content file_type (Some filename) metadata)
     = "pdf" <->
   file_type ∉ [ Some "application/json"; Some "text/json"; Some "message/rfc822";
                 Some "text/plain"; Some "text/html" ]) /\
  (forall hint f any_content any_filename,
     (hint, f) ∈ Classifier.format_patterns ->
     Classifier.format
       (Classifier.classify w any_content (Some hint) any_filename metadata) = f).
Proof.
  intros Hpdf. split; [|intros; now apply hint_in_table_decides].
  cbn [Classifier.classify Classifier.format].
  unfold Classifier.determine_format.
  rewrite (format_of_filename_pdf _ Hpdf).
  destruct file_type as [hint|]; cbn [Classifier.format_of_file_type].
  2: { split; [|reflexivity]. intros _ Hin.
       repeat (apply elem_of_cons in Hin as [Hin | Hin]; [discriminate|]).
       now apply elem_of_nil in Hin. }
  destruct (String.eqb_spec hint EmptyString) as [-> | _].
  { split; [|reflexivity]. intros _ Hin.
    repeat (apply elem_of_cons in Hin as [Hin | Hin]; [discriminate|]).
    now apply elem_of_nil in Hin. }
  unfold Classifier.format_patterns. cbn [Classifier.assoc].
  repeat match goal with
         | |- context [if String.eqb ?k hint then _ else _] =>
             destruct (String.eqb_spec k hint) as [<- | ?]
         end;
    (split;
     [ intros Hf Hin; try discriminate Hf;
       repeat (apply elem_of_cons in Hin as [Hin | Hin]; [congruence|]);
       now apply elem_of_nil in Hin
     | intros Hnot; try reflexivity; exfalso; apply Hnot; in_the_list ]).
Qed.

Lemma pdf_extension_wins_unless_hint_decides_witness :
  Classifier.format
    (Classifier.classify Sample.offline (VStr "{}") (Some "application/pdf")
       (Some "Report.PDF") None)
  = "pdf" /\
  Classifier.format
    (Classifier.classify Sample.offline (VStr "{}") (Some "application/octet-stream")
       (Some "Report.PDF") None)
  = "pdf".
Proof.
  split.
  - destruct (pdf_extension_wins_unless_hint_decides Sample.offline (VStr "{}")
                (Some "application/pdf") "Report.PDF" None) as [Hiff _]; [reflexivity|].
    apply Hiff. intros Hin.
    repeat (apply elem_of_cons in Hin as [Hin | Hin]; [discriminate|]).
    now apply elem_of_nil in Hin.
  - destruct (pdf_extension_wins_unless_hint_decides Sample.offline (VStr "{}")
                (Some "application/octet-stream") "Report.PDF" None) as [Hiff _];
      [reflexivity|].
    apply Hiff. intros Hin.
    repeat (apply elem_of_cons in Hin as [Hin | Hin]; [discriminate|]).
    now apply elem_of_nil in Hin.
Defined.

(** C5 as stated fails: with the hint [text/plain], a file named
    [report.pdf] is classified as [text]. *)
Lemma pdf_extension_loses_to_type_hint :
  PyStr.endswith ".pdf" (PyStr.lower "report.pdf") = true /\
  Classifier.format
    (Classifier.classify Sample.offline (VStr "%PDF-1.4") (Some "text/plain")
       (Some "report.pdf") None)
  = "text".
Proof. split; reflexivity. Qed.

Lemma assoc_format_known (file_type f : string) :
  Classifier.assoc file_type Classifier.format_patterns = Some f -> f <> "unknown".
Proof.
  unfold Classifier.format_patterns. cbn [Classifier.assoc].
  repeat match goal with
         | |- context [if ?b then _ else _] => destruct b
         end; intros [= <-]; discriminate.
Qed.

Lemma format_of_file_type_known (file_type : option string) (f : string) :
  Classifier.format_of_file_type file_type = Some f -> f <> "unknown".
Proof.
  destruct file_type as [ft|]; cbn; [|discriminate].
  destruct (String.eqb ft EmptyString); [discriminate|].
  apply assoc_format_known.
Qed.

Lemma format_of_filename_known (filename : option string) (f : string) :
  Classifier.format_of_filename filename = Some f -> f <> "unknown".
Proof.
  unfold Classifier.format_of_filename.
  destruct filename as [fn|]; [|discriminate].
  repeat match goal with
         | |- context [if ?b then _ else _] => destruct b
         end; intros [= <-]; discriminate.
Qed.

Lemma format_of_content_unknown (content : PyVal) :
  Classifier.format_of_content content = "unknown" <->
  is_dict content = false /\ is_str content = false.
Proof.
  unfold Classifier.format_of_content.
  destruct content; cbn;
    repeat match goal with
           | |- context [if ?b then _ else _] => destruct b
           end; split; try discriminate; try tauto; intros [? ?]; discriminate.
Qed.

(** [unknown] is the format of total ambiguity only. *)
Lemma determine_format_unknown
    (content : PyVal) (file_type filename : option string) :
  Classifier.determine_format content file_type filename = "unknown" <->
  Classifier.format_of_file_type file_type = None /\
  Classifier.format_of_filename filename = None /\
  is_dict content = false /\ is_str content = false.
Proof.
  unfold Classifier.determine_format.
  destruct (Classifier.format_of_file_type file_type) as [f|] eqn:Eft.
  { split; [|intros [? _]; discriminate].
    intros ->. now apply format_of_file_type_known in Eft. }
  destruct (Classifier.format_of_filename filename) as [f|] eqn:Efn.
  { split; [|intros (_ & ? & _); discriminate].
    intros ->. now apply format_of_filename_known in Efn. }
  rewrite format_of_content_unknown. tauto.
Qed.

Lemma determine_intent_general
    (w : World) (content : PyVal) (format_type : string) (metadata : option Dict.t) :
  Classifier.determine_intent w content format_type metadata = "general_processing" <->
  PyStr.contains_any Classifier.intent_keywords (PyStr.lower (py_str w content)) = false /\
  format_type <> "email" /\ format_type <> "pdf".
Proof.
  unfold Classifier.determine_intent, Classifier.intent_keywords, PyStr.contains_any.
  rewrite !existsb_app, !orb_false_iff.
  repeat match goal with
         | |- context [if existsb ?f ?l then _ else _] => destruct (existsb f l)
         end;
    try (split; [discriminate | intros H; decompose [and] H; discriminate]).
  destruct (String.eqb_spec format_type "email") as [-> | Ne];
    [split; [discriminate | tauto]|].
  destruct (String.eqb_spec format_type "pdf") as [-> | Np];
    [split; [discriminate | tauto]|].
  tauto.
Qed.

(** C9: [classify] is a total function of its four arguments (the only
    call in it that can raise, [json.loads], is guarded inside
    [_is_json_string]); the format it returns is [unknown] exactly when
    no file-type rule, no extension rule and no content rule applies, and
    the intent is [general_processing] exactly when no keyword occurs in
    the text of the content and the format is neither [email] nor
    [pdf]. *)
Theorem classify_resolves_ambiguity
    (w : World) (content : PyVal) (file_type filename : option string)
    (metadata : option Dict.t) :
  (Classifier.format (Classifier.classify w content file_type filename metadata)
     = "unknown" <->
   Classifier.format_of_file_type file_type = None /\
   Classifier.format_of_filename filename = None /\
   is_dict content = false /\ is_str content = false) /\
  (Classifier.intent (Classifier.classify w content file_type filename metadata)
     = "general_processing" <->
   PyStr.contains_any Classifier.intent_keywords (PyStr.lower (py_str w content)) = false /\
   Classifier.format (Classifier.classify w content file_type filename metadata) <> "email" /\
   Classifier.format (Classifier.classify w content file_type filename metadata) <> "pdf").
Proof.
  cbn [Classifier.classify Classifier.format Classifier.intent]. split.
  - apply determine_format_unknown.
  - apply determine_intent_general.
Qed.

(** On total ambiguity ([None] as content, no hints) the answer is
    [unknown] and [general_processing], at the base confidence. *)
Example classify_none :
  Classifier.classify Sample.offline VNone None None None =
  {| Classifier.format := "unknown";
     Classifier.intent := "general_processing";
     Classifier.confidence := 0.7%float;
     Classifier.metadata :=
       {| Classifier.md_file_type := None; Classifier.md_filename := None;
          Classifier.md_content_length := 0 |} |}.
Proof. reflexivity. Qed.

(** A string that is not a JSON document makes [json.loads] raise inside
    [_is_json_string]; the classification goes on to the next rules. *)
Example classify_broken_json :
  Json.loads "{not json" = None /\
  Classifier.format (Classifier.classify Sample.offline (VStr "{not json") None None None)
  = "text".
Proof. split; reflexivity. Qed.

(** ** The confidence score *)

(** The score lies between 0.7 and 1.0. *)
Lemma confidence_in_range (content : PyVal) (format_type intent : string) :
  PrimFloat.leb 0.7 (Classifier.calculate_confidence content format_type intent) = true /\
  PrimFloat.leb (Classifier.calculate_confidence content format_type intent) 1.0 = true.
Proof.
  unfold Classifier.calculate_confidence.
  destruct (PyStr.mem format_type _), (negb _); split; reflexivity.
Qed.

(** In binary64 the sums 0.7 + 0.2 + 0.1, 0.7 + 0.2 and 0.7 + 0.1 all
    round below 1.0, so the clamp never applies and the score is never
    1.0. *)
Lemma confidence_below_one (content : PyVal) (format_type intent : string) :
  PrimFloat.ltb (Classifier.calculate_confidence content format_type intent) 1.0 = true.
Proof.
  unfold Classifier.calculate_confidence.
  destruct (PyStr.mem format_type _), (negb _); reflexivity.
Qed.

(** C1 at a clear format with a clear intent: the content ["invoice"]
    with the hint [application/pdf] is classified as [pdf] and
    [invoice_processing], and its confidence is 0.9999999999999999, the
    binary64 value of 0.7 + 0.2 + 0.1, not 1.0. *)
Theorem confidence_of_clear_input_is_not_one :
  Classifier.classify Sample.offline (VStr "invoice") (Some "application/pdf") None None =
  {| Classifier.format := "pdf";
     Classifier.intent := "invoice_processing";
     Classifier.confidence := 0.9999999999999999%float;
     Classifier.metadata :=
       {| Classifier.md_file_type := Some "application/pdf";
          Classifier.md_filename := None;
          Classifier.md_content_length := 7 |} |}
  /\ PrimFloat.eqb 0.9999999999999999 1.0 = false.
Proof. split; reflexivity. Qed.

(** In exact arithmetic the score is 1 exactly on a clear format with an
    intent other than [general_processing], and it lies between 7/10 and
    1: the statement that the float computation misses by rounding. *)
Lemma exact_confidence_one_iff (format_type intent : string) :
  ((7 # 10) <= Classifier.exact_confidence format_type intent <= 1)%Q /\
  ((Classifier.exact_confidence format_type intent == 1)%Q <->
   PyStr.mem format_type Classifier.clear_formats = true /\
   intent <> "general_processing").
Proof.
  unfold Classifier.exact_confidence.
  destruct (PyStr.mem format_type _);
    destruct (String.eqb_spec intent "general_processing") as [Hi | Hi]; cbn [negb];
    (split; [split; vm_compute; discriminate|]); split.
  - intros H. vm_compute in H. discriminate.
  - intros [_ H]. contradiction.
  - intros _. split; [reflexivity | assumption].
  - intros _. vm_compute. reflexivity.
  - intros H. vm_compute in H. discriminate.
  - intros [H _]. discriminate.
  - intros H. vm_compute in H. discriminate.
  - intros [H _]. discriminate.
Qed.

(** The top score, 0.7 + 0.2 + 0.1 in binary64, is reached exactly on a
    clear format with an intent other than [general_processing]. *)
Lemma confidence_top_iff (content : PyVal) (format_type intent : string) :
  Classifier.calculate_confidence content format_type intent = 0.9999999999999999%float <->
  PyStr.mem format_type Classifier.clear_formats = true /\ intent <> "general_processing".
Proof.
  unfold Classifier.calculate_confidence, Classifier.clear_formats.
  destruct (PyStr.mem format_type _); destruct (String.eqb_spec intent "general_processing");
    cbn [negb]; split; try (intros [? ?]; congruence); try tauto; intros H;
    try (apply (f_equal (fun x => PrimFloat.ltb x 0.95)) in H; vm_compute in H; discriminate).
  all: split; [reflexivity | assumption].
Qed.

(** The order document of the specification's examples: [json] by the
    hint, [order_processing] by the keyword, and the top score. *)
Example classify_order_document :
  Classifier.classify Sample.offline
    (VStr ("{" +:+ Agents.q +:+ "order_id" +:+ Agents.q +:+ ": 42}"))
    (Some "application/json") None None =
  {| Classifier.format := "json";
     Classifier.intent := "order_processing";
     Classifier.confidence := 0.9999999999999999%float;
     Classifier.metadata :=
       {| Classifier.md_file_type := Some "application/json";
          Classifier.md_filename := None;
          Classifier.md_content_length := 16 |} |}.
Proof. reflexivity. Qed.

(** The email of the specification's examples, classified the way
    [process_email] asks for it: the hint [email] is not a key of the
    table, the content is recognised by its markers, and the word [help]
    makes it a support ticket. *)
Example classify_support_email :
  Classifier.format
    (Classifier.classify Sample.offline
       (VStr ("From: a@b.com" +:+ Agents.nl +:+ "Subject: Help" +:+ Agents.nl
                +:+ Agents.nl +:+ "I have an issue"))
       (Some "email") None (Some [("subject", VNone)])) = "email" /\
  Classifier.intent
    (Classifier.classify Sample.offline
       (VStr ("From: a@b.com" +:+ Agents.nl +:+ "Subject: Help" +:+ Agents.nl
                +:+ Agents.nl +:+ "I have an issue"))
       (Some "email") None (Some [("subject", VNone)])) = "support_ticket".
Proof. split; reflexivity. Qed.

(** ** [json.loads] *)

Lemma length_app (a b : string) :
  String.length (a +:+ b) = String.length a + String.length b.
Proof. induction a as [|c a IH]; [reflexivity | exact (f_equal S IH)]. Qed.

Lemma utf8_length (cp : N) : String.length (Json.utf8 cp) <= 4.
Proof.
  unfold Json.utf8.
  repeat match goal with |- context [if ?b then _ else _] => destruct b end; cbn; lia.
Qed.

Lemma emit_inv (out t r : string) (k : option (string * string)) :
  Json.emit out k = Some (t, r) -> exists t', k = Some (t', r) /\ t = out +:+ t'.
Proof.
  destruct k as [[t' r']|]; cbn; [|discriminate].
  intros [= <- <-]. eauto.
Qed.

Lemma skip_ws_length (s : string) : String.length (Json.skip_ws s) <= String.length s.
Proof.
  induction s as [|c s IH]; cbn; [lia|].
  destruct (Json.is_ws c); cbn; lia.
Qed.

(** A string literal is longer than the text it denotes: every decoded
    byte comes from one input character at least, and the closing quote
    from one more. *)
Lemma scan_string_shorter (n : nat) :
  forall s t r, String.length s <= n -> Json.scan_string s = Some (t, r) ->
  String.length t + String.length r < String.length s.
Proof.
  induction n as [|n IH]; intros s t r Hn H.
  { destruct s; [discriminate | cbn in Hn; lia]. }
  destruct s as [|c s1]; [discriminate|]. cbn [Json.scan_string] in H.
  destruct (Ascii.eqb c Json.dquote).
  { injection H as <- <-. cbn. lia. }
  destruct (Ascii.eqb c Json.backslash).
  - destruct s1 as [|e r1]; [discriminate|].
    destruct (Ascii.eqb e "u").
    + destruct r1 as [|h1 [|h2 [|h3 [|h4 r5]]]]; try discriminate.
      destruct (Json.hex4 h1 h2 h3 h4) as [u|]; [|discriminate].
      pose proof (utf8_length u) as Lu.
      assert (Short : forall t' , Json.scan_string r5 = Some (t', r) ->
                String.length t' + String.length r < String.length r5).
      { intros t' E. apply IH; [cbn in Hn; lia | exact E]. }
      remember (Json.scan_string r5) as k5 eqn:E5.
      assert (Plain : Json.emit (Json.utf8 u) k5 = Some (t, r) ->
                String.length t + String.length r
                < String.length (String c (String e (String h1 (String h2 (String h3 (String h4 r5))))))).
      { intros E. apply emit_inv in E as (t' & -> & ->).
        specialize (Short t' eq_refl). rewrite length_app. cbn [String.length]. lia. }
      destruct r5 as [|b [|x [|g1 [|g2 [|g3 [|g4 r11]]]]]]; try (now apply Plain).
      destruct (_ && _ && _)%bool; [|now apply Plain].
      destruct (Json.hex4 g1 g2 g3 g4) as [u2|]; [|discriminate].
      destruct (Json.is_low_surrogate u2); [|now apply Plain].
      apply emit_inv in H as (t' & E & ->).
      apply IH in E; [|cbn in Hn; lia].
      rewrite length_app.
      pose proof (utf8_length (65536 + (u - 55296) * 1024 + (u2 - 56320))%N).
      cbn [String.length] in *. lia.
    + destruct (Json.unescape e); [|discriminate].
      apply emit_inv in H as (t' & E & ->).
      apply IH in E; [|cbn in Hn; lia].
      rewrite ?length_app; cbn [String.length] in *; lia.
  - destruct (N.ltb _ _); [discriminate|].
    apply emit_inv in H as (t' & E & ->).
    apply IH in E; [|cbn in Hn; lia].
      rewrite ?length_app; cbn [String.length] in *; lia.
Qed.

Lemma scan_number_not_str (s : string) (v : PyVal) (r : string) :
  Json.scan_number s = Some (v, r) -> is_str v = false.
Proof.
  unfold Json.scan_number.
  destruct (Json.scan_int s) as [[[neg ds] r1]|]; [|discriminate].
  destruct (Json.scan_frac r1) as [frac r2], (Json.scan_exp r2) as [ex r3].
  destruct frac, ex; intros [= <- <-]; reflexivity.
Qed.

Lemma parse_elems_not_str (f : nat) :
  forall s acc v r, Json.parse_elems f s acc = Some (v, r) -> is_str v = false.
Proof.
  induction f as [|f IH]; intros s acc v r H; [discriminate|].
  cbn [Json.parse_elems] in H.
  destruct (Json.parse_value f s) as [[v1 r1]|]; [|discriminate].
  destruct (Json.skip_ws r1) as [|c r']; [discriminate|].
  destruct (Ascii.eqb c "]"); [now injection H as <- <-|].
  destruct (Ascii.eqb c ","); [|discriminate].
  eapply IH, H.
Qed.

Lemma parse_members_not_str (f : nat) :
  forall s acc v r, Json.parse_members f s acc = Some (v, r) -> is_str v = false.
Proof.
  induction f as [|f IH]; intros s acc v r H; [discriminate|].
  cbn [Json.parse_members] in H.
  destruct s as [|c s1]; [discriminate|].
  destruct (Ascii.eqb c Json.dquote); [|discriminate].
  destruct (Json.scan_string s1) as [[k r1]|]; [|discriminate].
  destruct (Json.skip_ws r1) as [|c2 r2]; [discriminate|].
  destruct (Ascii.eqb c2 ":"); [|discriminate].
  destruct (Json.parse_value f (Json.skip_ws r2)) as [[v3 r3]|]; [|discriminate].
  destruct (Json.skip_ws r3) as [|c3 r4]; [discriminate|].
  destruct (Ascii.eqb c3 "}"); [now injection H as <- <-|].
  destruct (Ascii.eqb c3 ","); [|discriminate].
  eapply IH, H.
Qed.

(** A value that is a string was read from a string literal. *)
Lemma parse_value_str (f : nat) (s t r : string) :
  Json.parse_value f s = Some (VStr t, r) ->
  exists body, s = String Json.dquote body /\ Json.scan_string body = Some (t, r).
Proof.
  destruct f as [|f]; [discriminate|]. cbn [Json.parse_value].
  destruct s as [|c s1]; [discriminate|].
  destruct (Ascii.eqb_spec c Json.dquote) as [-> | _].
  { destruct (Json.scan_string s1) as [[t' r']|] eqn:E; [|discriminate].
    intros [= <- <-]. eauto. }
  destruct (Ascii.eqb c "{").
  { destruct (Json.skip_ws s1) as [|c1 r1]; [discriminate|].
    destruct (Ascii.eqb c1 "}"); [discriminate|].
    intros H. now apply parse_members_not_str in H. }
  destruct (Ascii.eqb c "[").
  { destruct (Json.skip_ws s1) as [|c1 r1]; [discriminate|].
    destruct (Ascii.eqb c1 "]"); [discriminate|].
    intros H. now apply parse_elems_not_str in H. }
  repeat (match goal with |- context [if ?b then _ else _] => destruct b end;
          [discriminate|]).
  destruct (Json.scan_number (String c s1)) as [[v r']|] eqn:E.
  { intros [= -> ->]. now apply scan_number_not_str in E. }
  repeat (match goal with |- context [if ?b then _ else _] => destruct b end;
          [discriminate|]).
  discriminate.
Qed.

(** No text is the JSON literal of itself: when [json.loads] succeeds on
    a string, what it returns is not that string. *)
Lemma loads_not_self (s : string) : Json.loads s <> Some (VStr s).
Proof.
  unfold Json.loads. intros H.
  destruct (Json.parse_value _ _) as [[v rest]|] eqn:E; [|discriminate].
  destruct (Json.skip_ws rest); [|discriminate].
  injection H as ->.
  apply parse_value_str in E as (body & Eb & Es).
  pose proof (scan_string_shorter _ _ _ _ (le_n _) Es) as L.
  pose proof (skip_ws_length s) as Lw. rewrite Eb in Lw. cbn in Lw. lia.
Qed.

(** ** Session memory *)

(** The fields of a new session as Redis stores them. *)
Lemma encode_session_data (w : World) (sid source input_type intent timestamp : string) :
  Memory.encode_items w (Memory.session_data sid source input_type intent timestamp) =
  Some [ ("session_id", sid); ("source", source); ("input_type", input_type);
         ("intent", intent); ("created_at", timestamp); ("updated_at", timestamp);
         ("status", "active"); ("processing_history", "[]"); ("extracted_data", "{}");
         ("metadata", "{}") ].
Proof. reflexivity. Qed.

Lemma create_session_run (w : World) (st : Store)
    (source input_type intent timestamp : string) :
  Memory.create_session w source input_type intent timestamp st =
  (Ok (w_uuid w (tick st)),
   {| hashes :=
        <[Memory.session_key (w_uuid w (tick st)) :=
            list_to_map
              [ ("session_id", w_uuid w (tick st)); ("source", source);
                ("input_type", input_type); ("intent", intent);
                ("created_at", timestamp); ("updated_at", timestamp);
                ("status", "active"); ("processing_history", "[]");
                ("extracted_data", "{}"); ("metadata", "{}") ]
            ∪ default ∅ (hashes st !! Memory.session_key (w_uuid w (tick st)))]>
          (hashes st);
      active := {[w_uuid w (tick st)]} ∪ active st;
      expiry := <[Memory.session_key (w_uuid w (tick st)) := 86400%Z]> (expiry st);
      tick := S (tick st) |}).
Proof.
  unfold Memory.create_session, bind, reading, Memory.encode_mapping.
  rewrite encode_session_data.
  unfold ret, Redis.hset, Redis.sadd, Redis.expire. cbn.
  rewrite lookup_insert_eq. reflexivity.
Qed.

Lemma get_session_run (sid : string) (st : Store) :
  Memory.get_session sid st =
  (Ok ((fun h : gmap string string => Memory.decode_field <$> h)
         <$> hashes st !! Memory.session_key sid), st).
Proof.
  unfold Memory.get_session, bind, Redis.exists_, Redis.hgetall, ret.
  destruct (hashes st !! Memory.session_key sid) as [h|] eqn:E; cbn.
  - rewrite E. reflexivity.
  - reflexivity.
Qed.

Lemma session_key_inj (a b : string) :
  Memory.session_key a = Memory.session_key b -> a = b.
Proof. unfold Memory.session_key. apply String.app_inj. Qed.

(** Reading one field of a session that was just created. *)
Ltac new_session_field :=
  rewrite lookup_fmap, lookup_union;
  vm_compute (list_to_map _ !! _);
  match goal with |- context [Some ?x ∪ ?o] => destruct o end;
  reflexivity.

(** After [create_session], [get_session] finds the session, whatever
    the store held before, with the ten fields of [session_data] decoded
    one by one. *)
Lemma get_after_create (w : World) (st : Store)
    (source input_type intent timestamp : string) :
  exists st' session,
    Memory.create_session w source input_type intent timestamp st
      = (Ok (w_uuid w (tick st)), st') /\
    Memory.get_session (w_uuid w (tick st)) st' = (Ok (Some session), st') /\
    session !! "session_id" = Some (Memory.decode_field (w_uuid w (tick st))) /\
    session !! "source" = Some (Memory.decode_field source) /\
    session !! "input_type" = Some (Memory.decode_field input_type) /\
    session !! "intent" = Some (Memory.decode_field intent) /\
    session !! "created_at" = Some (Memory.decode_field timestamp) /\
    session !! "updated_at" = Some (Memory.decode_field timestamp) /\
    session !! "status" = Some (VStr "active") /\
    session !! "processing_history" = Some (VList []) /\
    session !! "extracted_data" = Some (VDict []) /\
    session !! "metadata" = Some (VDict []).
Proof.
  eexists _, _. split; [apply create_session_run|].
  split.
  { rewrite get_session_run. cbn [hashes]. rewrite lookup_insert_eq. reflexivity. }
  repeat split; new_session_field.
Qed.

(** What [get_session] makes of a stored text: the string itself exactly
    when the text is not a JSON document. *)
Lemma decode_field_identity (s : string) :
  Memory.decode_field s = VStr s <-> Json.loads s = None.
Proof.
  unfold Memory.decode_field. split.
  - destruct (Json.loads s) as [v|] eqn:E; [|reflexivity].
    intros ->. now apply loads_not_self in E.
  - now intros ->.
Qed.

(** C10: [get_session] decodes every stored field with [json.loads] and
    keeps the decoded value when that succeeds.  So the strings given to
    [create_session] come back decoded: [source], [input_type] and
    [intent] are returned as the values their texts denote as JSON (the
    number 123 for ["123"], the boolean for ["true"]), and as the strings
    themselves exactly when their texts are not JSON documents. *)
Theorem create_get_round_trip_decodes (w : World) (st : Store)
    (source input_type intent timestamp : string) :
  (exists st' session,
     Memory.create_session w source input_type intent timestamp st
       = (Ok (w_uuid w (tick st)), st') /\
     Memory.get_session (w_uuid w (tick st)) st' = (Ok (Some session), st') /\
     session !! "source" = Some (Memory.decode_field source) /\
     session !! "input_type" = Some (Memory.decode_field input_type) /\
     session !! "intent" = Some (Memory.decode_field intent)) /\
  (forall (sid : string) (store : Store),
     fst (Memory.get_session sid store) =
     Ok ((fun h : gmap string string => Memory.decode_field <$> h)
           <$> hashes store !! Memory.session_key sid)) /\
  (forall text value, Json.loads text = Some value ->
     Memory.decode_field text = value /\ value <> VStr text) /\
  (forall text, Memory.decode_field text = VStr text <-> Json.loads text = None) /\
  Memory.decode_field "123" = VInt 123 /\
  Memory.decode_field "true" = VBool true /\
  Memory.decode_field "report.pdf" = VStr "report.pdf".
Proof.
  split.
  { destruct (get_after_create w st source input_type intent timestamp)
      as (st' & session & H1 & H2 & _ & H4 & H5 & H6 & _).
    exists st', session. repeat split; assumption. }
  split; [intros; now rewrite get_session_run|].
  split.
  { intros text value E. unfold Memory.decode_field. rewrite E.
    split; [reflexivity|]. intros ->. now apply loads_not_self in E. }
  split; [apply decode_field_identity|].
  repeat split; reflexivity.
Qed.

(** A session created with [source = "123"] reads back with the number
    123 as its source. *)
Example round_trip_number :
  exists st' session,
    Memory.create_session Sample.offline "123" "json" "general_processing"
      "2024-01-01T00:00:00" Pipeline.empty_store
      = (Ok "00000000-0000-4000-8000-000000000000", st') /\
    Memory.get_session "00000000-0000-4000-8000-000000000000" st'
      = (Ok (Some session), st') /\
    session !! "source" = Some (VInt 123).
Proof.
  destruct (get_after_create Sample.offline Pipeline.empty_store "123" "json"
              "general_processing" "2024-01-01T00:00:00")
    as (st' & session & H1 & H2 & _ & H4 & _).
  exists st', session. repeat split; assumption.
Qed.

(** ** What the strategies write *)

Import Pipeline.

Lemma frame_refl (sid : string) (st : Store) : frame sid st st.
Proof. split; intros; reflexivity. Qed.

Lemma frame_trans (sid : string) (a b c : Store) :
  frame sid a b -> frame sid b c -> frame sid a c.
Proof.
  intros [O1 A1 P1 F1 T1] [O2 A2 P2 F2 T2]. split.
  - intros key Hk. now rewrite O2, O1.
  - now rewrite A2, A1.
  - now rewrite P2, P1.
  - intros k Hk. now rewrite F2, F1.
  - lia.
Qed.

(** Taking a reading of the world changes no key. *)
Lemma frame_tick (sid : string) (st : Store) :
  frame sid st
    {| hashes := hashes st; active := active st; expiry := expiry st;
       tick := S (tick st) |}.
Proof. split; intros; try reflexivity. cbn. lia. Qed.

Lemma preserves_ret {A : Type} (sid : string) (a : A) : preserves sid (ret a).
Proof. intros st. apply frame_refl. Qed.

Lemma preserves_raise {A : Type} (sid : string) (e : exn) : preserves sid (@raise A e).
Proof. intros st. apply frame_refl. Qed.

Lemma preserves_lift {A : Type} (sid : string) (o : outcome A) :
  preserves sid (Agents.Email.lift o).
Proof. intros st. apply frame_refl. Qed.

Lemma preserves_bind {A B : Type} (sid : string) (m : M A) (k : A -> M B) :
  preserves sid m -> (forall a, preserves sid (k a)) -> preserves sid (bind m k).
Proof.
  intros Hm Hk st. unfold bind. specialize (Hm st).
  destruct (m st) as [[a|e|i] st1]; cbn [snd] in *; [|exact Hm..].
  eapply frame_trans; [exact Hm | apply Hk].
Qed.

Lemma preserves_try_except {A : Type} (sid : string) (m : M A) (h : exn -> M A) :
  preserves sid m -> (forall e, preserves sid (h e)) -> preserves sid (try_except m h).
Proof.
  intros Hm Hh st. unfold try_except. specialize (Hm st).
  destruct (m st) as [[a|e|i] st1]; cbn [snd] in *; [exact Hm| |exact Hm].
  eapply frame_trans; [exact Hm | apply Hh].
Qed.

Lemma preserves_reading (sid : string) : preserves sid reading.
Proof. intros st. apply frame_tick. Qed.

Lemma preserves_now (sid : string) (w : World) : preserves sid (now w).
Proof.
  apply preserves_bind; [apply preserves_reading | intros; apply preserves_ret].
Qed.

Lemma preserves_get_session (sid other : string) :
  preserves sid (Memory.get_session other).
Proof. intros st. rewrite get_session_run. apply frame_refl. Qed.

(** An evaluation that leaves the server alone changes no key. *)
Lemma preserves_eval (w : World) (sid text : string) :
  inert w -> preserves sid (Agents.Email.eval w text).
Proof. intros Hinert st. rewrite Hinert. apply frame_refl. Qed.

Lemma encode_items_keys (w : World) (d : Dict.t) (items : list (string * string)) (k : string) :
  Memory.encode_items w d = Some items -> k ∉ Dict.keys d ->
  (list_to_map items : gmap string string) !! k = None.
Proof.
  revert items. induction d as [|[k0 v0] d IH]; intros items H Hk; cbn in H.
  - injection H as <-. apply lookup_empty.
  - destruct (Memory.encode w v0) as [s0|]; [|discriminate].
    destruct (Memory.encode_items w d) as [rest|]; [|discriminate].
    injection H as <-. cbn in Hk. apply not_elem_of_cons in Hk as [Hne Hk].
    change (list_to_map ((k0, s0) :: rest)) with (<[k0 := s0]> (list_to_map rest : gmap string string)).
    rewrite lookup_insert_ne by congruence. now apply IH.
Qed.

Lemma dict_set_keys (k k' : string) (v : PyVal) (d : Dict.t) :
  k' ∈ Dict.keys (Dict.set k v d) -> k' = k \/ k' ∈ Dict.keys d.
Proof.
  induction d as [|[k0 v0] d IH]; cbn.
  - rewrite elem_of_cons, elem_of_nil. tauto.
  - destruct (String.eqb k0 k); cbn; rewrite !elem_of_cons; [tauto|].
    intros [-> | H]; [tauto|]. destruct (IH H); tauto.
Qed.

(** [update_session] writes the keys of [updates] and [updated_at], and
    only when the session is there. *)
Lemma preserves_update_session (w : World) (sid : string) (updates : Dict.t) :
  (forall k, k ∈ Dict.keys updates -> k ∈ strategy_fields) ->
  preserves sid (Memory.update_session w sid updates).
Proof.
  intros Hkeys st.
  unfold Memory.update_session, bind, Redis.exists_, now, reading, bind, ret,
    Memory.encode_mapping, Redis.hset.
  destruct (hashes st !! Memory.session_key sid) as [h|] eqn:E; cbn.
  2: { apply frame_refl. }
  destruct (Memory.encode_items w _) as [items|] eqn:Ei; cbn.
  2: { apply frame_tick. }
  split; cbn.
  - intros key Hk. now rewrite lookup_insert_ne.
  - reflexivity.
  - rewrite lookup_insert_eq, E. split; eauto.
  - intros k Hk. unfold field. cbn. rewrite lookup_insert_eq, E. cbn.
    rewrite lookup_union_r; [reflexivity|].
    eapply encode_items_keys; [exact Ei|].
    intros Hin. apply dict_set_keys in Hin as [-> | Hin].
    + apply Hk. unfold strategy_fields. apply elem_of_cons. now left.
    + apply Hk, Hkeys, Hin.
  - lia.
Qed.

Ltac in_list :=
  repeat (apply elem_of_cons; first [left; reflexivity | right]).

Ltac keys_in_strategy_fields :=
  let k := fresh "k" in
  let Hk := fresh "Hk" in
  cbn; intros k Hk;
  repeat (apply elem_of_cons in Hk as [-> | Hk]; [unfold strategy_fields; in_list|]);
  now apply elem_of_nil in Hk.

Create HintDb frame.

#[local] Hint Resolve preserves_ret preserves_raise preserves_lift preserves_reading
  preserves_now preserves_get_session : frame.

Ltac preserve_step :=
  first
    [ solve [auto with frame]
    | apply preserves_eval; assumption
    | apply preserves_update_session; keys_in_strategy_fields
    | apply preserves_bind; [|intros ?]
    | apply preserves_try_except; [|intros ?]
    | match goal with
      | |- preserves _ (match ?x with _ => _ end) => destruct x
      | |- preserves _ (if ?x then _ else _) => destruct x
      end ].

Ltac preserve := repeat preserve_step.

Lemma preserves_add_processing_step (w : World) (sid agent_name : string) (result : PyVal) :
  preserves sid (Memory.add_processing_step w sid agent_name result).
Proof. unfold Memory.add_processing_step. preserve. Qed.

Lemma preserves_store_extracted_data (w : World) (sid data_key : string) (v : PyVal) :
  preserves sid (Memory.store_extracted_data w sid data_key v).
Proof. unfold Memory.store_extracted_data. preserve. Qed.

#[local] Hint Resolve preserves_add_processing_step preserves_store_extracted_data : frame.

Lemma preserves_json_process (w : World) (sid : string) (data : PyVal) :
  preserves sid (Agents.JSON.process w data sid).
Proof. unfold Agents.JSON.process. preserve. Qed.

(** The email strategy evaluates the response of the text service: what
    it writes beyond its own fields is what the evaluation writes. *)
Lemma preserves_email_process (w : World) (sid : string) (body : PyVal)
    (subject : option string) :
  inert w -> preserves sid (Agents.Email.process w body subject sid).
Proof.
  intros Hinert.
  unfold Agents.Email.process, Agents.Email.process_text,
    Agents.Email.analyze_email_content, Agents.Email.create_crm_record.
  preserve.
Qed.

Lemma preserves_pdf_process (w : World) (sid : string) (content : PyVal) :
  preserves sid (Agents.PDF.process w content sid).
Proof.
  unfold Agents.PDF.process, Agents.PDF.extract_key_information,
    Agents.PDF.classify_document_type.
  preserve.
Qed.

Lemma preserves_invoke (w : World) (sid : string) (call : invocation) :
  inert w -> preserves sid (invoke w sid call).
Proof.
  intros Hinert. destruct call; cbn [invoke];
    auto using preserves_json_process, preserves_email_process, preserves_pdf_process.
Qed.

Lemma frame_invoke_all (w : World) (sid : string) (calls : list invocation) (st : Store) :
  inert w -> frame sid st (invoke_all w sid calls st).
Proof.
  intros Hinert. revert st. induction calls as [|call rest IH]; intros st; cbn [invoke_all].
  - apply frame_refl.
  - eapply frame_trans; [now apply preserves_invoke | apply IH].
Qed.

Lemma missing_false (session : gmap string PyVal) (k : string) (v : PyVal) :
  session !! k = Some v -> Memory.missing (Some session) = false.
Proof.
  intros H. unfold Memory.missing. apply bool_decide_eq_false_2.
  intros ->. rewrite lookup_empty in H. discriminate.
Qed.

(** [update_session] on a session that is there, with values that
    [json.dumps] accepts: the fields written are those of [updates] and
    [updated_at]. *)
Lemma update_session_run (w : World) (sid : string) (updates : Dict.t) (st : Store)
    (h : gmap string string) (items : list (string * string)) :
  hashes st !! Memory.session_key sid = Some h ->
  Memory.encode_items w (Dict.set "updated_at" (VStr (w_now w (tick st))) updates)
    = Some items ->
  Memory.update_session w sid updates st =
  (Ok (true, Dict.set "updated_at" (VStr (w_now w (tick st))) updates),
   {| hashes := <[Memory.session_key sid := list_to_map items ∪ h]> (hashes st);
      active := active st; expiry := expiry st; tick := S (tick st) |}).
Proof.
  intros Hh Hi.
  unfold Memory.update_session, bind, Redis.exists_, now, reading, bind, ret,
    Memory.encode_mapping, Redis.hset.
  rewrite Hh. cbn. rewrite Hi. cbn. rewrite Hh. reflexivity.
Qed.

(** [add_processing_step] appends: the history it stores is the history
    it read with the new step at the end. *)
Lemma add_processing_step_appends (w : World) (sid agent_name : string)
    (result : PyVal) (st : Store) (h : gmap string string) (steps : list PyVal)
    (text : string) :
  hashes st !! Memory.session_key sid = Some h ->
  Memory.decode_field <$> h !! "processing_history" = Some (VList steps) ->
  json_dumps w
    (VList (steps ++ [VDict [ ("agent", VStr agent_name);
                              ("timestamp", VStr (w_now w (tick st)));
                              ("result", result) ]])) = Some text ->
  exists st',
    Memory.add_processing_step w sid agent_name result st = (Ok true, st') /\
    field st' sid "processing_history" = Some text /\
    field st' sid "updated_at" = Some (w_now w (S (tick st))).
Proof.
  intros Hh Hp Hd.
  unfold Memory.add_processing_step, bind at 1.
  rewrite get_session_run, Hh. cbn [fmap option_fmap option_map].
  erewrite missing_false by (rewrite lookup_fmap; exact Hp).
  unfold bind at 1, now, bind at 1, reading, ret. cbn [default from_option id tick].
  rewrite lookup_fmap, Hp.
  unfold bind at 1.
  erewrite update_session_run; [|exact Hh|cbn -[json_dumps]; rewrite Hd; reflexivity].
  eexists. split; [reflexivity|].
  unfold field; cbn; rewrite lookup_insert_eq; cbn; rewrite !lookup_union.
  split.
  - vm_compute (list_to_map _ !! _). now destruct (h !! "processing_history").
  - vm_compute (list_to_map _ !! _). now destruct (h !! "updated_at").
Qed.

(** [store_extracted_data] merges: the mapping it stores is the mapping
    it read with the one key set. *)
Lemma store_extracted_data_merges (w : World) (sid data_key : string)
    (data_value : PyVal) (st : Store) (h : gmap string string) (d : Dict.t)
    (text : string) :
  hashes st !! Memory.session_key sid = Some h ->
  Memory.decode_field <$> h !! "extracted_data" = Some (VDict d) ->
  json_dumps w (VDict (Dict.set data_key data_value d)) = Some text ->
  exists st',
    Memory.store_extracted_data w sid data_key data_value st = (Ok true, st') /\
    field st' sid "extracted_data" = Some text /\
    field st' sid "updated_at" = Some (w_now w (tick st)).
Proof.
  intros Hh Hp Hd.
  unfold Memory.store_extracted_data, bind at 1.
  rewrite get_session_run, Hh. cbn [fmap option_fmap option_map].
  erewrite missing_false by (rewrite lookup_fmap; exact Hp).
  cbn [default from_option id].
  rewrite lookup_fmap, Hp.
  unfold bind at 1.
  erewrite update_session_run; [|exact Hh|cbn -[json_dumps]; rewrite Hd; reflexivity].
  eexists. split; [reflexivity|].
  unfold field; cbn; rewrite lookup_insert_eq; cbn; rewrite !lookup_union.
  split.
  - vm_compute (list_to_map _ !! _). now destruct (h !! "extracted_data").
  - vm_compute (list_to_map _ !! _). now destruct (h !! "updated_at").
Qed.

Ltac not_in_list :=
  let H := fresh "H" in
  intros H; repeat (apply elem_of_cons in H as [H | H]; [discriminate|]);
  now apply elem_of_nil in H.

(** *** How one field of the session changes *)

(** What [update_session] stores under a key is the encoding of the value
    the updates hold under it. *)
Lemma encode_items_lookup (w : World) (d : Dict.t) (items : list (string * string))
    (k : string) :
  Memory.encode_items w d = Some items ->
  (list_to_map items : gmap string string) !! k = Dict.get k d ≫= Memory.encode w.
Proof.
  revert items. induction d as [|[k0 v0] d IH]; intros items H; cbn in H.
  - injection H as <-. reflexivity.
  - destruct (Memory.encode w v0) as [s0|] eqn:E0; [|discriminate].
    destruct (Memory.encode_items w d) as [rest|]; [|discriminate].
    injection H as <-.
    change (list_to_map ((k0, s0) :: rest))
      with (<[k0 := s0]> (list_to_map rest : gmap string string)).
    cbn [Dict.get]. destruct (String.eqb_spec k0 k) as [-> | Hne].
    + rewrite lookup_insert_eq. cbn. now rewrite E0.
    + rewrite lookup_insert_ne by exact Hne. now apply IH.
Qed.

(** After [update_session] a field of the session is as it was, or it is
    the encoding of the value that the stamped updates hold under its
    name. *)
Lemma update_session_field (w : World) (sid : string) (updates : Dict.t) (st : Store)
    (k : string) :
  field (snd (Memory.update_session w sid updates st)) sid k = field st sid k \/
  exists v text,
    Dict.get k (Dict.set "updated_at" (VStr (w_now w (tick st))) updates) = Some v /\
    Memory.encode w v = Some text /\
    field (snd (Memory.update_session w sid updates st)) sid k = Some text.
Proof.
  unfold Memory.update_session, bind, Redis.exists_, now, reading, bind, ret,
    Memory.encode_mapping, Redis.hset.
  destruct (hashes st !! Memory.session_key sid) as [h|] eqn:E; cbn.
  2: { left. reflexivity. }
  destruct (Memory.encode_items w _) as [items|] eqn:Ei; cbn.
  2: { left. reflexivity. }
  unfold field. cbn. rewrite lookup_insert_eq, E. cbn.
  rewrite lookup_union, (encode_items_lookup _ _ _ _ Ei).
  destruct (Dict.get k _) as [v|]; cbn.
  - destruct (Memory.encode w v) as [text|] eqn:Ev.
    + right. exists v, text. repeat split; [exact Ev|].
      now destruct (h !! k).
    + left. now destruct (h !! k).
  - left. now destruct (h !! k).
Qed.

Section FieldBy.

Variable Q : option string -> option string -> Prop.
Variables sid k : string.

Lemma field_by_refl (st : Store) : field_by Q sid k st st.
Proof. apply rtc_refl. Qed.

Lemma field_by_trans (a b c : Store) :
  field_by Q sid k a b -> field_by Q sid k b c -> field_by Q sid k a c.
Proof. apply rtc_trans. Qed.

Lemma field_by_same (st st' : Store) :
  field st' sid k = field st sid k -> field_by Q sid k st st'.
Proof. unfold field_by. intros ->. apply rtc_refl. Qed.

Lemma keeps_ret {A : Type} (a : A) : keeps (field_by Q sid k) (ret a).
Proof. intros st. apply field_by_refl. Qed.

Lemma keeps_raise {A : Type} (e : exn) : keeps (field_by Q sid k) (@raise A e).
Proof. intros st. apply field_by_refl. Qed.

Lemma keeps_lift {A : Type} (o : outcome A) :
  keeps (field_by Q sid k) (Agents.Email.lift o).
Proof. intros st. apply field_by_refl. Qed.

Lemma keeps_bind {A B : Type} (m : M A) (f : A -> M B) :
  keeps (field_by Q sid k) m -> (forall a, keeps (field_by Q sid k) (f a)) ->
  keeps (field_by Q sid k) (bind m f).
Proof.
  intros Hm Hf st. unfold bind. specialize (Hm st).
  destruct (m st) as [[a|e|i] st1]; cbn [snd] in *; [|exact Hm..].
  eapply field_by_trans; [exact Hm | apply Hf].
Qed.

Lemma keeps_try_except {A : Type} (m : M A) (h : exn -> M A) :
  keeps (field_by Q sid k) m -> (forall e, keeps (field_by Q sid k) (h e)) ->
  keeps (field_by Q sid k) (try_except m h).
Proof.
  intros Hm Hh st. unfold try_except. specialize (Hm st).
  destruct (m st) as [[a|e|i] st1]; cbn [snd] in *; [exact Hm| |exact Hm].
  eapply field_by_trans; [exact Hm | apply Hh].
Qed.

Lemma keeps_reading : keeps (field_by Q sid k) reading.
Proof. intros st. now apply field_by_same. Qed.

Lemma keeps_now (w : World) : keeps (field_by Q sid k) (now w).
Proof. intros st. now apply field_by_same. Qed.

Lemma keeps_get_session (other : string) :
  keeps (field_by Q sid k) (Memory.get_session other).
Proof. intros st. rewrite get_session_run. apply field_by_refl. Qed.

Lemma keeps_eval (w : World) (text : string) :
  inert w -> keeps (field_by Q sid k) (Agents.Email.eval w text).
Proof. intros Hinert st. rewrite Hinert. apply field_by_refl. Qed.

(** [update_session] leaves alone the fields it is not given. *)
Lemma keeps_update_session_untouched (w : World) (updates : Dict.t) :
  (forall stamp, Dict.get k (Dict.set "updated_at" (VStr stamp) updates) = None) ->
  keeps (field_by Q sid k) (Memory.update_session w sid updates).
Proof.
  intros Hk st. apply field_by_same.
  destruct (update_session_field w sid updates st k) as [H | (v & text & Hv & _)];
    [exact H|].
  rewrite Hk in Hv. discriminate.
Qed.

End FieldBy.

(** Whatever else is allowed, a field that [update_session] writes is
    replaced. *)
Lemma keeps_update_session_replacing (w : World)
    (Q : option string -> option string -> Prop) (sid k : string) (updates : Dict.t) :
  keeps (field_by (fun old new => Q old new \/ replaced w old new) sid k)
    (Memory.update_session w sid updates).
Proof.
  intros st.
  destruct (update_session_field w sid updates st k) as [H | (v & text & _ & Hv & H)].
  - now apply field_by_same.
  - unfold field_by. rewrite H. apply rtc_once. right.
    exists v, text. split; [exact Hv | reflexivity].
Qed.

(** A relation that allows more is kept as well. *)
Lemma keeps_weaken {A : Type} (Q Q' : option string -> option string -> Prop)
    (sid k : string) (m : M A) :
  (forall old new, Q old new -> Q' old new) ->
  keeps (field_by Q sid k) m -> keeps (field_by Q' sid k) m.
Proof.
  intros Hsub Hm st. unfold field_by.
  eapply rtc_subrel; [|apply Hm]. intros old new. apply Hsub.
Qed.

Create HintDb keeps.

#[local] Hint Resolve keeps_ret keeps_raise keeps_lift keeps_reading keeps_now
  keeps_get_session : keeps.

Ltac keep_step :=
  first
    [ solve [auto with keeps]
    | apply keeps_eval; assumption
    | apply keeps_update_session_untouched; intros ?; reflexivity
    | apply keeps_bind; [|intros ?]
    | apply keeps_try_except; [|intros ?]
    | match goal with
      | |- keeps _ (match ?x with _ => _ end) => destruct x
      | |- keeps _ (if ?x then _ else _) => destruct x
      end ].

Ltac keep := repeat keep_step.

Lemma dict_get_two (k a b : string) (va vb : PyVal) :
  k <> a -> k <> b -> Dict.get k [(a, va); (b, vb)] = None.
Proof.
  intros Ha Hb. cbn [Dict.get].
  destruct (String.eqb_spec a k) as [-> | _]; [congruence|].
  destruct (String.eqb_spec b k) as [-> | _]; [congruence | reflexivity].
Qed.

(** [add_processing_step] changes the stored history by appending one
    step to the list it read, or not at all. *)
Lemma keeps_history_add_processing_step (w : World) (sid agent_name : string)
    (result : PyVal) :
  keeps (field_by (appended w) sid "processing_history")
    (Memory.add_processing_step w sid agent_name result).
Proof.
  intros st. unfold Memory.add_processing_step, bind at 1.
  rewrite get_session_run.
  destruct (hashes st !! Memory.session_key sid) as [h|] eqn:Eh;
    cbn [fmap option_fmap option_map Memory.missing]; [|apply field_by_refl].
  destruct (bool_decide _); [apply field_by_refl|].
  unfold bind at 1, now, bind at 1, reading, ret. cbn [default from_option id].
  rewrite lookup_fmap.
  destruct (h !! "processing_history") as [text|] eqn:Et; cbn [fmap option_fmap option_map];
    [|now apply field_by_same].
  destruct (Memory.decode_field text) as [| | | | | |steps| |] eqn:Ed;
    try (now apply field_by_same).
  unfold bind at 1.
  match goal with
  | |- context [Memory.update_session w sid ?u ?s] =>
      destruct (update_session_field w sid u s "processing_history")
        as [H | (v & text' & Hv & He & H)];
      destruct (Memory.update_session w sid u s) as [[r|e|i] st2]
  end; cbn [snd] in *; try (now apply field_by_same).
  all: unfold field_by; rewrite H; apply rtc_once;
    exists text, steps, (VDict [ ("agent", VStr agent_name);
                                 ("timestamp", VStr (w_now w (tick st)));
                                 ("result", result) ]), text';
    injection Hv as <-;
    (split; [unfold field; cbn; rewrite Eh; cbn; exact Et|]);
    (split; [exact Ed|]); (split; [exact He | reflexivity]).
Qed.

(** It leaves every other field but [updated_at] as it was. *)
Lemma keeps_other_add_processing_step (w : World)
    (Q : option string -> option string -> Prop) (sid k agent_name : string)
    (result : PyVal) :
  k <> "processing_history" -> k <> "updated_at" ->
  keeps (field_by Q sid k) (Memory.add_processing_step w sid agent_name result).
Proof.
  intros Hp Hu. unfold Memory.add_processing_step.
  apply keeps_bind; [auto with keeps | intros session].
  destruct (Memory.missing session); [auto with keeps|].
  apply keeps_bind; [auto with keeps | intros stamp].
  destruct (default ∅ session !! "processing_history") as [[| | | | | |steps| |]|];
    try solve [auto with keeps].
  apply keeps_bind; [|intros ?; auto with keeps].
  apply keeps_update_session_untouched. intros stamp'.
  match goal with
  | |- Dict.get k (Dict.set ?a ?v [(?b, ?x)]) = None =>
      change (Dict.set a v [(b, x)]) with [(b, x); (a, v)]
  end.
  apply dict_get_two; congruence.
Qed.

(** [store_extracted_data] changes the stored mapping by setting one key
    in the mapping it read, or not at all. *)
Lemma keeps_extracted_store_extracted_data (w : World) (sid data_key : string)
    (data_value : PyVal) :
  keeps (field_by (merged w) sid "extracted_data")
    (Memory.store_extracted_data w sid data_key data_value).
Proof.
  intros st. unfold Memory.store_extracted_data, bind at 1.
  rewrite get_session_run.
  destruct (hashes st !! Memory.session_key sid) as [h|] eqn:Eh;
    cbn [fmap option_fmap option_map Memory.missing]; [|apply field_by_refl].
  destruct (bool_decide _); [apply field_by_refl|].
  cbn [default from_option id]. rewrite lookup_fmap.
  destruct (h !! "extracted_data") as [text|] eqn:Et; cbn [fmap option_fmap option_map];
    [|now apply field_by_same].
  destruct (Memory.decode_field text) as [| | | | | | |d|] eqn:Ed;
    try (now apply field_by_same).
  unfold bind at 1.
  match goal with
  | |- context [Memory.update_session w sid ?u ?s] =>
      destruct (update_session_field w sid u s "extracted_data")
        as [H | (v & text' & Hv & He & H)];
      destruct (Memory.update_session w sid u s) as [[r|e|i] st2]
  end; cbn [snd] in *; try (now apply field_by_same).
  all: unfold field_by, ret; cbn [snd]; rewrite H; apply rtc_once;
    exists text, d, data_key, data_value, text';
    injection Hv as <-;
    (split; [unfold field; rewrite Eh; cbn; exact Et|]);
    (split; [exact Ed|]); (split; [exact He | reflexivity]).
Qed.

Lemma keeps_other_store_extracted_data (w : World)
    (Q : option string -> option string -> Prop) (sid k data_key : string)
    (data_value : PyVal) :
  k <> "extracted_data" -> k <> "updated_at" ->
  keeps (field_by Q sid k) (Memory.store_extracted_data w sid data_key data_value).
Proof.
  intros Hp Hu. unfold Memory.store_extracted_data.
  apply keeps_bind; [auto with keeps | intros session].
  destruct (Memory.missing session); [auto with keeps|].
  destruct (default ∅ session !! "extracted_data") as [[| | | | | | |d|]|];
    try solve [auto with keeps].
  apply keeps_bind; [|intros ?; auto with keeps].
  apply keeps_update_session_untouched. intros stamp'.
  match goal with
  | |- Dict.get k (Dict.set ?a ?v [(?b, ?x)]) = None =>
      change (Dict.set a v [(b, x)]) with [(b, x); (a, v)]
  end.
  apply dict_get_two; congruence.
Qed.

(** The three strategies and the history: the JSON strategy appends, the
    other two do not write the field. *)
Lemma keeps_history_json (w : World) (sid : string) (data : PyVal) :
  keeps (field_by (appended w) sid "processing_history") (Agents.JSON.process w data sid).
Proof.
  unfold Agents.JSON.process.
  repeat first
    [ apply keeps_history_add_processing_step
    | apply keeps_other_store_extracted_data; discriminate
    | keep_step ].
Qed.

Lemma keeps_unwritten_email (w : World) (Q : option string -> option string -> Prop)
    (sid k : string) (body : PyVal) (subject : option string) :
  inert w -> k = "processing_history" \/ k = "extracted_data" ->
  keeps (field_by Q sid k) (Agents.Email.process w body subject sid).
Proof.
  intros Hinert [-> | ->];
    unfold Agents.Email.process, Agents.Email.process_text,
      Agents.Email.analyze_email_content, Agents.Email.create_crm_record;
    keep.
Qed.

Lemma keeps_history_pdf (w : World) (Q : option string -> option string -> Prop)
    (sid : string) (content : PyVal) :
  keeps (field_by Q sid "processing_history") (Agents.PDF.process w content sid).
Proof.
  unfold Agents.PDF.process, Agents.PDF.extract_key_information,
    Agents.PDF.classify_document_type.
  keep.
Qed.

Lemma keeps_history_invoke (w : World) (sid : string) (call : invocation) :
  inert w ->
  keeps (field_by (appended w) sid "processing_history") (invoke w sid call).
Proof.
  intros Hinert. destruct call; cbn [invoke].
  - apply keeps_history_json.
  - apply keeps_unwritten_email; [exact Hinert | now left].
  - apply keeps_history_pdf.
Qed.

(** The three strategies and the extracted data: the JSON strategy sets
    a key, the email strategy does not write the field, and the PDF
    strategy stores the data it extracted in place of the mapping. *)
Lemma keeps_extracted_json (w : World) (sid : string) (data : PyVal) :
  keeps (field_by (merged w) sid "extracted_data") (Agents.JSON.process w data sid).
Proof.
  unfold Agents.JSON.process.
  repeat first
    [ apply keeps_extracted_store_extracted_data
    | apply keeps_other_add_processing_step; discriminate
    | keep_step ].
Qed.

Lemma keeps_extracted_pdf (w : World) (sid : string) (content : PyVal) :
  keeps (field_by (fun old new => merged w old new \/ replaced w old new)
           sid "extracted_data")
    (Agents.PDF.process w content sid).
Proof.
  unfold Agents.PDF.process, Agents.PDF.extract_key_information,
    Agents.PDF.classify_document_type.
  repeat first [ apply keeps_update_session_replacing | keep_step ].
Qed.

Lemma keeps_extracted_invoke (w : World) (sid : string) (call : invocation) :
  inert w ->
  (is_pdf_call call = false ->
   keeps (field_by (merged w) sid "extracted_data") (invoke w sid call)) /\
  keeps (field_by (fun old new => merged w old new \/ replaced w old new)
           sid "extracted_data")
    (invoke w sid call).
Proof.
  intros Hinert. destruct call; cbn [invoke is_pdf_call].
  - split; [intros _; apply keeps_extracted_json|].
    eapply keeps_weaken; [|apply keeps_extracted_json]. intros; now left.
  - split; [intros _|]; (apply keeps_unwritten_email; [exact Hinert | now right]).
  - split; [discriminate | apply keeps_extracted_pdf].
Qed.

Lemma field_by_invoke_all (w : World) (R : Store -> Store -> Prop) (sid : string)
    (calls : list invocation) (st : Store) :
  (forall s, R s s) -> (forall a b c, R a b -> R b c -> R a c) ->
  Forall (fun call => keeps R (invoke w sid call)) calls ->
  R st (invoke_all w sid calls st).
Proof.
  intros Hrefl Htrans Hcalls. revert st.
  induction Hcalls as [|call rest Hcall _ IH]; intros st; cbn [invoke_all].
  - apply Hrefl.
  - eapply Htrans; [apply Hcall | apply IH].
Qed.


Lemma sample_inert (answer : option string) : inert (Sample.replying answer).
Proof.
  intros text st. unfold Agents.Email.eval. cbn [w_eval Sample.replying].
  unfold Sample.eval_number. destruct (Sample.eval_literal text), st; reflexivity.
Qed.



(** The PDF strategy stores its own [extracted_data] over the mapping
    that [store_extracted_data] built: what the JSON strategy had put
    under [json_data] is gone after it. *)
Example pdf_strategy_replaces_extracted_data :
  field
    (invoke_all Sample.offline Sample.session_id
       [CallJSON (VDict [("order_id", VInt 42)])] Sample.one_session)
    Sample.session_id "extracted_data"
  = Some (Sample.dumps (VDict [("json_data", VDict [("order_id", VInt 42)])])) /\
  field
    (invoke_all Sample.offline Sample.session_id
       [CallJSON (VDict [("order_id", VInt 42)]); CallPDF (VOther true "b'%PDF'")]
       Sample.one_session)
    Sample.session_id "extracted_data"
  = Some "{}".
Proof. split; vm_compute; reflexivity. Qed.

(** The JSON strategy appends to the history: one step after one call,
    two after two. *)
Example json_strategy_appends_steps :
  field
    (invoke_all Sample.offline Sample.session_id
       [CallJSON (VInt 1)] Sample.one_session)
    Sample.session_id "processing_history"
  = Some (Sample.dumps
            (VList [VDict [ ("agent", VStr "JSONAgent");
                            ("timestamp", VStr (Sample.clock 1));
                            ("result",
                             VDict [ ("status", VStr "success");
                                     ("data_type", VStr "json");
                                     ("keys_found", VList []);
                                     ("total_fields", VInt 0);
                                     ("processed_data", VInt 1) ]) ]])).
Proof. vm_compute. reflexivity. Qed.

(** Why the text service must leave the server alone: a response that
    calls the Redis client is run by [eval].  Here it empties the
    server, the session is gone, and the strategy then fails on the
    value the call returned. *)
Example evaluated_response_can_empty_the_server :
  field Sample.one_session Sample.session_id "source" = Some "email" /\
  fst (invoke (Sample.obeying "self.memory_manager.redis_client.flushall()")
         Sample.session_id (CallEmail (VStr "Hello") (Some "Hi")) Sample.one_session)
  = Raise (AttributeError "get") /\
  field
    (invoke_all (Sample.obeying "self.memory_manager.redis_client.flushall()")
       Sample.session_id [CallEmail (VStr "Hello") (Some "Hi")] Sample.one_session)
    Sample.session_id "source" = None.
Proof. repeat split; vm_compute; reflexivity. Qed.

(** Why the session must live through the calls: a hash that the server
    drops between the [EXISTS] and the [HSET] of [update_session] is
    created anew by the [HSET], with the fields of the update only and
    without a time to live. *)
Example hash_dropped_inside_update_session :
  field Sample.one_session Sample.session_id "source" = Some "email" /\
  expiry Sample.one_session !! Memory.session_key Sample.session_id = Some 86400%Z /\
  field
    (snd (Memory.update_session_across_expiry Sample.offline Sample.session_id
            [("agent", VStr "pdf_agent")] Sample.one_session))
    Sample.session_id "agent" = Some "pdf_agent" /\
  field
    (snd (Memory.update_session_across_expiry Sample.offline Sample.session_id
            [("agent", VStr "pdf_agent")] Sample.one_session))
    Sample.session_id "source" = None /\
  expiry
    (snd (Memory.update_session_across_expiry Sample.offline Sample.session_id
            [("agent", VStr "pdf_agent")] Sample.one_session))
    !! Memory.session_key Sample.session_id = None.
Proof. repeat split; vm_compute; reflexivity. Qed.

(** ** The router *)

(** Whatever it dispatches to, a routed call writes only the strategy
    fields of its own session, the email strategy provided that the
    response it evaluates leaves the server alone. *)
Lemma preserves_route (w : World) (classification : Classifier.Classification)
    (content : PyVal) (sid : string) :
  inert w \/ PyStr.lower (Classifier.format classification) <> "email" ->
  preserves sid (Router.route_to_agent w classification content sid).
Proof.
  intros Hinert. unfold Router.route_to_agent.
  destruct (String.eqb _ "pdf"); [apply preserves_pdf_process|].
  destruct (String.eqb _ "json").
  { destruct content; try apply preserves_json_process.
    destruct (Json.loads _); [apply preserves_json_process | apply preserves_raise]. }
  destruct (String.eqb_spec (PyStr.lower (Classifier.format classification)) "email")
    as [E | _]; [|apply preserves_raise].
  destruct Hinert as [Hinert | Hne]; [|contradiction].
  now apply preserves_email_process.
Qed.

(** C4: the router lowers the format and compares it with [pdf], [json]
    and [email].  On any other format it raises the unsupported-format
    error and leaves the store as it was.  On [pdf] and [email] it hands
    the content to the strategy as it is; on [json] it hands over the
    content itself when that is not a string, and the parsed document
    when it is a string that parses (a string that does not parse makes
    the parse raise, before any strategy runs and with the store
    untouched). *)
Theorem route_dispatches_on_format (w : World)
    (classification : Classifier.Classification) (content : PyVal) (sid : string)
    (st : Store) :
  (PyStr.lower (Classifier.format classification) <> "pdf" ->
   PyStr.lower (Classifier.format classification) <> "json" ->
   PyStr.lower (Classifier.format classification) <> "email" ->
   Router.route_to_agent w classification content sid st =
   (Raise (ValueError ("Unsupported format: "
                         +:+ PyStr.lower (Classifier.format classification))), st)) /\
  (PyStr.lower (Classifier.format classification) = "pdf" ->
   Router.route_to_agent w classification content sid st =
   Agents.PDF.process w content sid st) /\
  (PyStr.lower (Classifier.format classification) = "email" ->
   Router.route_to_agent w classification content sid st =
   Agents.Email.process w content None sid st) /\
  (PyStr.lower (Classifier.format classification) = "json" ->
   (is_str content = false ->
    Router.route_to_agent w classification content sid st =
    Agents.JSON.process w content sid st) /\
   (forall text data, content = VStr text -> Json.loads text = Some data ->
    Router.route_to_agent w classification content sid st =
    Agents.JSON.process w data sid st) /\
   (forall text, content = VStr text -> Json.loads text = None ->
    Router.route_to_agent w classification content sid st =
    (Raise (JSONDecodeError text), st))).
Proof.
  unfold Router.route_to_agent.
  split; [|split; [|split]].
  - intros Hp Hj He.
    rewrite (proj2 (String.eqb_neq _ _) Hp), (proj2 (String.eqb_neq _ _) Hj),
      (proj2 (String.eqb_neq _ _) He).
    reflexivity.
  - intros ->. reflexivity.
  - intros ->. reflexivity.
  - intros ->. cbn [String.eqb Ascii.eqb Bool.eqb]. cbn.
    split; [|split].
    + destruct content; try reflexivity. discriminate.
    + intros text data -> ->. reflexivity.
    + intros text -> ->. reflexivity.
Qed.

(** The comparison ignores letter case: [PDF] goes to the PDF strategy,
    and [csv] is refused without a change to the store. *)
Example route_upper_case_pdf :
  Router.route_to_agent Sample.offline
    (Classifier.classify Sample.offline (VOther true "b'%PDF'") None (Some "A.PDF") None)
    (VOther true "b'%PDF'") Sample.session_id Sample.one_session
  = Agents.PDF.process Sample.offline (VOther true "b'%PDF'") Sample.session_id
      Sample.one_session.
Proof. reflexivity. Qed.

Example route_csv_fails :
  Router.route_to_agent Sample.offline
    {| Classifier.format := "csv"; Classifier.intent := "general_processing";
       Classifier.confidence := 0.7%float;
       Classifier.metadata :=
         {| Classifier.md_file_type := None; Classifier.md_filename := None;
            Classifier.md_content_length := 3 |} |}
    (VStr "a,b") Sample.session_id Sample.one_session
  = (Raise (ValueError "Unsupported format: csv"), Sample.one_session).
Proof. reflexivity. Qed.

(** A file announced as JSON whose text is not a JSON document: the
    classifier says [json] and the router's own parse raises. *)
Example route_broken_json :
  Router.route_to_agent Sample.offline
    (Classifier.classify Sample.offline (VStr "{oops") (Some "application/json") None None)
    (VStr "{oops") Sample.session_id Sample.one_session
  = (Raise (JSONDecodeError "{oops"), Sample.one_session).
Proof. reflexivity. Qed.

(** ** The conversation identifier *)

Lemma hexdigest_length (s : string) : String.length (MD5.hexdigest s) = 32.
Proof.
  unfold MD5.hexdigest, MD5.digest.
  destruct (MD5.chunks _ _ _) as [[[a b] c] d]. reflexivity.
Qed.

Lemma take_length (n : nat) (s : string) :
  n <= String.length s -> String.length (PyStr.take n s) = n.
Proof.
  revert s. induction n as [|n IH]; intros s H; [reflexivity|].
  destruct s as [|c t]; cbn in *; [lia|]. rewrite IH; lia.
Qed.

(** The identifier is [conv_] followed by twelve characters, the head of
    the MD5 fingerprint of the base string. *)
Lemma conversation_id_shape (w : World) (sender_info : Dict.t) (subject : option string) :
  exists fingerprint,
    Agents.Email.generate_conversation_id w sender_info subject = "conv_" +:+ fingerprint /\
    fingerprint = PyStr.take 12 (MD5.hexdigest (Agents.Email.base_string w sender_info subject)) /\
    String.length fingerprint = 12.
Proof.
  eexists. split; [reflexivity|]. split; [reflexivity|].
  apply take_length. rewrite hexdigest_length. lia.
Qed.

(** A subject that is absent or empty is replaced by [no_subject]. *)
Lemma base_string_without_subject (w : World) (sender_info : Dict.t) :
  Agents.Email.base_string w sender_info None
    = Agents.Email.base_string w sender_info (Some EmptyString) /\
  Agents.Email.base_string w sender_info None
    = py_str w (Agents.Email.get_or sender_info "email" (VStr "unknown")) +:+ "_no_subject".
Proof. split; reflexivity. Qed.

(** The sender record always has the key [email]: its value is the
    address found in the [From] field, and the empty string when none is
    found.  So the default [unknown] of [_generate_conversation_id] is
    never used on a record that [_extract_sender_info] made. *)
Lemma sender_info_email (w : World) (email_body : string)
    (parsed_email : Agents.Email.ParsedEmail) (sender_info : Dict.t) :
  Agents.Email.extract_sender_info w email_body parsed_email = Ok sender_info ->
  exists address,
    Dict.get "email" sender_info = Some (VStr address) /\
    (w_search w Agents.Email.address_pattern Agents.no_flags
       (Agents.Email.pe_from parsed_email) = None -> address = EmptyString) /\
    forall subject,
      Agents.Email.base_string w sender_info subject
      = address +:+ "_" +:+ Agents.or_else subject "no_subject".
Proof.
  unfold Agents.Email.extract_sender_info.
  set (address := match w_search w _ _ _ with Some g => _ | None => _ end).
  destruct (if negb (String.eqb address EmptyString) then _ else _) as [company|e|i];
    [|discriminate..].
  intros [= <-]. exists address. split; [reflexivity|]. split.
  - subst address. now intros ->.
  - reflexivity.
Qed.

(** C6 on an email without a sender address: the body ["Hello"] with the
    subject ["Hi"].  The sender record holds the empty string under
    [email], the base string is ["_Hi"] and the identifier is the
    fingerprint of ["_Hi"], not that of ["unknown_Hi"]. *)
Theorem conversation_id_of_missing_sender :
  Agents.Email.extract_sender_info Sample.offline "Hello"
    (Agents.Email.parse_email_structure Sample.offline "Hello")
  = Ok [ ("name", VStr "Unknown Sender"); ("email", VStr EmptyString);
         ("company", VStr EmptyString); ("full_from_field", VStr EmptyString) ] /\
  Agents.Email.base_string Sample.offline
    [ ("name", VStr "Unknown Sender"); ("email", VStr EmptyString);
      ("company", VStr EmptyString); ("full_from_field", VStr EmptyString) ]
    (Some "Hi") = "_Hi" /\
  Agents.Email.generate_conversation_id Sample.offline
    [ ("name", VStr "Unknown Sender"); ("email", VStr EmptyString);
      ("company", VStr EmptyString); ("full_from_field", VStr EmptyString) ]
    (Some "Hi") = "conv_f93d1f199d78" /\
  "conv_" +:+ PyStr.take 12 (MD5.hexdigest "unknown_Hi") = "conv_6c6824306794".
Proof. repeat split; vm_compute; reflexivity. Qed.

(** ** The analysis of an email *)

(** [_analyze_email_content] returns whatever [eval] makes of the
    response; the default is returned when the call raises or [eval]
    raises an exception that derives from [Exception], and only then;
    an exception of another kind leaves the method. *)
Lemma analyze_email_content_run (w : World) (email_body : string)
    (subject : option string) (st : Store) :
  fst (Agents.Email.analyze_email_content w email_body subject st) =
  match w_generate w (tick st) (Agents.Email.analysis_prompt subject email_body) with
  | None => Ok Agents.Email.default_analysis
  | Some response =>
      match fst (w_eval w response
                   {| hashes := hashes st; active := active st; expiry := expiry st;
                      tick := S (tick st) |}) with
      | Ok analysis => Ok analysis
      | Raise _ => Ok Agents.Email.default_analysis
      | Interrupt i => Interrupt i
      end
  end.
Proof.
  unfold Agents.Email.analyze_email_content, bind, reading; cbn.
  destruct (w_generate w _ _) as [response|]; [|reflexivity].
  unfold try_except, Agents.Email.eval. cbn.
  destruct (w_eval w response _) as [[analysis|e|i] st1]; reflexivity.
Qed.

Lemma analysis_falls_back_on_failure (w : World) (email_body : string)
    (subject : option string) (st : Store) :
  (w_generate w (tick st) (Agents.Email.analysis_prompt subject email_body) = None \/
   exists response e,
     w_generate w (tick st) (Agents.Email.analysis_prompt subject email_body)
       = Some response /\
     fst (w_eval w response
            {| hashes := hashes st; active := active st; expiry := expiry st;
               tick := S (tick st) |}) = Raise e) ->
  fst (Agents.Email.analyze_email_content w email_body subject st)
  = Ok Agents.Email.default_analysis.
Proof.
  rewrite analyze_email_content_run.
  intros [-> | (response & e & -> & ->)]; reflexivity.
Qed.

(** C8 on the response ["42"]: it is not an analysis of the expected
    shape, [eval] reads it as the number 42, and the number is returned
    as the analysis; the fixed default is returned when the service is
    down. *)
Theorem analysis_of_non_conforming_response :
  fst (Agents.Email.analyze_email_content (Sample.replying (Some "42"))
         "Hello" (Some "Hi") Sample.one_session) = Ok (VInt 42) /\
  fst (Agents.Email.analyze_email_content Sample.offline
         "Hello" (Some "Hi") Sample.one_session) = Ok Agents.Email.default_analysis /\
  Agents.Email.default_analysis =
    VDict [ ("intent", VStr "General Inquiry"); ("urgency", VStr "Medium");
            ("topics", VList [VStr "general"]);
            ("required_action", VStr "Review and respond");
            ("sentiment", VStr "Neutral"); ("confidence", VStr "Low") ].
Proof. repeat split; reflexivity. Qed.

(** With the number as analysis, [_create_crm_record] cannot read its
    fields and the whole strategy raises. *)
Example email_strategy_raises_on_number :
  fst (Agents.Email.process (Sample.replying (Some "42")) (VStr "Hello") (Some "Hi")
         Sample.session_id Sample.one_session)
  = Raise (AttributeError "get").
Proof. reflexivity. Qed.

(** ** The PDF strategy *)

Lemma app_assoc_str (a b c : string) : (a +:+ b) +:+ c = a +:+ (b +:+ c).
Proof. induction a as [|x a IH]; [reflexivity | exact (f_equal (String x) IH)]. Qed.

Lemma app_empty_r (a : string) : a +:+ EmptyString = a.
Proof. induction a as [|x a IH]; [reflexivity | exact (f_equal (String x) IH)]. Qed.

(** The loop adds one piece per page, in order, failed pages included. *)
Lemma pages_text_pieces (pages : list (option string)) (page_num : nat) (text : string) :
  Agents.PDF.pages_text pages page_num text =
  text +:+ Agents.concat_all
             (imap (fun i => Agents.PDF.page_piece (page_num + i)) pages).
Proof.
  revert page_num text. induction pages as [|page rest IH]; intros page_num text.
  - cbn. now rewrite app_empty_r.
  - cbn [Agents.PDF.pages_text imap Agents.concat_all]. rewrite IH, app_assoc_str.
    rewrite Nat.add_0_r. do 3 f_equal.
    apply imap_ext. intros i page' _. cbn. f_equal. lia.
Qed.

Lemma forallb_dict_set (k : string) (v : PyVal) (d : Dict.t) :
  jsonable v = true ->
  forallb (fun kv => jsonable (snd kv)) d = true ->
  forallb (fun kv => jsonable (snd kv)) (Dict.set k v d) = true.
Proof.
  intros Hv. induction d as [|[k0 v0] d IH]; cbn.
  - now rewrite Hv.
  - intros H. apply andb_prop in H as [H0 Hd].
    destruct (String.eqb k0 k); cbn.
    + now rewrite Hv, Hd.
    + now rewrite H0, IH.
Qed.

Lemma scan_number_jsonable (s : string) (v : PyVal) (r : string) :
  Json.scan_number s = Some (v, r) -> jsonable v = true.
Proof.
  unfold Json.scan_number.
  destruct (Json.scan_int s) as [[[neg ds] r1]|]; [|discriminate].
  destruct (Json.scan_frac r1) as [frac r2], (Json.scan_exp r2) as [ex r3].
  destruct frac, ex; intros [= <- <-]; reflexivity.
Qed.

(** Everything the decoder builds can be serialised again. *)
Lemma parser_jsonable (f : nat) :
  (forall s v r, Json.parse_value f s = Some (v, r) -> jsonable v = true) /\
  (forall s acc v r, forallb jsonable acc = true ->
     Json.parse_elems f s acc = Some (v, r) -> jsonable v = true) /\
  (forall s acc v r, forallb (fun kv => jsonable (snd kv)) acc = true ->
     Json.parse_members f s acc = Some (v, r) -> jsonable v = true).
Proof.
  induction f as [|f (IHv & IHe & IHm)]; [repeat split; intros; discriminate|].
  split; [|split].
  - intros s v r. cbn [Json.parse_value].
    destruct s as [|c s1]; [discriminate|].
    destruct (Ascii.eqb c Json.dquote).
    { destruct (Json.scan_string s1) as [[t r']|]; [|discriminate].
      now intros [= <- <-]. }
    destruct (Ascii.eqb c "{").
    { destruct (Json.skip_ws s1) as [|c1 r1]; [discriminate|].
      destruct (Ascii.eqb c1 "}"); [now intros [= <- <-]|].
      now apply IHm. }
    destruct (Ascii.eqb c "[").
    { destruct (Json.skip_ws s1) as [|c1 r1]; [discriminate|].
      destruct (Ascii.eqb c1 "]"); [now intros [= <- <-]|].
      now apply IHe. }
    repeat (match goal with |- context [if ?b then _ else _] => destruct b end;
            [now intros [= <- <-]|]).
    destruct (Json.scan_number (String c s1)) as [[v' r']|] eqn:E.
    { intros [= <- <-]. now apply scan_number_jsonable in E. }
    repeat (match goal with |- context [if ?b then _ else _] => destruct b end;
            [now intros [= <- <-]|]).
    discriminate.
  - intros s acc v r Hacc. cbn [Json.parse_elems].
    destruct (Json.parse_value f s) as [[v1 r1]|] eqn:E; [|discriminate].
    apply IHv in E.
    assert (Hacc' : forallb jsonable (acc ++ [v1]) = true).
    { rewrite forallb_app, Hacc. cbn. now rewrite E. }
    destruct (Json.skip_ws r1) as [|c r']; [discriminate|].
    destruct (Ascii.eqb c "]"); [now intros [= <- <-]|].
    destruct (Ascii.eqb c ","); [|discriminate].
    now apply IHe.
  - intros s acc v r Hacc. cbn [Json.parse_members].
    destruct s as [|c s1]; [discriminate|].
    destruct (Ascii.eqb c Json.dquote); [|discriminate].
    destruct (Json.scan_string s1) as [[k r1]|]; [|discriminate].
    destruct (Json.skip_ws r1) as [|c2 r2]; [discriminate|].
    destruct (Ascii.eqb c2 ":"); [|discriminate].
    destruct (Json.parse_value f (Json.skip_ws r2)) as [[v3 r3]|] eqn:E; [|discriminate].
    apply IHv in E.
    pose proof (forallb_dict_set k v3 acc E Hacc) as Hacc'.
    destruct (Json.skip_ws r3) as [|c3 r4]; [discriminate|].
    destruct (Ascii.eqb c3 "}"); [now intros [= <- <-]|].
    destruct (Ascii.eqb c3 ","); [|discriminate].
    now apply IHm.
Qed.

Lemma loads_jsonable (s : string) (v : PyVal) :
  Json.loads s = Some v -> jsonable v = true.
Proof.
  unfold Json.loads.
  destruct (Json.parse_value _ _) as [[v' rest]|] eqn:E; [|discriminate].
  destruct (Json.skip_ws rest); [|discriminate].
  intros [= <-]. eapply (proj1 (parser_jsonable _)), E.
Qed.

Lemma jsonable_strs (l : list string) : forallb jsonable (map VStr l) = true.
Proof. induction l as [|x l IH]; [reflexivity | exact IH]. Qed.

Lemma encode_some (w : World) (v : PyVal) :
  (forall x, jsonable x = true -> is_Some (w_dumps w x)) ->
  jsonable v = true -> is_Some (Memory.encode w v).
Proof.
  intros H Hv. unfold Memory.encode.
  destruct (is_dict_or_list v); [|eauto].
  unfold json_dumps.
  destruct v as [| | | | | |[|]|[|]|]; eauto.
Qed.

Lemma encode_items_some (w : World) (d : Dict.t) :
  (forall x, jsonable x = true -> is_Some (w_dumps w x)) ->
  forallb (fun kv => jsonable (snd kv)) d = true ->
  is_Some (Memory.encode_items w d).
Proof.
  intros H. induction d as [|[k v] d IH]; cbn [Memory.encode_items forallb snd].
  - eauto.
  - intros Hd. apply andb_prop in Hd as [Hv Hd].
    destruct (encode_some w v H Hv) as [s ->].
    destruct (IH Hd) as [rest ->]. eauto.
Qed.

(** [update_session] returns when its values can be serialised: [False]
    with the dict untouched when the session is not there, [True] with
    the dict stamped when it is. *)
Lemma update_session_returns (w : World) (sid : string) (updates : Dict.t) (st : Store) :
  (forall stamp, is_Some (Memory.encode_items w (Dict.set "updated_at" (VStr stamp) updates))) ->
  exists (b : bool) (st' : Store),
    Memory.update_session w sid updates st =
    (Ok (b, if b then Dict.set "updated_at" (VStr (w_now w (tick st))) updates
            else updates), st').
Proof.
  intros H.
  destruct (hashes st !! Memory.session_key sid) as [h|] eqn:E.
  - destruct (H (w_now w (tick st))) as [items Hi].
    eexists true, _. now apply (update_session_run w sid updates st h items).
  - exists false, st.
    unfold Memory.update_session, bind, Redis.exists_. cbn. rewrite E. reflexivity.
Qed.

Lemma basic_extraction_jsonable (w : World) (text : string) :
  jsonable (Agents.PDF.basic_extraction w text) = true.
Proof.
  unfold Agents.PDF.basic_extraction. cbn [jsonable].
  repeat match goal with
         | |- context [match w_findall w ?p ?t with _ => _ end] =>
             destruct (w_findall w p t)
         end;
    repeat (apply forallb_dict_set; [apply (jsonable_strs (_ :: _))|]); reflexivity.
Qed.

Lemma key_information_returns (w : World) (text : string)
    (analysis : Agents.PDF.Analysis) (st : Store) :
  exists extracted st',
    Agents.PDF.extract_key_information w text analysis st = (Ok extracted, st') /\
    jsonable extracted = true.
Proof.
  unfold Agents.PDF.extract_key_information, bind, reading; cbn.
  destruct (w_generate w _ _) as [response|].
  - destruct (Json.loads response) as [v|] eqn:E.
    + eexists _, _. split; [reflexivity|]. now apply loads_jsonable in E.
    + eexists _, _. split; [reflexivity|]. apply basic_extraction_jsonable.
  - eexists _, _. split; [reflexivity|]. apply basic_extraction_jsonable.
Qed.

Lemma document_type_returns (w : World) (text : string) (st : Store) :
  exists classification st',
    Agents.PDF.classify_document_type w text st = (Ok classification, st') /\
    jsonable classification = true.
Proof.
  unfold Agents.PDF.classify_document_type, bind, reading; cbn.
  destruct (w_generate w _ _) as [response|].
  - destruct (Json.loads response) as [v|] eqn:E.
    + eexists _, _. split; [reflexivity|]. now apply loads_jsonable in E.
    + eexists _, _. split; reflexivity.
  - eexists _, _. split; reflexivity.
Qed.

(** C7, as the code has it.  When [json.dumps] accepts the values it is
    made to accept, the PDF strategy returns on every input: its result
    is a record with [agent = "pdf_agent"] and no [status] field.  The
    text it works on has one piece per page, the placeholder for a page
    whose extraction failed, when the reader opens the document; it is a
    single message for the whole document when the reader does not. *)
Theorem pdf_strategy_returns_a_record (w : World) (content : PyVal) (sid : string)
    (st : Store) :
  (forall v, jsonable v = true -> is_Some (w_dumps w v)) ->
  (exists d st',
     Agents.PDF.process w content sid st = (Ok (VDict d), st') /\
     Dict.get "agent" d = Some (VStr "pdf_agent") /\
     Dict.get "status" d = None /\
     Dict.get "extracted_text" d =
       Some (VStr (if Nat.ltb 1000 (String.length (Agents.PDF.extract_text_from_pdf w content))
                   then PyStr.take 1000 (Agents.PDF.extract_text_from_pdf w content) +:+ "..."
                   else Agents.PDF.extract_text_from_pdf w content))) /\
  match w_pdf_pages w content with
  | inr pages =>
      Agents.PDF.extract_text_from_pdf w content =
      PyStr.strip (Agents.concat_all (imap Agents.PDF.page_piece pages))
  | inl message =>
      Agents.PDF.extract_text_from_pdf w content = "Error extracting PDF text: " +:+ message
  end /\
  (forall page_num,
     Agents.PDF.page_piece page_num None =
     Agents.nl +:+ "--- Page " +:+ PyStr.show_nat (page_num + 1)
       +:+ " (Error extracting text) ---" +:+ Agents.nl).
Proof.
  intros H. split; [|split].
  - unfold Agents.PDF.process.
    set (text := Agents.PDF.extract_text_from_pdf w content).
    set (analysis := Agents.PDF.analyze_document w text).
    destruct (key_information_returns w text analysis st) as (ed & st1 & E1 & J1).
    unfold bind at 1. rewrite E1.
    destruct (document_type_returns w text st1) as (dc & st2 & E2 & J2).
    unfold bind at 1. rewrite E2.
    unfold bind at 1, now, bind at 1, reading, ret. cbn [tick].
    unfold bind.
    match goal with
    | |- context [Memory.update_session w sid ?r ?s] =>
        destruct (update_session_returns w sid r s) as (b & st4 & E4)
    end.
    { intros stamp. apply encode_items_some; [exact H|].
      cbn. rewrite J1, J2. cbn. rewrite jsonable_strs.
      now destruct (PyStr.split _ _). }
    rewrite E4.
    eexists _, _. split; [reflexivity|].
    destruct b; repeat split; reflexivity.
  - unfold Agents.PDF.extract_text_from_pdf.
    destruct (w_pdf_pages w content) as [message|pages]; [reflexivity|].
    rewrite pages_text_pieces. reflexivity.
  - reflexivity.
Qed.

Lemma pdf_strategy_returns_a_record_witness :
  exists d st',
    Agents.PDF.process Sample.offline (VOther true "b'not a pdf'") Sample.session_id
      Sample.one_session = (Ok (VDict d), st') /\
    Dict.get "agent" d = Some (VStr "pdf_agent") /\
    Dict.get "status" d = None.
Proof.
  destruct (pdf_strategy_returns_a_record Sample.offline (VOther true "b'not a pdf'")
              Sample.session_id Sample.one_session)
    as [(d & st' & H1 & H2 & H3 & _) _].
  - intros v Hv. cbn. rewrite Hv. eauto.
  - exists d, st'. repeat split; assumption.
Defined.

(** C7 as stated fails: on bytes that the reader cannot open, the result
    has no [status] field, and its text is the message for the whole
    document, without a page marker. *)
Lemma pdf_result_has_no_status :
  match fst (Agents.PDF.process Sample.offline (VOther true "b'not a pdf'")
               Sample.session_id Sample.one_session) with
  | Ok (VDict d) =>
      Dict.get "status" d = None /\
      Dict.get "agent" d = Some (VStr "pdf_agent") /\
      Dict.get "extracted_text" d
        = Some (VStr "Error extracting PDF text: EOF marker not found")
  | _ => False
  end.
Proof. vm_compute. repeat split; reflexivity. Qed.

(** A document of three pages whose second page cannot be read. *)
Example second_page_unreadable :
  PyStr.strip
    (Agents.PDF.pages_text [Some "one"; None; Some "three"] 0 EmptyString)
  = "--- Page 1 ---" +:+ Agents.nl +:+ "one" +:+ Agents.nl
      +:+ "--- Page 2 (Error extracting text) ---" +:+ Agents.nl +:+ Agents.nl
      +:+ "--- Page 3 ---" +:+ Agents.nl +:+ "three".
Proof. reflexivity. Qed.

(** ** The identifier of a new session *)



(** ** The fuel of the decoder *)

Lemma prefix_drop (p s : string) :
  PyStr.startswith p s = true ->
  String.length (PyStr.drop (String.length p) s) + String.length p = String.length s.
Proof.
  unfold PyStr.startswith. revert s.
  induction p as [|c p IH]; intros s H; [cbn; lia|].
  destruct s as [|c' s]; [discriminate|].
  cbn [String.prefix] in H.
  match type of H with (if ?b then _ else _) = _ => destruct b end; [|discriminate].
  specialize (IH s H). cbn in *. lia.
Qed.

Lemma span_digits_length (s ds r : string) :
  Json.span_digits s = (ds, r) -> String.length ds + String.length r = String.length s.
Proof.
  revert ds r. induction s as [|c s IH]; intros ds r; cbn.
  - intros [= <- <-]. reflexivity.
  - destruct (PyStr.is_digit c).
    + destruct (Json.span_digits s) as [ds' r'].
      intros [= <- <-]. specialize (IH _ _ eq_refl). cbn. lia.
    + intros [= <- <-]. reflexivity.
Qed.

Lemma scan_int_shorter (s ds r : string) (neg : bool) :
  Json.scan_int s = Some (neg, ds, r) -> String.length r < String.length s.
Proof.
  unfold Json.scan_int.
  assert (Body : forall s1, String.length s1 <= String.length s ->
            forall n,
            match s1 with
            | String c t =>
                if Ascii.eqb c "0" then Some (n, String c EmptyString, t)
                else if PyStr.is_digit c
                     then let '(ds0, rest) := Json.span_digits t in Some (n, String c ds0, rest)
                     else None
            | EmptyString => None
            end = Some (neg, ds, r) -> String.length r < String.length s).
  { intros [|c t] Hle n; [discriminate|]. cbn in Hle.
    destruct (Ascii.eqb c "0"); [intros [= _ _ <-]; lia|].
    destruct (PyStr.is_digit c); [|discriminate].
    destruct (Json.span_digits t) as [ds0 rest] eqn:E.
    intros [= _ _ <-]. apply span_digits_length in E. lia. }
  destruct s as [|c t]; [discriminate|].
  destruct (Ascii.eqb c "-"); intros H.
  - apply (Body t ltac:(cbn; lia) true). exact H.
  - apply (Body (String c t) ltac:(lia) false). exact H.
Qed.

Lemma scan_frac_length (s frac r : string) :
  Json.scan_frac s = (frac, r) -> String.length r <= String.length s.
Proof.
  unfold Json.scan_frac. destruct s as [|c t]; [now intros [= <- <-]|].
  destruct (Ascii.eqb c "."); [|now intros [= <- <-]].
  destruct (Json.span_digits t) as [[|d ds] rest] eqn:E; intros [= <- <-]; [lia|].
  apply span_digits_length in E. cbn in *. lia.
Qed.

Lemma scan_exp_length (s ex r : string) :
  Json.scan_exp s = (ex, r) -> String.length r <= String.length s.
Proof.
  unfold Json.scan_exp. destruct s as [|c t]; [now intros [= <- <-]|].
  destruct (_ || _)%bool; [|now intros [= <- <-]].
  assert (Sign : forall sign t1, String.length t1 <= String.length t ->
            match Json.span_digits t1 with
            | (EmptyString, _) => (EmptyString, String c t)
            | (ds, rest) => (String c (sign +:+ ds), rest)
            end = (ex, r) -> String.length r <= String.length (String c t)).
  { intros sign t1 Hle.
    destruct (Json.span_digits t1) as [[|d ds] rest] eqn:E; intros [= <- <-]; [lia|].
    apply span_digits_length in E. cbn in *. lia. }
  destruct t as [|g t']; intros H.
  - apply (Sign EmptyString EmptyString ltac:(lia)). exact H.
  - destruct (_ || _)%bool.
    + apply (Sign (String g EmptyString) t' ltac:(cbn; lia)). exact H.
    + apply (Sign EmptyString (String g t') ltac:(lia)). exact H.
Qed.

Lemma scan_number_shorter (s : string) (v : PyVal) (r : string) :
  Json.scan_number s = Some (v, r) -> String.length r < String.length s.
Proof.
  unfold Json.scan_number.
  destruct (Json.scan_int s) as [[[neg ds] r1]|] eqn:Ei; [|discriminate].
  destruct (Json.scan_frac r1) as [frac r2] eqn:Ef.
  destruct (Json.scan_exp r2) as [ex r3] eqn:Ee.
  apply scan_int_shorter in Ei. apply scan_frac_length in Ef. apply scan_exp_length in Ee.
  destruct frac, ex; intros [= _ <-]; lia.
Qed.

(** Every value read takes one character of the input at least. *)
Lemma parser_progress (f : nat) :
  (forall s v r, Json.parse_value f s = Some (v, r) ->
     String.length r < String.length s) /\
  (forall s acc v r, Json.parse_elems f s acc = Some (v, r) ->
     String.length r < String.length s) /\
  (forall s acc v r, Json.parse_members f s acc = Some (v, r) ->
     String.length r < String.length s).
Proof.
  induction f as [|f (IHv & IHe & IHm)]; [repeat split; intros; discriminate|].
  split; [|split].
  - intros s v r. cbn [Json.parse_value].
    destruct s as [|c s1]; [discriminate|].
    destruct (Ascii.eqb c Json.dquote).
    { destruct (Json.scan_string s1) as [[t r']|] eqn:E; [|discriminate].
      intros [= _ <-]. apply (scan_string_shorter _ _ _ _ (le_n _)) in E. cbn. lia. }
    destruct (Ascii.eqb c "{").
    { pose proof (skip_ws_length s1) as L.
      destruct (Json.skip_ws s1) as [|c1 r1]; [discriminate|].
      destruct (Ascii.eqb c1 "}"); [intros [= _ <-]; cbn in *; lia|].
      intros H. apply IHm in H. cbn in *. lia. }
    destruct (Ascii.eqb c "[").
    { pose proof (skip_ws_length s1) as L.
      destruct (Json.skip_ws s1) as [|c1 r1]; [discriminate|].
      destruct (Ascii.eqb c1 "]"); [intros [= _ <-]; cbn in *; lia|].
      intros H. apply IHe in H. cbn in *. lia. }
    repeat match goal with
           | |- context [if PyStr.startswith ?p ?x then _ else _] =>
               let Hp := fresh "Hp" in
               destruct (PyStr.startswith p x) eqn:Hp;
               [intros [= _ <-]; apply prefix_drop in Hp; cbn in *; lia|]
           end.
    destruct (Json.scan_number (String c s1)) as [[v' r']|] eqn:E.
    { intros [= _ <-]. now apply scan_number_shorter in E. }
    repeat match goal with
           | |- context [if PyStr.startswith ?p ?x then _ else _] =>
               let Hp := fresh "Hp" in
               destruct (PyStr.startswith p x) eqn:Hp;
               [intros [= _ <-]; apply prefix_drop in Hp; cbn in *; lia|]
           end.
    discriminate.
  - intros s acc v r. cbn [Json.parse_elems].
    destruct (Json.parse_value f s) as [[v1 r1]|] eqn:E; [|discriminate].
    apply IHv in E. pose proof (skip_ws_length r1) as L.
    destruct (Json.skip_ws r1) as [|c r']; [discriminate|].
    destruct (Ascii.eqb c "]"); [intros [= _ <-]; cbn in *; lia|].
    destruct (Ascii.eqb c ","); [|discriminate].
    intros H. apply IHe in H. pose proof (skip_ws_length r'). cbn in *. lia.
  - intros s acc v r. cbn [Json.parse_members].
    destruct s as [|c s1]; [discriminate|].
    destruct (Ascii.eqb c Json.dquote); [|discriminate].
    destruct (Json.scan_string s1) as [[k r1]|] eqn:Es; [|discriminate].
    apply (scan_string_shorter _ _ _ _ (le_n _)) in Es.
    pose proof (skip_ws_length r1) as L1.
    destruct (Json.skip_ws r1) as [|c2 r2]; [discriminate|].
    destruct (Ascii.eqb c2 ":"); [|discriminate].
    destruct (Json.parse_value f (Json.skip_ws r2)) as [[v3 r3]|] eqn:E; [|discriminate].
    apply IHv in E. pose proof (skip_ws_length r2) as L2.
    pose proof (skip_ws_length r3) as L3.
    destruct (Json.skip_ws r3) as [|c3 r4]; [discriminate|].
    destruct (Ascii.eqb c3 "}"); [intros [= _ <-]; cbn in *; lia|].
    destruct (Ascii.eqb c3 ","); [|discriminate].
    intros H. apply IHm in H. pose proof (skip_ws_length r4). cbn in *. lia.
Qed.

(** With twice the length of the input and one unit more, a value is
    read the same way whatever fuel is left over; the lists of elements
    and members need one unit more. *)
Lemma parser_fuel (f : nat) :
  forall f',
    (forall s, 2 * String.length s + 1 <= f -> 2 * String.length s + 1 <= f' ->
       Json.parse_value f s = Json.parse_value f' s) /\
    (forall s acc, 2 * String.length s + 2 <= f -> 2 * String.length s + 2 <= f' ->
       Json.parse_elems f s acc = Json.parse_elems f' s acc) /\
    (forall s acc, 2 * String.length s + 2 <= f -> 2 * String.length s + 2 <= f' ->
       Json.parse_members f s acc = Json.parse_members f' s acc).
Proof.
  induction f as [|f IH]; intros f'; [repeat split; intros; lia|].
  destruct f' as [|f']; [repeat split; intros; lia|].
  destruct (IH f') as (IHv & IHe & IHm). clear IH.
  split; [|split].
  - intros s Hf Hf'. cbn [Json.parse_value].
    destruct s as [|c s1]; [reflexivity|]. cbn [String.length] in Hf, Hf'.
    destruct (Ascii.eqb c Json.dquote); [reflexivity|].
    destruct (Ascii.eqb c "{").
    { pose proof (skip_ws_length s1) as L.
      destruct (Json.skip_ws s1) as [|c1 r1]; [reflexivity|].
      destruct (Ascii.eqb c1 "}"); [reflexivity|].
      apply IHm; cbn [String.length] in *; lia. }
    destruct (Ascii.eqb c "["); [|reflexivity].
    pose proof (skip_ws_length s1) as L.
    destruct (Json.skip_ws s1) as [|c1 r1]; [reflexivity|].
    destruct (Ascii.eqb c1 "]"); [reflexivity|].
    apply IHe; cbn [String.length] in *; lia.
  - intros s acc Hf Hf'. cbn [Json.parse_elems].
    rewrite (IHv s) by lia.
    destruct (Json.parse_value f' s) as [[v1 r1]|] eqn:E; [|reflexivity].
    apply (proj1 (parser_progress f')) in E.
    pose proof (skip_ws_length r1) as L.
    destruct (Json.skip_ws r1) as [|c r']; [reflexivity|].
    destruct (Ascii.eqb c "]"); [reflexivity|].
    destruct (Ascii.eqb c ","); [|reflexivity].
    pose proof (skip_ws_length r') as L'.
    apply IHe; cbn [String.length] in *; lia.
  - intros s acc Hf Hf'. cbn [Json.parse_members].
    destruct s as [|c s1]; [reflexivity|]. cbn [String.length] in Hf, Hf'.
    destruct (Ascii.eqb c Json.dquote); [|reflexivity].
    destruct (Json.scan_string s1) as [[k r1]|] eqn:Es; [|reflexivity].
    apply (scan_string_shorter _ _ _ _ (le_n _)) in Es.
    pose proof (skip_ws_length r1) as L1.
    destruct (Json.skip_ws r1) as [|c2 r2]; [reflexivity|].
    destruct (Ascii.eqb c2 ":"); [|reflexivity].
    pose proof (skip_ws_length r2) as L2.
    rewrite (IHv (Json.skip_ws r2)) by (cbn [String.length] in *; lia).
    destruct (Json.parse_value f' (Json.skip_ws r2)) as [[v3 r3]|] eqn:E; [|reflexivity].
    apply (proj1 (parser_progress f')) in E.
    pose proof (skip_ws_length r3) as L3.
    destruct (Json.skip_ws r3) as [|c3 r4]; [reflexivity|].
    destruct (Ascii.eqb c3 "}"); [reflexivity|].
    destruct (Ascii.eqb c3 ","); [|reflexivity].
    pose proof (skip_ws_length r4) as L4.
    apply IHm; cbn [String.length] in *; lia.
Qed.

(** The fuel [json.loads] starts with is enough: more fuel reads the same
    value, so a [None] of [Json.loads] is a document the decoder
    refuses. *)
Lemma loads_fuel_is_enough (s : string) (f : nat) :
  Json.fuel_for s <= f ->
  Json.parse_value f (Json.skip_ws s) = Json.parse_value (Json.fuel_for s) (Json.skip_ws s).
Proof.
  intros Hf. pose proof (skip_ws_length s) as L. unfold Json.fuel_for in *.
  apply (proj1 (parser_fuel f _)); lia.
Qed.

(* ===================================================================== *)
(** * The memory manager beyond creation and lookup *)
(* ===================================================================== *)

(** ** Sessions that are not stored *)

Lemma get_session_absent (sid : string) (st : Store) :
  hashes st !! Memory.session_key sid = None ->
  Memory.get_session sid st = (Ok None, st).
Proof. intros H. rewrite get_session_run, H. reflexivity. Qed.

Lemma update_session_absent (w : World) (sid : string) (updates : Dict.t) (st : Store) :
  hashes st !! Memory.session_key sid = None ->
  Memory.update_session w sid updates st = (Ok (false, updates), st).
Proof.
  intros H. unfold Memory.update_session, bind, Redis.exists_.
  rewrite H. rewrite bool_decide_eq_false_2 by (intros [? ?]; discriminate).
  reflexivity.
Qed.

Lemma add_processing_step_absent (w : World) (sid agent_name : string) (result : PyVal)
    (st : Store) :
  hashes st !! Memory.session_key sid = None ->
  Memory.add_processing_step w sid agent_name result st = (Ok false, st).
Proof.
  intros H. unfold Memory.add_processing_step, bind.
  rewrite (get_session_absent _ _ H). reflexivity.
Qed.

Lemma store_extracted_data_absent (w : World) (sid data_key : string) (v : PyVal)
    (st : Store) :
  hashes st !! Memory.session_key sid = None ->
  Memory.store_extracted_data w sid data_key v st = (Ok false, st).
Proof.
  intros H. unfold Memory.store_extracted_data, bind.
  rewrite (get_session_absent _ _ H). reflexivity.
Qed.

(** X1: the three writing methods of the memory manager answer [False]
    on an identifier under which no session is stored, and leave the
    store exactly as it was: nothing is created on the fly. *)
Theorem writes_to_an_unknown_session_are_dropped (w : World) (sid : string) (st : Store) :
  hashes st !! Memory.session_key sid = None ->
  (forall updates, Memory.update_session w sid updates st = (Ok (false, updates), st)) /\
  (forall agent_name result,
     Memory.add_processing_step w sid agent_name result st = (Ok false, st)) /\
  (forall data_key data_value,
     Memory.store_extracted_data w sid data_key data_value st = (Ok false, st)).
Proof.
  intros H. repeat split; intros.
  - now apply update_session_absent.
  - now apply add_processing_step_absent.
  - now apply store_extracted_data_absent.
Qed.

Lemma writes_to_an_unknown_session_are_dropped_witness :
  Memory.update_session Sample.offline "nobody" [("agent", VStr "x")] Pipeline.empty_store
    = (Ok (false, [("agent", VStr "x")]), Pipeline.empty_store) /\
  Memory.add_processing_step Sample.offline "nobody" "JSONAgent" VNone Pipeline.empty_store
    = (Ok false, Pipeline.empty_store).
Proof.
  destruct (writes_to_an_unknown_session_are_dropped Sample.offline "nobody"
              Pipeline.empty_store) as (Hu & Ha & _); [reflexivity|].
  split; [apply Hu | apply Ha].
Defined.

Lemma frame_absent (sid : string) (st st' : Store) :
  frame sid st st' ->
  hashes st !! Memory.session_key sid = None ->
  hashes st' = hashes st.
Proof.
  intros [Ho _ Hp _ _] H. apply map_eq. intros key.
  destruct (decide (key = Memory.session_key sid)) as [->|Hne].
  - rewrite H. destruct (hashes st' !! Memory.session_key sid) eqn:E; [|reflexivity].
    assert (is_Some (hashes st !! Memory.session_key sid)) as [? Hs]
      by (apply Hp; eauto).
    congruence.
  - now apply Ho.
Qed.

(** X2: a strategy never creates a session of its own.  Called with an
    identifier under which nothing is stored, the JSON strategy answers
    with its success record and leaves the store as it was; the PDF
    strategy leaves every hash and the set of active sessions as they
    were, and so does the email strategy when the response it evaluates
    leaves the server alone; the router in front of them does the same. *)
Theorem strategies_never_create_a_session (w : World) (sid : string) (st : Store) :
  hashes st !! Memory.session_key sid = None ->
  (forall data,
     Agents.JSON.process w data sid st =
     (Ok (VDict
            [ ("status", VStr "success");
              ("data_type", VStr "json");
              ("keys_found",
               VList (match data with
                      | VDict d => map VStr (Dict.keys d)
                      | _ => []
                      end));
              ("total_fields",
               VInt (match data with
                     | VDict d => Z.of_nat (length d)
                     | _ => 0%Z
                     end));
              ("processed_data", data) ]), st)) /\
  (forall content,
     hashes (snd (Agents.PDF.process w content sid st)) = hashes st /\
     active (snd (Agents.PDF.process w content sid st)) = active st) /\
  (inert w ->
   forall body subject,
     hashes (snd (Agents.Email.process w body subject sid st)) = hashes st /\
     active (snd (Agents.Email.process w body subject sid st)) = active st) /\
  (forall classification content,
     inert w \/ PyStr.lower (Classifier.format classification) <> "email" ->
     hashes (snd (Router.route_to_agent w classification content sid st)) = hashes st /\
     active (snd (Router.route_to_agent w classification content sid st)) = active st).
Proof.
  intros H. split; [|split; [|split]].
  - intros data. unfold Agents.JSON.process, try_except, bind. cbv beta zeta.
    rewrite (add_processing_step_absent _ _ _ _ _ H).
    rewrite (store_extracted_data_absent _ _ _ _ _ H). reflexivity.
  - intros content. split.
    + eapply frame_absent; [apply preserves_pdf_process | exact H].
    + apply (preserves_pdf_process w sid content st).
  - intros Hinert body subject. split.
    + eapply frame_absent; [now apply preserves_email_process | exact H].
    + now apply (preserves_email_process w sid body subject Hinert st).
  - intros classification content Hroute. split.
    + eapply frame_absent; [now apply preserves_route | exact H].
    + now apply (preserves_route w classification content sid Hroute st).
Qed.

Lemma strategies_never_create_a_session_witness :
  hashes (snd (Agents.PDF.process Sample.offline (VOther true "b'%PDF'") "nobody"
                 Pipeline.empty_store)) = hashes Pipeline.empty_store /\
  hashes (snd (Agents.Email.process Sample.offline (VStr "Hello") None "nobody"
                 Pipeline.empty_store)) = hashes Pipeline.empty_store.
Proof.
  destruct (strategies_never_create_a_session Sample.offline "nobody"
              Pipeline.empty_store) as (_ & Hpdf & Hemail & _); [reflexivity|].
  split; [apply Hpdf | apply (Hemail (sample_inert None))].
Defined.

(** The proviso on the email strategy is needed: a response that calls
    the memory manager is run by [eval], and a session is there after a
    call on an identifier under which nothing was stored. *)
Example evaluated_response_can_create_a_session :
  hashes Pipeline.empty_store !! Memory.session_key "nobody" = None /\
  field
    (snd (Agents.Email.process
            (Sample.obeying
               "self.memory_manager.redis_client.hset('session:nobody', 'source', 'a')")
            (VStr "Hello") None "nobody" Pipeline.empty_store))
    "nobody" "source" = Some "a".
Proof. split; vm_compute; reflexivity. Qed.

(** ** Deleting a session *)

(** X3: [delete_session] answers whether a session was stored; after it
    [get_session] finds nothing under the identifier, the identifier is
    no longer registered, a second deletion answers [False], and
    every other session reads as before. *)
Theorem delete_session_forgets_the_session (sid : string) (st : Store) :
  fst (Memory.delete_session sid st)
    = Ok (bool_decide (is_Some (hashes st !! Memory.session_key sid))) /\
  fst (Memory.get_session sid (snd (Memory.delete_session sid st))) = Ok None /\
  (sid ∉ active (snd (Memory.delete_session sid st))) /\
  fst (Memory.delete_session sid (snd (Memory.delete_session sid st))) = Ok false /\
  (forall other, other <> sid ->
     fst (Memory.get_session other (snd (Memory.delete_session sid st)))
       = fst (Memory.get_session other st) /\
     (other ∈ active (snd (Memory.delete_session sid st)) <-> other ∈ active st)).
Proof.
  repeat split.
  - rewrite get_session_run. cbn. now rewrite lookup_delete_eq.
  - cbn. rewrite elem_of_difference, elem_of_singleton. tauto.
  - cbn. rewrite lookup_delete_eq.
    rewrite bool_decide_eq_false_2 by (intros [? ?]; discriminate). reflexivity.
  - rewrite !get_session_run. cbn. rewrite lookup_delete_ne; [reflexivity|].
    intros E. apply session_key_inj in E. congruence.
  - cbn. rewrite elem_of_difference. tauto.
  - cbn. rewrite elem_of_difference, elem_of_singleton. tauto.
Qed.
(** ** Listing the sessions *)

Lemma listed_get_session (st : Store) (sid : string) (session : gmap string PyVal) :
  listed st sid = Some session <->
  fst (Memory.get_session sid st) = Ok (Some session) /\ session <> ∅.
Proof.
  unfold listed. rewrite get_session_run. cbn.
  destruct (hashes st !! Memory.session_key sid) as [h|]; cbn.
  - destruct (bool_decide_reflect (Memory.decode_field <$> h = ∅)) as [E|E].
    + split; [discriminate|]. intros [[= <-] Hne]. contradiction.
    + split.
      * intros [= <-]. split; [reflexivity | exact E].
      * intros [[= <-] _]. reflexivity.
  - split; [discriminate|]. intros [[=] _].
Qed.

Lemma collect_sessions_run (ids : list string) :
  forall (sessions : list (gmap string PyVal)) (st : Store),
    Memory.collect_sessions ids sessions st = (Ok (sessions ++ omap (listed st) ids), st).
Proof.
  induction ids as [|sid ids IH]; intros sessions st.
  - cbn. unfold ret. now rewrite app_nil_r.
  - cbn [Memory.collect_sessions]. unfold bind at 1. rewrite get_session_run.
    cbn [omap list_omap].
    destruct (hashes st !! Memory.session_key sid) as [h|] eqn:Eh;
      cbn [fmap option_fmap option_map].
    + assert (listed st sid =
              if Memory.missing (Some (Memory.decode_field <$> h)) then None
              else Some (Memory.decode_field <$> h)) as ->
        by (unfold listed; now rewrite Eh).
      destruct (Memory.missing (Some (Memory.decode_field <$> h))) eqn:E.
      * apply IH.
      * rewrite IH. cbn [default from_option id]. now rewrite <- app_assoc.
    + assert (listed st sid = None) as -> by (unfold listed; now rewrite Eh).
      cbn [Memory.missing]. apply IH.
Qed.

Lemma get_all_sessions_run (st : Store) :
  Memory.get_all_sessions st = (Ok (omap (listed st) (elements (active st))), st).
Proof.
  unfold Memory.get_all_sessions, bind, Redis.smembers.
  now rewrite collect_sessions_run.
Qed.

Lemma length_omap_le {A B : Type} (f : A -> option B) (l : list A) :
  length (omap f l) <= length l.
Proof.
  induction l as [|x l IH]; cbn; [lia|]. destruct (f x); cbn; lia.
Qed.

(** X4: [get_all_sessions] reads and never writes.  Its answer holds
    the session of every registered identifier under which
    [get_session] finds a non-empty session, and nothing else; an
    identifier whose session is gone (deleted by the server when its
    time to live ran out) is passed over, so the answer is never longer
    than the set of registered identifiers. *)
Theorem get_all_sessions_lists_the_registered_sessions (st : Store) :
  exists sessions,
    Memory.get_all_sessions st = (Ok sessions, st) /\
    (forall session,
       session ∈ sessions <->
       exists sid, sid ∈ active st /\
                   fst (Memory.get_session sid st) = Ok (Some session) /\
                   session <> ∅) /\
    length sessions <= size (active st).
Proof.
  exists (omap (listed st) (elements (active st))). split; [|split].
  - apply get_all_sessions_run.
  - intros session. rewrite list_elem_of_omap. split.
    + intros (sid & Hin & Hl). exists sid. split.
      * now apply elem_of_elements.
      * now apply listed_get_session.
    + intros (sid & Hin & Hg). exists sid. split.
      * now apply elem_of_elements.
      * now apply listed_get_session.
  - apply length_omap_le.
Qed.

(** ** Dropping the identifiers of expired sessions *)

Lemma cleanup_members_run (ids : list string) :
  forall st : Store,
    Memory.cleanup_members ids st =
    (Ok tt,
     {| hashes := hashes st;
        active :=
          active st ∖
            list_to_set
              (filter (fun sid => hashes st !! Memory.session_key sid = None) ids);
        expiry := expiry st;
        tick := tick st |}).
Proof.
  induction ids as [|sid ids IH]; intros st.
  - cbn. unfold ret. do 2 f_equal. destruct st; cbn. f_equal.
    apply set_eq. intros x. rewrite elem_of_difference, elem_of_empty. tauto.
  - cbn [Memory.cleanup_members]. unfold bind at 1, Redis.exists_.
    destruct (hashes st !! Memory.session_key sid) as [h|] eqn:E.
    + rewrite bool_decide_eq_true_2 by eauto. cbn [negb].
      rewrite filter_cons_False by (intros E'; rewrite E in E'; discriminate).
      apply IH.
    + rewrite bool_decide_eq_false_2 by (intros [? ?]; discriminate).
      cbn [negb]. unfold bind, Redis.srem. rewrite IH. cbn [hashes active expiry tick].
      rewrite filter_cons_True by exact E.
      do 2 f_equal. apply set_eq. intros x.
      rewrite !elem_of_difference, list_to_set_cons, elem_of_union, elem_of_singleton.
      tauto.
Qed.

Lemma cleanup_expired_sessions_run (st : Store) :
  Memory.cleanup_expired_sessions st =
  (Ok tt,
   {| hashes := hashes st;
      active := filter (fun sid => is_Some (hashes st !! Memory.session_key sid)) (active st);
      expiry := expiry st;
      tick := tick st |}).
Proof.
  unfold Memory.cleanup_expired_sessions, bind, Redis.smembers.
  rewrite cleanup_members_run. do 3 f_equal. apply set_eq. intros x.
  rewrite elem_of_difference, elem_of_list_to_set, list_elem_of_filter,
    elem_of_filter, elem_of_elements.
  destruct (hashes st !! Memory.session_key x) as [h|] eqn:E.
  - split; [intros [Hin _]; split; [eauto | exact Hin] | intros [_ Hin]; split; [exact Hin|]].
    intros [[=] _].
  - split; [intros [Hin Hn]; exfalso; apply Hn; split; [reflexivity | exact Hin]|].
    intros [[? [=]] _].
Qed.

Lemma omap_filter_some {A B : Type} (f : A -> option B) (P : A -> Prop)
    `{forall x, Decision (P x)} (l : list A) :
  (forall x, is_Some (f x) -> P x) -> omap f (filter P l) = omap f l.
Proof.
  intros HP. induction l as [|x l IH]; [reflexivity|].
  rewrite filter_cons. destruct (decide (P x)) as [Hx|Hx]; cbn.
  - now rewrite IH.
  - destruct (f x) eqn:E; [|exact IH]. exfalso. apply Hx, HP. eauto.
Qed.

(** X5: [cleanup_expired_sessions] removes from the set of registered
    identifiers exactly those under which no session is stored, and
    touches nothing else.  Afterwards every registered identifier has
    its session, a second run changes nothing, and [get_all_sessions]
    answers with the same sessions as before the run. *)
Theorem cleanup_drops_exactly_the_expired_identifiers (st : Store) :
  exists st',
    Memory.cleanup_expired_sessions st = (Ok tt, st') /\
    hashes st' = hashes st /\ expiry st' = expiry st /\ tick st' = tick st /\
    (forall sid,
       sid ∈ active st' <->
       sid ∈ active st /\ is_Some (hashes st !! Memory.session_key sid)) /\
    Memory.cleanup_expired_sessions st' = (Ok tt, st') /\
    exists before after,
      Memory.get_all_sessions st = (Ok before, st) /\
      Memory.get_all_sessions st' = (Ok after, st') /\
      after ≡ₚ before.
Proof.
  eexists. split; [apply cleanup_expired_sessions_run|].
  set (st' := {| hashes := hashes st; active := _; expiry := _; tick := _ |}).
  split; [reflexivity|]. split; [reflexivity|]. split; [reflexivity|].
  split; [|split].
  - intros sid. unfold st'. cbn [active]. rewrite elem_of_filter.
    split; intros [? ?]; split; assumption.
  - rewrite cleanup_expired_sessions_run. unfold st'. cbn [hashes active expiry tick].
    do 2 f_equal. apply set_eq. intros x. rewrite !elem_of_filter.
    split; [intros (? & ? & ?) | intros (? & ?)]; repeat split; assumption.
  - do 2 eexists. split; [apply get_all_sessions_run|].
    split; [apply get_all_sessions_run|].
    assert (listed st' = listed st) as -> by reflexivity.
    unfold st'. cbn [active].
    rewrite <- (omap_filter_some (listed st)
                  (fun sid => is_Some (hashes st !! Memory.session_key sid))
                  (elements (active st))).
    + apply omap_Permutation. apply NoDup_Permutation.
      * apply NoDup_elements.
      * apply NoDup_filter, NoDup_elements.
      * intros x. rewrite elem_of_elements, elem_of_filter, list_elem_of_filter,
          elem_of_elements. reflexivity.
    + intros x [s Hs]. unfold listed in Hs.
      destruct (hashes st !! Memory.session_key x); [eauto | discriminate].
Qed.
(** ** Reading a stored session *)

Lemma new_session_fields (w : World) (sid source input_type intent timestamp : string)
    (old : gmap string string) :
  let h : gmap string string :=
    list_to_map
      [ ("session_id", sid); ("source", source); ("input_type", input_type);
        ("intent", intent); ("created_at", timestamp); ("updated_at", timestamp);
        ("status", "active"); ("processing_history", "[]"); ("extracted_data", "{}");
        ("metadata", "{}") ] ∪ old in
  h !! "session_id" = Some sid /\ h !! "source" = Some source /\
  h !! "input_type" = Some input_type /\ h !! "intent" = Some intent /\
  h !! "status" = Some "active" /\ h !! "processing_history" = Some "[]" /\
  h !! "extracted_data" = Some "{}".
Proof.
  cbv zeta. repeat split;
    (rewrite lookup_union; vm_compute (list_to_map _ !! _);
     match goal with |- context [Some ?x ∪ ?o] => destruct o end; reflexivity).
Qed.

Lemma stored_hash (st : Store) (key : string) :
  bool_decide (is_Some (hashes st !! key)) = true ->
  hashes st !! key = Some (default ∅ (hashes st !! key)).
Proof.
  intros H. apply bool_decide_eq_true_1 in H as [h ->]. reflexivity.
Qed.

Lemma stored_session (st : Store) (sid : string) :
  bool_decide (is_Some (hashes st !! Memory.session_key sid)) = true ->
  fst (Memory.get_session sid st) =
  Ok (Some (Memory.decode_field <$>
              default ∅ (hashes st !! Memory.session_key sid))).
Proof.
  intros H. rewrite get_session_run. cbn [fst].
  now rewrite (stored_hash _ _ H) at 1.
Qed.

(** ** The time to live of a session *)

Lemma untimed_ret {A : Type} (a : A) : untimed (ret a).
Proof. intros st. reflexivity. Qed.

Lemma untimed_raise {A : Type} (e : exn) : untimed (@raise A e).
Proof. intros st. reflexivity. Qed.

Lemma untimed_lift {A : Type} (o : outcome A) : untimed (Agents.Email.lift o).
Proof. intros st. reflexivity. Qed.

Lemma untimed_bind {A B : Type} (m : M A) (k : A -> M B) :
  untimed m -> (forall a, untimed (k a)) -> untimed (bind m k).
Proof.
  intros Hm Hk st. unfold bind. specialize (Hm st).
  destruct (m st) as [[a|e|i] st1]; cbn [snd] in *; [|exact Hm..].
  now rewrite Hk.
Qed.

Lemma untimed_try_except {A : Type} (m : M A) (h : exn -> M A) :
  untimed m -> (forall e, untimed (h e)) -> untimed (try_except m h).
Proof.
  intros Hm Hh st. unfold try_except. specialize (Hm st).
  destruct (m st) as [[a|e|i] st1]; cbn [snd] in *; [exact Hm| |exact Hm].
  now rewrite Hh.
Qed.

Lemma untimed_eval (w : World) (text : string) :
  inert w -> untimed (Agents.Email.eval w text).
Proof. intros Hinert st. now rewrite Hinert. Qed.

Lemma untimed_reading : untimed reading.
Proof. intros st. reflexivity. Qed.

Lemma untimed_now (w : World) : untimed (now w).
Proof. intros st. reflexivity. Qed.

Lemma untimed_get_session (sid : string) : untimed (Memory.get_session sid).
Proof. intros st. now rewrite get_session_run. Qed.

Lemma untimed_encode_mapping (w : World) (d : Dict.t) : untimed (Memory.encode_mapping w d).
Proof. intros st. unfold Memory.encode_mapping. now destruct (Memory.encode_items w d). Qed.

Create HintDb ttl.

#[local] Hint Resolve untimed_ret untimed_raise untimed_lift untimed_reading untimed_now
  untimed_get_session untimed_encode_mapping : ttl.

Ltac untimed_step :=
  first
    [ solve [auto with ttl]
    | solve [intros ?; reflexivity]
    | apply untimed_eval; assumption
    | apply untimed_bind; [|intros ?]
    | apply untimed_try_except; [|intros ?]
    | match goal with
      | |- untimed (match ?x with _ => _ end) => destruct x
      | |- untimed (if ?x then _ else _) => destruct x
      end ].

Ltac untimed_all := repeat untimed_step.

Lemma untimed_update_session (w : World) (sid : string) (updates : Dict.t) :
  untimed (Memory.update_session w sid updates).
Proof. unfold Memory.update_session. untimed_all. Qed.

#[local] Hint Resolve untimed_update_session : ttl.

Lemma untimed_add_processing_step (w : World) (sid agent_name : string) (result : PyVal) :
  untimed (Memory.add_processing_step w sid agent_name result).
Proof. unfold Memory.add_processing_step. untimed_all. Qed.

Lemma untimed_store_extracted_data (w : World) (sid data_key : string) (v : PyVal) :
  untimed (Memory.store_extracted_data w sid data_key v).
Proof. unfold Memory.store_extracted_data. untimed_all. Qed.

#[local] Hint Resolve untimed_add_processing_step untimed_store_extracted_data : ttl.

Lemma untimed_json (w : World) (sid : string) (data : PyVal) :
  untimed (Agents.JSON.process w data sid).
Proof. unfold Agents.JSON.process. untimed_all. Qed.

Lemma untimed_pdf (w : World) (sid : string) (content : PyVal) :
  untimed (Agents.PDF.process w content sid).
Proof.
  unfold Agents.PDF.process, Agents.PDF.extract_key_information,
    Agents.PDF.classify_document_type.
  untimed_all.
Qed.

Lemma untimed_email (w : World) (sid : string) (body : PyVal) (subject : option string) :
  inert w -> untimed (Agents.Email.process w body subject sid).
Proof.
  intros Hinert.
  unfold Agents.Email.process, Agents.Email.process_text,
    Agents.Email.analyze_email_content, Agents.Email.create_crm_record.
  untimed_all.
Qed.

Lemma untimed_route (w : World) (classification : Classifier.Classification)
    (content : PyVal) (sid : string) :
  inert w \/ PyStr.lower (Classifier.format classification) <> "email" ->
  untimed (Router.route_to_agent w classification content sid).
Proof.
  intros Hinert. unfold Router.route_to_agent.
  destruct (String.eqb _ "pdf"); [apply untimed_pdf|].
  destruct (String.eqb _ "json").
  { destruct content; try apply untimed_json.
    destruct (Json.loads _); [apply untimed_json | auto with ttl]. }
  destruct (String.eqb_spec (PyStr.lower (Classifier.format classification)) "email")
    as [E | _]; [|auto with ttl].
  destruct Hinert as [Hinert | Hne]; [|contradiction].
  now apply untimed_email.
Qed.


(** ** The values the classifier answers with *)

Ltac in_list_by_cases :=
  repeat match goal with
         | |- context [if ?b then _ else _] => destruct b
         end;
  cbn; in_list.

Lemma format_of_file_type_range (file_type : option string) (f : string) :
  Classifier.format_of_file_type file_type = Some f ->
  f ∈ ["pdf"; "json"; "email"; "text"; "html"].
Proof.
  destruct file_type as [ft|]; [|discriminate]. cbn.
  repeat match goal with
         | |- context [if ?b then _ else _] => destruct b
         end; intros [= <-] || discriminate; in_list.
Qed.

Lemma format_of_filename_range (filename : option string) (f : string) :
  Classifier.format_of_filename filename = Some f ->
  f ∈ ["pdf"; "json"; "email"; "text"; "html"].
Proof.
  destruct filename as [fn|]; [|discriminate]. unfold Classifier.format_of_filename.
  repeat match goal with
         | |- context [if ?b then _ else _] => destruct b
         end; intros [= <-] || discriminate; in_list.
Qed.

Lemma format_of_content_range (content : PyVal) :
  Classifier.format_of_content content
    ∈ ["pdf"; "json"; "email"; "text"; "html"; "unknown"].
Proof.
  unfold Classifier.format_of_content.
  destruct (is_dict content || Classifier.is_json_string content)%bool; [in_list|].
  destruct content; try solve [in_list]. cbn.
  repeat match goal with
         | |- context [if ?b then _ else _] => destruct b
         end; in_list.
Qed.

Lemma determine_format_range (content : PyVal) (file_type filename : option string) :
  Classifier.determine_format content file_type filename
    ∈ ["pdf"; "json"; "email"; "text"; "html"; "unknown"].
Proof.
  unfold Classifier.determine_format.
  destruct (Classifier.format_of_file_type file_type) as [f|] eqn:E1.
  { apply format_of_file_type_range in E1.
    repeat (apply elem_of_cons in E1 as [-> | E1]; [in_list|]).
    now apply elem_of_nil in E1. }
  destruct (Classifier.format_of_filename filename) as [f|] eqn:E2.
  { apply format_of_filename_range in E2.
    repeat (apply elem_of_cons in E2 as [-> | E2]; [in_list|]).
    now apply elem_of_nil in E2. }
  apply format_of_content_range.
Qed.

Lemma determine_intent_range (w : World) (content : PyVal) (format_type : string)
    (metadata : option Dict.t) :
  Classifier.determine_intent w content format_type metadata
    ∈ [ "invoice_processing"; "resume_parsing"; "order_processing"; "support_ticket";
        "form_processing"; "email_processing"; "document_processing";
        "general_processing" ].
Proof.
  unfold Classifier.determine_intent. cbv zeta.
  repeat match goal with
         | |- context [if ?b then _ else _] => destruct b
         end; in_list.
Qed.

Lemma lower_format (f : string) :
  f ∈ ["pdf"; "json"; "email"; "text"; "html"; "unknown"] -> PyStr.lower f = f.
Proof.
  intros H. repeat (apply elem_of_cons in H as [-> | H]; [reflexivity|]).
  now apply elem_of_nil in H.
Qed.

(** ** When a strategy raises a [ValueError] *)

(** A strategy raises [ValueError] in one place only: [json.dumps] inside
    [update_session], after the clock was read.  The router's own
    [ValueError] comes before any reading. *)

Lemma paced_ret {A : Type} (a : A) : paced (ret a).
Proof. intros st. split; [reflexivity | discriminate]. Qed.

Lemma paced_raise {A : Type} (e : exn) :
  (forall msg, e <> ValueError msg) -> paced (@raise A e).
Proof.
  intros He st. split; [reflexivity|]. intros msg [= ->]. exfalso. now apply (He msg).
Qed.

Lemma paced_lift {A : Type} (o : outcome A) :
  (forall msg, o <> Raise (ValueError msg)) -> paced (Agents.Email.lift o).
Proof.
  intros Ho st. split; [reflexivity|]. intros msg H. exfalso. now apply (Ho msg).
Qed.

Lemma paced_bind {A B : Type} (m : M A) (k : A -> M B) :
  paced m -> (forall a, paced (k a)) -> paced (bind m k).
Proof.
  intros Hm Hk st. unfold bind. destruct (Hm st) as [Hle Hlt].
  destruct (m st) as [[a|e|i] st1]; cbn [fst snd] in *.
  - destruct (Hk a st1) as [Hle' Hlt']. split; [lia|].
    intros msg H. specialize (Hlt' msg H). lia.
  - split; [exact Hle|]. intros msg [= ->]. now apply (Hlt msg).
  - split; [exact Hle | discriminate].
Qed.

Lemma paced_try_except {A : Type} (m : M A) (h : exn -> M A) :
  paced m -> (forall e, paced (h e)) -> paced (try_except m h).
Proof.
  intros Hm Hh st. unfold try_except. destruct (Hm st) as [Hle _].
  destruct (m st) as [[a|e|i] st1]; cbn [fst snd] in *.
  - split; [exact Hle | discriminate].
  - destruct (Hh e st1) as [Hle' Hlt']. split; [lia|].
    intros msg H. specialize (Hlt' msg H). lia.
  - split; [exact Hle | discriminate].
Qed.

Lemma paced_reading : paced reading.
Proof. intros st. split; [cbn; lia | discriminate]. Qed.

Lemma paced_now (w : World) : paced (now w).
Proof. intros st. split; [cbn; lia | discriminate]. Qed.

Lemma paced_get_session (sid : string) : paced (Memory.get_session sid).
Proof. intros st. rewrite get_session_run. split; [reflexivity | discriminate]. Qed.

Lemma paced_update_session (w : World) (sid : string) (updates : Dict.t) :
  paced (Memory.update_session w sid updates).
Proof.
  intros st.
  unfold Memory.update_session, bind, Redis.exists_, now, reading, bind, ret,
    Memory.encode_mapping, Redis.hset.
  destruct (hashes st !! Memory.session_key sid) as [h|]; cbn;
    [|split; [reflexivity | discriminate]].
  destruct (Memory.encode_items w _); cbn; split; try discriminate; lia.
Qed.

(** The evaluated response can raise a [ValueError] of its own: the
    handler around [eval] catches it. *)
Lemma paced_analysis (w : World) (body : string) (subject : option string) :
  paced (Agents.Email.analyze_email_content w body subject).
Proof.
  intros st. unfold Agents.Email.analyze_email_content, bind, reading. cbn.
  destruct (w_generate w _ _) as [response|]; [|split; [cbn; lia | discriminate]].
  unfold try_except, Agents.Email.eval. cbn.
  destruct (w_eval w response _) as [[analysis|e|i] st1]; cbn;
    (split; [lia | discriminate]).
Qed.

Lemma paced_sender_info (w : World) (body : string) (pe : Agents.Email.ParsedEmail) :
  paced (Agents.Email.lift (Agents.Email.extract_sender_info w body pe)).
Proof.
  apply paced_lift. unfold Agents.Email.extract_sender_info. cbv zeta.
  intros msg H.
  match type of H with
  | context [if ?b then _ else _] => destruct b
  end; [|discriminate].
  match type of H with
  | context [nth_error ?l ?n] => destruct (nth_error l n)
  end; discriminate.
Qed.

Create HintDb paced.

#[local] Hint Resolve paced_ret paced_reading paced_now paced_get_session
  paced_update_session paced_analysis paced_sender_info : paced.

Ltac paced_step :=
  first
    [ solve [auto with paced]
    | apply paced_raise; intros ?; discriminate
    | apply paced_bind; [|intros ?]
    | apply paced_try_except; [|intros ?]
    | match goal with
      | |- paced (match ?x with _ => _ end) => destruct x
      | |- paced (if ?x then _ else _) => destruct x
      end ].

Ltac paced_all := repeat paced_step.

Lemma paced_add_processing_step (w : World) (sid agent_name : string) (result : PyVal) :
  paced (Memory.add_processing_step w sid agent_name result).
Proof. unfold Memory.add_processing_step. paced_all. Qed.

Lemma paced_store_extracted_data (w : World) (sid data_key : string) (v : PyVal) :
  paced (Memory.store_extracted_data w sid data_key v).
Proof. unfold Memory.store_extracted_data. paced_all. Qed.

#[local] Hint Resolve paced_add_processing_step paced_store_extracted_data : paced.

Lemma paced_invoke (w : World) (sid : string) (call : invocation) :
  paced (invoke w sid call).
Proof.
  destruct call as [data | body subject | content]; cbn [invoke].
  - unfold Agents.JSON.process. paced_all.
  - unfold Agents.Email.process, Agents.Email.process_text,
      Agents.Email.create_crm_record.
    paced_all.
  - unfold Agents.PDF.process, Agents.PDF.extract_key_information,
      Agents.PDF.classify_document_type.
    paced_all.
Qed.

(** X9: whatever the content and the hints, [classify] answers with one
    of six formats and one of eight intents, the format in lower case.
    The router serves three of the six formats: on a classification the
    classifier produced, it refuses exactly the formats [text], [html]
    and [unknown], with the store untouched. *)
Theorem classify_answers_within_fixed_ranges (w : World) (content : PyVal)
    (file_type filename : option string) (metadata : option Dict.t) :
  Classifier.format (Classifier.classify w content file_type filename metadata)
    ∈ ["pdf"; "json"; "email"; "text"; "html"; "unknown"] /\
  Classifier.intent (Classifier.classify w content file_type filename metadata)
    ∈ [ "invoice_processing"; "resume_parsing"; "order_processing"; "support_ticket";
        "form_processing"; "email_processing"; "document_processing";
        "general_processing" ] /\
  (forall routed sid st,
     Classifier.format (Classifier.classify w content file_type filename metadata)
       ∈ ["text"; "html"; "unknown"] <->
     Router.route_to_agent w
       (Classifier.classify w content file_type filename metadata) routed sid st
     = (Raise (ValueError
                 ("Unsupported format: "
                    +:+ Classifier.format
                          (Classifier.classify w content file_type filename metadata))),
        st)).
Proof.
  split; [apply determine_format_range|]. split; [apply determine_intent_range|].
  intros routed sid st.
  assert (Hf : Classifier.format (Classifier.classify w content file_type filename metadata)
                 ∈ ["pdf"; "json"; "email"; "text"; "html"; "unknown"])
    by apply determine_format_range.
  remember (Classifier.classify w content file_type filename metadata) as c eqn:Hc.
  clear Hc. unfold Router.route_to_agent.
  assert (Hno : forall call msg,
            invoke w sid call st <> (Raise (ValueError msg), st)).
  { intros call msg E. destruct (paced_invoke w sid call st) as [_ Hlate].
    specialize (Hlate msg). rewrite E in Hlate. cbn [fst snd] in Hlate.
    specialize (Hlate eq_refl). lia. }
  repeat (apply elem_of_cons in Hf as [E | Hf]; [rewrite E|]);
    [..|now apply elem_of_nil in Hf]; cbn [PyStr.lower].
  - split; [not_in_list|]. intros H. exfalso.
    exact (Hno (CallPDF routed) _ H).
  - split; [not_in_list|]. intros H. exfalso. cbn in H.
    destruct routed; try exact (Hno (CallJSON _) _ H).
    destruct (Json.loads s); [exact (Hno (CallJSON _) _ H) | discriminate].
  - split; [not_in_list|]. intros H. exfalso.
    exact (Hno (CallEmail routed None) _ H).
  - split; [reflexivity | intros _; in_list].
  - split; [reflexivity | intros _; in_list].
  - split; [reflexivity | intros _; in_list].
Qed.

(** ** The request handlers *)

Lemma guarded_run {A : Type} (w : World) (body : M A) (st : Store) :
  snd (Main.guarded w body st) = snd (body st) /\
  fst (Main.guarded w body st) =
    match fst (body st) with
    | Ok a => Main.Respond a
    | Raise e => Main.HTTPException 500 (Agents.exn_text w e)
    | Interrupt i => Main.Interrupted i
    end.
Proof. unfold Main.guarded. destruct (body st) as [[a|e|i] st']; split; reflexivity. Qed.

(** What the three processing handlers do inside their [try]: read the
    clock, create the session, run a strategy on it, read the clock
    again and build the answer. *)
Abbreviation request w source input_type intent run finish :=
  (let* stamp := now w in
   let* session_id := Memory.create_session w source input_type intent stamp in
   let* result := run session_id in
   let* timestamp := now w in
   ret (finish session_id result timestamp)).

Lemma request_run {A B : Type} (w : World) (source input_type intent : string)
    (run : string -> M A) (finish : string -> A -> string -> B) (st : Store) :
  Main.guarded w (request w source input_type intent run finish) st =
  match run (w_uuid w (S (tick st)))
          (snd (Memory.create_session w source input_type intent (w_now w (tick st))
                  (snd (now w st)))) with
  | (Ok result, st2) =>
      (Main.Respond (finish (w_uuid w (S (tick st))) result (w_now w (tick st2))),
       {| hashes := hashes st2; active := active st2;
          expiry := expiry st2; tick := S (tick st2) |})
  | (Raise e, st2) => (Main.HTTPException 500 (Agents.exn_text w e), st2)
  | (Interrupt i, st2) => (Main.Interrupted i, st2)
  end.
Proof.
  unfold Main.guarded, now, bind, reading, ret. cbn [tick].
  rewrite !create_session_run. cbn [snd tick].
  destruct (run _ _) as [[r|e|i] st2]; reflexivity.
Qed.

Lemma created_session (w : World) (source input_type intent : string) (st : Store) :
  snd (Memory.create_session w source input_type intent (w_now w (tick st))
         (snd (now w st))) =
  {| hashes :=
       <[Memory.session_key (w_uuid w (S (tick st))) :=
           list_to_map
             [ ("session_id", w_uuid w (S (tick st))); ("source", source);
               ("input_type", input_type); ("intent", intent);
               ("created_at", w_now w (tick st));
               ("updated_at", w_now w (tick st));
               ("status", "active"); ("processing_history", "[]");
               ("extracted_data", "{}"); ("metadata", "{}") ]
           ∪ default ∅ (hashes st !! Memory.session_key (w_uuid w (S (tick st))))]>
         (hashes st);
     active := {[w_uuid w (S (tick st))]} ∪ active st;
     expiry := <[Memory.session_key (w_uuid w (S (tick st))) := 86400%Z]> (expiry st);
     tick := S (S (tick st)) |}.
Proof. rewrite create_session_run. reflexivity. Qed.

Lemma session_request {A B : Type} (w : World) (source input_type intent : string)
    (run : string -> M A) (finish : string -> A -> string -> B) (st : Store) :
  (forall sid, preserves sid (run sid)) ->
  let answer := Main.guarded w (request w source input_type intent run finish) st in
  let sid := w_uuid w (S (tick st)) in
  let st1 := snd (Memory.create_session w source input_type intent (w_now w (tick st))
                    (snd (now w st))) in
  (field (snd answer) sid "session_id" = Some sid /\
   field (snd answer) sid "source" = Some source /\
   field (snd answer) sid "input_type" = Some input_type /\
   field (snd answer) sid "intent" = Some intent /\
   field (snd answer) sid "status" = Some "active") /\
  sid ∈ active (snd answer) /\
  fst answer =
    match run sid st1 with
    | (Ok result, st2) => Main.Respond (finish sid result (w_now w (tick st2)))
    | (Raise e, _) => Main.HTTPException 500 (Agents.exn_text w e)
    | (Interrupt i, _) => Main.Interrupted i
    end.
Proof.
  intros Hrun answer sid st1.
  assert (Hst1 : hashes st1 !! Memory.session_key sid =
                 Some (list_to_map
                         [ ("session_id", sid); ("source", source);
                           ("input_type", input_type); ("intent", intent);
                           ("created_at", w_now w (tick st));
                           ("updated_at", w_now w (tick st));
                           ("status", "active"); ("processing_history", "[]");
                           ("extracted_data", "{}"); ("metadata", "{}") ]
                       ∪ default ∅ (hashes st !! Memory.session_key sid)) /\
                 sid ∈ active st1).
  { unfold st1. rewrite created_session. cbn [hashes active].
    split; [apply lookup_insert_eq|]. apply elem_of_union. left. now apply elem_of_singleton. }
  destruct Hst1 as [Hh1 Ha1].
  specialize (Hrun sid st1). unfold answer. rewrite request_run. fold sid st1.
  destruct (run sid st1) as [[r|e|i] st2]; cbn [snd fst] in *;
    destruct Hrun as [_ Hact Hp Hf _];
    (assert (Hfield : forall k, k ∉ strategy_fields ->
               field st2 sid k = field st1 sid k) by exact Hf);
    (split; [|split; [now rewrite Hact | reflexivity]]);
    unfold field in *; cbn [hashes];
    repeat split;
    (rewrite Hfield by not_in_list; rewrite Hh1; cbn [mbind option_bind];
     eapply new_session_fields; exact w).
Qed.

Lemma add_processing_step_run (w : World) (sid agent_name : string)
    (result : PyVal) (st : Store) (h : gmap string string) (steps : list PyVal)
    (text : string) :
  hashes st !! Memory.session_key sid = Some h ->
  Memory.decode_field <$> h !! "processing_history" = Some (VList steps) ->
  json_dumps w
    (VList (steps ++ [VDict [ ("agent", VStr agent_name);
                              ("timestamp", VStr (w_now w (tick st)));
                              ("result", result) ]])) = Some text ->
  Memory.add_processing_step w sid agent_name result st =
  (Ok true,
   {| hashes :=
        <[Memory.session_key sid :=
            list_to_map [ ("processing_history", text);
                          ("updated_at", w_now w (S (tick st))) ] ∪ h]> (hashes st);
      active := active st; expiry := expiry st; tick := S (S (tick st)) |}).
Proof.
  intros Hh Hp Hd.
  unfold Memory.add_processing_step, bind at 1.
  rewrite get_session_run, Hh. cbn [fmap option_fmap option_map].
  erewrite missing_false by (rewrite lookup_fmap; exact Hp).
  unfold bind at 1, now, bind at 1, reading, ret. cbn [default from_option id tick].
  rewrite lookup_fmap, Hp.
  unfold bind at 1.
  erewrite update_session_run; [|exact Hh|cbn -[json_dumps]; rewrite Hd; reflexivity].
  reflexivity.
Qed.

Lemma store_extracted_data_run (w : World) (sid data_key : string)
    (data_value : PyVal) (st : Store) (h : gmap string string) (d : Dict.t)
    (text : string) :
  hashes st !! Memory.session_key sid = Some h ->
  Memory.decode_field <$> h !! "extracted_data" = Some (VDict d) ->
  json_dumps w (VDict (Dict.set data_key data_value d)) = Some text ->
  Memory.store_extracted_data w sid data_key data_value st =
  (Ok true,
   {| hashes :=
        <[Memory.session_key sid :=
            list_to_map [ ("extracted_data", text);
                          ("updated_at", w_now w (tick st)) ] ∪ h]> (hashes st);
      active := active st; expiry := expiry st; tick := S (tick st) |}).
Proof.
  intros Hh Hp Hd.
  unfold Memory.store_extracted_data, bind at 1.
  rewrite get_session_run, Hh. cbn [fmap option_fmap option_map].
  erewrite missing_false by (rewrite lookup_fmap; exact Hp).
  cbn [default from_option id].
  rewrite lookup_fmap, Hp.
  unfold bind at 1.
  erewrite update_session_run; [|exact Hh|cbn -[json_dumps]; rewrite Hd; reflexivity].
  reflexivity.
Qed.

(** The record [JSONAgent.process] builds for a document. *)
Lemma json_process_run (w : World) (data : PyVal) (sid : string) (st : Store)
    (h : gmap string string) (steps : list PyVal) (d : Dict.t) (history extracted : string) :
  hashes st !! Memory.session_key sid = Some h ->
  Memory.decode_field <$> h !! "processing_history" = Some (VList steps) ->
  Memory.decode_field <$> h !! "extracted_data" = Some (VDict d) ->
  json_dumps w
    (VList (steps ++
            [VDict [ ("agent", VStr "JSONAgent");
                     ("timestamp", VStr (w_now w (tick st)));
                     ("result",
                      VDict
                        [ ("status", VStr "success");
                          ("data_type", VStr "json");
                          ("keys_found",
                           VList (match data with
                                  | VDict d => map VStr (Dict.keys d)
                                  | _ => []
                                  end));
                          ("total_fields",
                           VInt (match data with
                                 | VDict d => Z.of_nat (length d)
                                 | _ => 0%Z
                                 end));
                          ("processed_data", data) ]) ]])) = Some history ->
  json_dumps w (VDict (Dict.set "json_data" data d)) = Some extracted ->
  Agents.JSON.process w data sid st =
  (Ok (VDict
         [ ("status", VStr "success");
           ("data_type", VStr "json");
           ("keys_found",
            VList (match data with
                   | VDict d => map VStr (Dict.keys d)
                   | _ => []
                   end));
           ("total_fields",
            VInt (match data with
                  | VDict d => Z.of_nat (length d)
                  | _ => 0%Z
                  end));
           ("processed_data", data) ]),
   {| hashes :=
        <[Memory.session_key sid :=
            list_to_map [ ("extracted_data", extracted);
                          ("updated_at", w_now w (S (S (tick st)))) ]
            ∪ (list_to_map [ ("processing_history", history);
                             ("updated_at", w_now w (S (tick st))) ] ∪ h)]>
          (hashes st);
      active := active st; expiry := expiry st; tick := S (S (S (tick st))) |}).
Proof.
  intros Hh Hp He Hd1 Hd2.
  unfold Agents.JSON.process, try_except. cbv zeta. unfold bind at 1.
  erewrite add_processing_step_run; [|exact Hh|exact Hp|exact Hd1].
  unfold bind at 1.
  erewrite store_extracted_data_run;
    [|cbn [hashes]; apply lookup_insert_eq| |exact Hd2].
  - unfold ret. cbn [hashes active expiry tick]. rewrite insert_insert_eq. reflexivity.
  - rewrite lookup_union. vm_compute (list_to_map _ !! _).
    rewrite option_union_left_id. exact He.
Qed.

(** X11: on a session that holds a list as its history and a mapping as
    its extracted data, and with values [json.dumps] serialises, the
    JSON strategy answers with its success record, stores the history
    with one step (agent [JSONAgent], the record as result) added at the
    end, stores the extracted data with the document set under
    [json_data], and reads the clock three times; the set of active
    sessions and every other hash are as before. *)
Theorem json_strategy_records_its_result (w : World) (data : PyVal) (sid : string)
    (st : Store) (h : gmap string string) (steps : list PyVal) (d : Dict.t) :
  hashes st !! Memory.session_key sid = Some h ->
  Memory.decode_field <$> h !! "processing_history" = Some (VList steps) ->
  Memory.decode_field <$> h !! "extracted_data" = Some (VDict d) ->
  (forall v, jsonable v = true -> is_Some (w_dumps w v)) ->
  jsonable data = true ->
  exists record st',
    Agents.JSON.process w data sid st = (Ok (VDict record), st') /\
    Dict.get "status" record = Some (VStr "success") /\
    Dict.get "processed_data" record = Some data /\
    field st' sid "processing_history" =
      json_dumps w
        (VList (steps ++ [VDict [ ("agent", VStr "JSONAgent");
                                  ("timestamp", VStr (w_now w (tick st)));
                                  ("result", VDict record) ]])) /\
    field st' sid "extracted_data" = json_dumps w (VDict (Dict.set "json_data" data d)) /\
    field st' sid "updated_at" = Some (w_now w (S (S (tick st)))) /\
    active st' = active st /\
    tick st' = S (S (S (tick st))) /\
    (forall key, key <> Memory.session_key sid -> hashes st' !! key = hashes st !! key).
Proof.
  intros Hh Hp He Hdumps Hdata.
  assert (Hsteps : forallb jsonable steps = true).
  { destruct (h !! "processing_history") as [t|]; [|discriminate].
    cbn in Hp. injection Hp as Hp. unfold Memory.decode_field in Hp.
    destruct (Json.loads t) as [v|] eqn:El; [|discriminate]. subst v.
    exact (loads_jsonable _ _ El). }
  assert (Hd : forallb (fun kv => jsonable (snd kv)) d = true).
  { destruct (h !! "extracted_data") as [t|]; [|discriminate].
    cbn in He. injection He as He. unfold Memory.decode_field in He.
    destruct (Json.loads t) as [v|] eqn:El; [|discriminate]. subst v.
    exact (loads_jsonable _ _ El). }
  set (record :=
         [ ("status", VStr "success");
           ("data_type", VStr "json");
           ("keys_found",
            VList (match data with
                   | VDict d => map VStr (Dict.keys d)
                   | _ => []
                   end));
           ("total_fields",
            VInt (match data with
                  | VDict d => Z.of_nat (length d)
                  | _ => 0%Z
                  end));
           ("processed_data", data) ]).
  assert (Hrecord : jsonable (VDict record) = true).
  { cbn. rewrite Hdata. destruct data; cbn; try reflexivity. now rewrite jsonable_strs. }
  destruct (json_dumps w
              (VList (steps ++ [VDict [ ("agent", VStr "JSONAgent");
                                        ("timestamp", VStr (w_now w (tick st)));
                                        ("result", VDict record) ]])))
    as [history|] eqn:E1.
  2:{ exfalso. unfold json_dumps in E1.
      destruct (steps ++ _) eqn:Es; [now destruct steps|].
      rewrite <- Es in E1.
      destruct (Hdumps (VList (steps ++ [VDict [ ("agent", VStr "JSONAgent");
                                               ("timestamp", VStr (w_now w (tick st)));
                                               ("result", VDict record) ]]))) as [? Hs].
      - cbn [jsonable]. rewrite forallb_app, Hsteps. cbn [forallb andb snd jsonable].
        change (forallb (fun kv => jsonable (snd kv)) record) with (jsonable (VDict record)).
        now rewrite Hrecord.
      - congruence. }
  destruct (json_dumps w (VDict (Dict.set "json_data" data d))) as [extracted|] eqn:E2.
  2:{ exfalso. unfold json_dumps in E2.
      destruct (Dict.set "json_data" data d) eqn:Es; [now destruct d as [|[? ?] ?]; cbn in Es;
        [|destruct (String.eqb _ _)]|].
      rewrite <- Es in E2.
      destruct (Hdumps (VDict (Dict.set "json_data" data d))) as [? Hs].
      - cbn [jsonable]. now apply forallb_dict_set.
      - congruence. }
  exists record. eexists. split.
  { apply (json_process_run w data sid st h steps d history extracted Hh Hp He E1 E2). }
  split; [reflexivity|]. split; [reflexivity|].
  unfold field. cbn [hashes active tick]. rewrite lookup_insert_eq. cbn [mbind option_bind].
  rewrite !lookup_union.
  repeat split.
  - vm_compute (list_to_map _ !! "processing_history").
    now destruct (h !! "processing_history").
  - vm_compute (list_to_map _ !! "extracted_data").
    now destruct (_ ∪ h !! "extracted_data").
  - vm_compute (list_to_map _ !! "updated_at").
    now destruct (_ ∪ h !! "updated_at").
  - intros key Hne. now rewrite lookup_insert_ne.
Qed.

Lemma sample_dumps_accepts (answer : option string) (v : PyVal) :
  jsonable v = true -> is_Some (w_dumps (Sample.replying answer) v).
Proof. intros Hv. cbn. rewrite Hv. eauto. Qed.

Lemma json_strategy_records_its_result_witness :
  exists record st',
    Agents.JSON.process Sample.offline (VDict [("order_id", VInt 42)]) Sample.session_id
      Sample.one_session = (Ok (VDict record), st') /\
    Dict.get "status" record = Some (VStr "success") /\
    field st' Sample.session_id "extracted_data"
      = Some (Sample.dumps (VDict [("json_data", VDict [("order_id", VInt 42)])])).
Proof.
  destruct (json_strategy_records_its_result Sample.offline
              (VDict [("order_id", VInt 42)]) Sample.session_id Sample.one_session
              (default ∅ (hashes Sample.one_session
                            !! Memory.session_key Sample.session_id)) [] [])
    as (record & st' & Hrun & Hstatus & _ & _ & Hextracted & _).
  - apply stored_hash. vm_compute. reflexivity.
  - vm_compute. reflexivity.
  - vm_compute. reflexivity.
  - apply sample_dumps_accepts.
  - reflexivity.
  - exists record, st'. split; [exact Hrun|]. split; [exact Hstatus|].
    rewrite Hextracted. reflexivity.
Defined.

Lemma route_refuses (w : World) (classification : Classifier.Classification)
    (content : PyVal) (sid : string) (st : Store) :
  Classifier.format classification ∈ ["text"; "html"; "unknown"] ->
  Router.route_to_agent w classification content sid st =
  (Raise (ValueError ("Unsupported format: " +:+ Classifier.format classification)), st).
Proof.
  intros H. unfold Router.route_to_agent.
  repeat (apply elem_of_cons in H as [-> | H]; [reflexivity|]).
  now apply elem_of_nil in H.
Qed.

(** X12: [process_file] creates the session before it routes.  When
    the classifier answers [text], [html] or [unknown], the request
    ends in an [HTTPException] with status 500 and the detail
    [Unsupported format: ...], and the session created for it stays
    behind: registered, active, with the refused format as its
    [input_type] and the name of the file as its [source].  When the
    upload itself fails, the request ends with status 500 and the store
    as it was. *)
Theorem process_file_leaves_a_session_for_a_refused_format (w : World)
    (content_type filename : option string) (content : PyVal) (st : Store) :
  Classifier.format (Classifier.classify w content content_type filename None)
    ∈ ["text"; "html"; "unknown"] ->
  fst (Main.process_file w content_type filename (Ok content) st) =
    Main.HTTPException 500
      ("Unsupported format: "
         +:+ Classifier.format (Classifier.classify w content content_type filename None)) /\
  (field (snd (Main.process_file w content_type filename (Ok content) st))
     (w_uuid w (S (tick st))) "input_type"
   = Some (Classifier.format (Classifier.classify w content content_type filename None)) /\
   field (snd (Main.process_file w content_type filename (Ok content) st))
     (w_uuid w (S (tick st))) "source"
   = Some (py_str w (Agents.opt_str filename)) /\
   field (snd (Main.process_file w content_type filename (Ok content) st))
     (w_uuid w (S (tick st))) "status"
   = Some "active") /\
  w_uuid w (S (tick st))
    ∈ active (snd (Main.process_file w content_type filename (Ok content) st)) /\
  (forall e,
     Main.process_file w content_type filename (Raise e) st =
     (Main.HTTPException 500 (Agents.exn_text w e), st)).
Proof.
  intros Hformat.
  set (c := Classifier.classify w content content_type filename None) in *.
  assert (Hne : PyStr.lower (Classifier.format c) <> "email").
  { pose proof Hformat as Hin.
    repeat (apply elem_of_cons in Hin as [E | Hin]; [rewrite E; discriminate|]).
    now apply elem_of_nil in Hin. }
  pose proof (session_request w (py_str w (Agents.opt_str filename))
                (Classifier.format c) (Classifier.intent c)
                (fun sid => Router.route_to_agent w c content sid)
                (fun sid result timestamp =>
                   {| Main.r_session_id := sid; Main.r_classification := c;
                      Main.r_result := result; Main.r_timestamp := timestamp |})
                st (fun sid => preserves_route w c content sid (or_intror Hne))) as H.
  cbv zeta in H. destruct H as ((_ & Hsource & Hinput & _ & Hstatus) & Hactive & Hfst).
  rewrite route_refuses in Hfst by exact Hformat.
  repeat split; assumption || reflexivity.
Qed.

Lemma process_file_leaves_a_session_for_a_refused_format_witness :
  fst (Main.process_file Sample.offline (Some "text/plain") (Some "notes.txt")
         (Ok (VStr "hello")) Pipeline.empty_store)
  = Main.HTTPException 500 "Unsupported format: text" /\
  field (snd (Main.process_file Sample.offline (Some "text/plain") (Some "notes.txt")
                (Ok (VStr "hello")) Pipeline.empty_store))
    (Sample.uuid 1) "input_type" = Some "text".
Proof.
  destruct (process_file_leaves_a_session_for_a_refused_format Sample.offline
              (Some "text/plain") (Some "notes.txt") (VStr "hello") Pipeline.empty_store)
    as (Hfst & (Hinput & _) & _).
  - apply elem_of_cons. left. vm_compute. reflexivity.
  - split; [exact Hfst | exact Hinput].
Defined.

(** X13: [process_email] stores an email session whatever the
    classifier says.  The hint [email] that the handler passes is not a
    key of the classifier's table, so the format in the answer is the one
    read off the body.  The request ends in an answer that names the
    session and carries the classification, in an [HTTPException] with
    status 500, or in an exception that does not derive from [Exception]
    and that the handler lets pass.  When the response that the strategy
    evaluates leaves the server alone, the session is there after the
    request however it ends, registered, with [input_type = "email"] and
    [source = "email"], the intent the classifier found and
    [status = "active"]. *)
Theorem process_email_always_leaves_an_email_session (w : World) (email_body : string)
    (subject : option string) (st : Store) :
  Classifier.format
    (Classifier.classify w (VStr email_body) (Some "email") None
       (Some [("subject", Agents.opt_str subject)]))
  = Classifier.format_of_content (VStr email_body) /\
  match fst (Main.process_email w email_body subject st) with
  | Main.Respond r =>
      Main.r_session_id r = w_uuid w (S (tick st)) /\
      Main.r_classification r =
        Classifier.classify w (VStr email_body) (Some "email") None
          (Some [("subject", Agents.opt_str subject)])
  | Main.HTTPException status_code _ => status_code = 500%Z
  | Main.Interrupted _ => True
  end /\
  (inert w ->
   (field (snd (Main.process_email w email_body subject st))
      (w_uuid w (S (tick st))) "session_id" = Some (w_uuid w (S (tick st))) /\
    field (snd (Main.process_email w email_body subject st))
      (w_uuid w (S (tick st))) "source" = Some "email" /\
    field (snd (Main.process_email w email_body subject st))
      (w_uuid w (S (tick st))) "input_type" = Some "email" /\
    field (snd (Main.process_email w email_body subject st))
      (w_uuid w (S (tick st))) "intent"
    = Some (Classifier.intent
              (Classifier.classify w (VStr email_body) (Some "email") None
                 (Some [("subject", Agents.opt_str subject)]))) /\
    field (snd (Main.process_email w email_body subject st))
      (w_uuid w (S (tick st))) "status" = Some "active") /\
   w_uuid w (S (tick st)) ∈ active (snd (Main.process_email w email_body subject st))).
Proof.
  split; [reflexivity|].
  set (c := Classifier.classify w (VStr email_body) (Some "email") None
              (Some [("subject", Agents.opt_str subject)])).
  split.
  - pose proof (request_run w "email" "email" (Classifier.intent c)
                  (fun sid => Agents.Email.process w (VStr email_body) subject sid)
                  (fun sid result timestamp =>
                     {| Main.r_session_id := sid; Main.r_classification := c;
                        Main.r_result := result; Main.r_timestamp := timestamp |})
                  st) as Hrun.
    match type of Hrun with
    | _ = ?rhs =>
        assert (Hrun' : Main.process_email w email_body subject st = rhs) by exact Hrun
    end.
    rewrite Hrun'.
    destruct (Agents.Email.process w (VStr email_body) subject _ _) as [[r|e|i] st2];
      cbn [fst]; [split| |]; reflexivity || exact I.
  - intros Hinert.
    pose proof (session_request w "email" "email" (Classifier.intent c)
                  (fun sid => Agents.Email.process w (VStr email_body) subject sid)
                  (fun sid result timestamp =>
                     {| Main.r_session_id := sid; Main.r_classification := c;
                        Main.r_result := result; Main.r_timestamp := timestamp |})
                  st
                  (fun sid => preserves_email_process w sid (VStr email_body) subject
                                Hinert)) as H.
    cbv zeta in H. destruct H as (Hfields & Hactive & _).
    split; [exact Hfields | exact Hactive].
Qed.

(** The two ways in which an evaluated response upsets the request: the
    response [exit()] ends it with [SystemExit], which the handler does
    not turn into an [HTTPException]; a response that empties the server
    takes the new session with it. *)
Example process_email_and_the_evaluated_response :
  fst (Main.process_email (Sample.obeying "exit()") "Hello" (Some "Hi")
         Pipeline.empty_store)
  = Main.Interrupted (SystemExit VNone) /\
  hashes
    (snd (Main.process_email (Sample.obeying "self.memory_manager.redis_client.flushall()")
            "Hello" (Some "Hi") Pipeline.empty_store))
  = ∅.
Proof. split; vm_compute; reflexivity. Qed.

(** X14: [process_json] on a document that [json.dumps] serialises.
    The request is answered: the session it names is new, stored with
    [source = "api"] and [input_type = "json"]; the result is the success
    record of the JSON strategy with the keys of the document; the
    stored history is the serialised list of one step, and the stored
    extracted data the serialised mapping of [json_data] to the
    document.  The clock and the generator are read six times. *)
Theorem process_json_records_the_document (w : World) (data : Dict.t) (st : Store) :
  (forall v, jsonable v = true -> is_Some (w_dumps w v)) ->
  jsonable (VDict data) = true ->
  exists (r : Main.Response) (st' : Store),
    Main.process_json w data st = (Main.Respond r, st') /\
    Main.r_session_id r = w_uuid w (S (tick st)) /\
    Main.r_result r =
      VDict [ ("status", VStr "success");
              ("data_type", VStr "json");
              ("keys_found", VList (map VStr (Dict.keys data)));
              ("total_fields", VInt (Z.of_nat (length data)));
              ("processed_data", VDict data) ] /\
    Main.r_timestamp r = w_now w (5 + tick st) /\
    field st' (w_uuid w (S (tick st))) "source" = Some "api" /\
    field st' (w_uuid w (S (tick st))) "input_type" = Some "json" /\
    field st' (w_uuid w (S (tick st))) "intent"
      = Some (Classifier.intent (Main.r_classification r)) /\
    field st' (w_uuid w (S (tick st))) "processing_history" =
      w_dumps w
        (VList [VDict [ ("agent", VStr "JSONAgent");
                        ("timestamp", VStr (w_now w (2 + tick st)));
                        ("result", Main.r_result r) ]]) /\
    field st' (w_uuid w (S (tick st))) "extracted_data" =
      w_dumps w (VDict [("json_data", VDict data)]) /\
    w_uuid w (S (tick st)) ∈ active st' /\
    tick st' = 6 + tick st.
Proof.
  intros Hdumps Hdata.
  set (sid := w_uuid w (S (tick st))).
  set (record :=
         [ ("status", VStr "success");
           ("data_type", VStr "json");
           ("keys_found", VList (map VStr (Dict.keys data)));
           ("total_fields", VInt (Z.of_nat (length data)));
           ("processed_data", VDict data) ]).
  assert (Hrecord : jsonable (VDict record) = true).
  { cbn. cbn in Hdata. rewrite Hdata. now rewrite jsonable_strs. }
  destruct (json_dumps w (VDict data)) as [json_content|] eqn:Ejson.
  2:{ exfalso. destruct data as [|kv data]; [discriminate|].
      destruct (Hdumps _ Hdata) as [? Hs]. cbn in Ejson. congruence. }
  destruct (w_dumps w (VList [VDict [ ("agent", VStr "JSONAgent");
                                      ("timestamp", VStr (w_now w (2 + tick st)));
                                      ("result", VDict record) ]]))
    as [history|] eqn:E1.
  2:{ exfalso. edestruct Hdumps as [? Hs]; [|rewrite Hs in E1; discriminate].
      cbn [jsonable forallb snd andb].
      change (forallb (fun kv => jsonable (snd kv)) record) with (jsonable (VDict record)).
      now rewrite Hrecord. }
  destruct (w_dumps w (VDict [("json_data", VDict data)])) as [extracted|] eqn:E2.
  2:{ exfalso. edestruct Hdumps as [? Hs]; [|rewrite Hs in E2; discriminate].
      cbn [jsonable forallb snd andb]. cbn in Hdata. now rewrite Hdata. }
  set (c := Classifier.classify w (VStr json_content) (Some "json") None None).
  set (st1 := snd (Memory.create_session w "api" "json" (Classifier.intent c)
                     (w_now w (tick st)) (snd (now w st)))).
  pose proof (created_session w "api" "json" (Classifier.intent c) st) as Hst1.
  fold sid st1 in Hst1.
  pose proof (new_session_fields w sid "api" "json" (Classifier.intent c)
                (w_now w (tick st)) (default ∅ (hashes st !! Memory.session_key sid)))
    as Hnew.
  cbv zeta in Hnew. destruct Hnew as (_ & Hsrc & Hinp & Hint & _ & Hhist & Hext).
  assert (Hrun := json_process_run w (VDict data) sid st1 _ [] [] history extracted
                ltac:(rewrite Hst1; apply lookup_insert_eq)
                ltac:(rewrite Hhist; reflexivity)
                ltac:(rewrite Hext; reflexivity)).
  assert (Htick : tick st1 = S (S (tick st))) by now rewrite Hst1.
  rewrite Htick in Hrun. specialize (Hrun E1 E2).
  assert (Hshape : Main.process_json w data st =
            Main.guarded w
              (request w "api" "json" (Classifier.intent c)
                 (fun sid => Agents.JSON.process w (VDict data) sid)
                 (fun sid result timestamp =>
                    {| Main.r_session_id := sid; Main.r_classification := c;
                       Main.r_result := result; Main.r_timestamp := timestamp |})) st).
  { unfold Main.process_json. rewrite Ejson. reflexivity. }
  rewrite Hshape, request_run. fold sid st1. rewrite Hrun. clear Hshape Hrun.
  clearbody st1 c.
  eexists. eexists. split; [reflexivity|].
  cbn [Main.r_session_id Main.r_result Main.r_timestamp Main.r_classification
       tick active hashes].
  split; [reflexivity|]. split; [reflexivity|].
  split; [reflexivity|].
  unfold field. cbn [hashes]. rewrite lookup_insert_eq. cbn [mbind option_bind].
  rewrite !lookup_union.
  repeat split.
  - vm_compute (list_to_map _ !! "source"). rewrite !option_union_left_id.
    match goal with |- Some ?x ∪ ?o = _ => destruct o end; reflexivity.
  - vm_compute (list_to_map _ !! "input_type"). rewrite !option_union_left_id.
    match goal with |- Some ?x ∪ ?o = _ => destruct o end; reflexivity.
  - vm_compute (list_to_map _ !! "intent"). rewrite !option_union_left_id.
    match goal with |- Some ?x ∪ ?o = _ => destruct o end; reflexivity.
  - vm_compute (list_to_map _ !! "processing_history"). rewrite !option_union_left_id.
    try (etransitivity; [|symmetry; exact E1]).
    match goal with |- Some ?x ∪ ?o = _ => destruct o end; reflexivity.
  - vm_compute (list_to_map _ !! "extracted_data"). rewrite ?option_union_left_id.
    try rewrite E2.
    match goal with |- Some ?x ∪ ?o = _ => destruct o end; reflexivity.
  - rewrite Hst1. cbn [active]. apply elem_of_union. left. now apply elem_of_singleton.
Qed.

Lemma process_json_records_the_document_witness :
  exists (r : Main.Response) (st' : Store),
    Main.process_json Sample.offline [("order_id", VInt 42)] Pipeline.empty_store
      = (Main.Respond r, st') /\
    Main.r_session_id r = Sample.uuid 1 /\
    field st' (Sample.uuid 1) "extracted_data"
      = Some (Sample.dumps (VDict [("json_data", VDict [("order_id", VInt 42)])])).
Proof.
  destruct (process_json_records_the_document Sample.offline [("order_id", VInt 42)]
              Pipeline.empty_store)
    as (r & st' & Hrun & Hsid & _ & _ & _ & _ & _ & _ & Hextracted & _).
  - apply sample_dumps_accepts.
  - reflexivity.
  - exists r, st'. split; [exact Hrun|]. split; [exact Hsid|]. exact Hextracted.
Defined.

(** A request that fails before the session is created leaves the
    store as it was.  [process_json] serialises the document first: when
    [json.dumps] raises, the request ends in an [HTTPException] with
    status 500 and no session exists for it.  [get_all_sessions], which
    only reads, answers with the list of the memory manager and the
    store as it was. *)
Lemma requests_that_fail_early_leave_no_session (w : World) (st : Store) :
  (forall data,
     json_dumps w (VDict data) = None ->
     Main.process_json w data st =
     (Main.HTTPException 500 (Agents.exn_text w (dumps_error w (VDict data))), st)) /\
  (exists sessions,
     Main.get_all_sessions w st = (Main.Respond sessions, st) /\
     Memory.get_all_sessions st = (Ok sessions, st)).
Proof.
  split.
  - intros data H. unfold Main.process_json, Main.guarded. rewrite H. reflexivity.
  - eexists. unfold Main.get_all_sessions, Main.guarded.
    rewrite get_all_sessions_run. split; reflexivity.
Qed.

(** X15: [get_session_memory] never answers with status 404.  The
    exception with status 404 that it raises for a session it does not
    find is raised inside its own [try], whose handler turns every
    exception into an [HTTPException] with status 500: a request for an
    unknown session ends with status 500, the detail being the text of
    the first exception.  A session that is stored and not empty is
    answered as [get_session] reads it.  The store is never changed. *)
Theorem get_session_memory_never_answers_404 (w : World)
    (http_text : Z -> string -> string) (sid : string) (st : Store) :
  snd (Main.get_session_memory w http_text sid st) = st /\
  match fst (Main.get_session_memory w http_text sid st) with
  | Main.Respond memory =>
      fst (Memory.get_session sid st) = Ok (Some memory) /\ memory <> ∅
  | Main.HTTPException status_code detail =>
      status_code = 500%Z /\
      detail = http_text 404%Z "Session not found" /\
      listed st sid = None
  | Main.Interrupted _ => False
  end.
Proof.
  unfold Main.get_session_memory. rewrite get_session_run. cbn [fst snd].
  unfold listed.
  destruct (hashes st !! Memory.session_key sid) as [h|]; cbn [fmap option_fmap option_map].
  - destruct (Memory.missing (Some (Memory.decode_field <$> h))) eqn:E.
    + repeat split.
    + split; [reflexivity|]. cbn [fst default from_option id]. split; [reflexivity|].
      intros Hempty. unfold Memory.missing in E.
      rewrite bool_decide_eq_true_2 in E by exact Hempty. discriminate.
  - cbn. repeat split.
Qed.
(** ** Strategies that store their record in one write *)

Lemma reads_only_ret {A : Type} (a : A) : reads_only (ret a).
Proof. intros st. reflexivity. Qed.

Lemma reads_only_raise {A : Type} (e : exn) : reads_only (@raise A e).
Proof. intros st. reflexivity. Qed.

Lemma reads_only_lift {A : Type} (o : outcome A) : reads_only (Agents.Email.lift o).
Proof. intros st. reflexivity. Qed.

Lemma reads_only_reading : reads_only reading.
Proof. intros st. reflexivity. Qed.

Lemma reads_only_now (w : World) : reads_only (now w).
Proof. intros st. reflexivity. Qed.

Lemma reads_only_bind {A B : Type} (m : M A) (k : A -> M B) :
  reads_only m -> (forall a, reads_only (k a)) -> reads_only (bind m k).
Proof.
  intros Hm Hk st. unfold bind. specialize (Hm st).
  destruct (m st) as [[a|e|i] st1]; cbn [snd] in *; [|exact Hm..].
  now rewrite Hk.
Qed.

Lemma reads_only_try_except {A : Type} (m : M A) (h : exn -> M A) :
  reads_only m -> (forall e, reads_only (h e)) -> reads_only (try_except m h).
Proof.
  intros Hm Hh st. unfold try_except. specialize (Hm st).
  destruct (m st) as [[a|e|i] st1]; cbn [snd] in *; [exact Hm| |exact Hm].
  now rewrite Hh.
Qed.

Lemma reads_only_eval (w : World) (text : string) :
  inert w -> reads_only (Agents.Email.eval w text).
Proof. intros Hinert st. now rewrite Hinert. Qed.

Lemma all_or_nothing_reads {A : Type} (m : M A) : reads_only m -> all_or_nothing m.
Proof. intros Hm st _. apply Hm. Qed.

Lemma all_or_nothing_bind {A B : Type} (m : M A) (k : A -> M B) :
  reads_only m -> (forall a, all_or_nothing (k a)) -> all_or_nothing (bind m k).
Proof.
  intros Hm Hk st. unfold bind. specialize (Hm st).
  destruct (m st) as [[a|e|i] st1]; cbn [snd fst] in *.
  - intros H. rewrite <- Hm. now apply (Hk a st1).
  - intros _. exact Hm.
  - intros _. exact Hm.
Qed.

Lemma all_or_nothing_then_ret {A B : Type} (m : M A) (f : A -> B) :
  all_or_nothing m -> all_or_nothing (bind m (fun a => ret (f a))).
Proof.
  intros Hm st. unfold bind, ret. specialize (Hm st).
  destruct (m st) as [[a|e|i] st1]; cbn [snd fst returned] in *;
    [discriminate | exact Hm..].
Qed.

Lemma all_or_nothing_update_session (w : World) (sid : string) (updates : Dict.t) :
  all_or_nothing (Memory.update_session w sid updates).
Proof.
  intros st. unfold Memory.update_session, bind, Redis.exists_, now, reading, ret,
    Memory.encode_mapping, Redis.hset, bind, ret, raise.
  destruct (bool_decide _); cbn [negb]; [|discriminate].
  destruct (Memory.encode_items w _); cbn [fst snd hashes returned];
    [discriminate|reflexivity].
Qed.

Create HintDb writes.

#[local] Hint Resolve reads_only_ret reads_only_raise reads_only_lift reads_only_reading
  reads_only_now : writes.

Ltac reads_only_step :=
  first
    [ solve [auto with writes]
    | apply reads_only_eval; assumption
    | apply reads_only_bind; [|intros ?]
    | apply reads_only_try_except; [|intros ?]
    | match goal with
      | |- reads_only (match ?x with _ => _ end) => destruct x
      | |- reads_only (if ?x then _ else _) => destruct x
      end ].

Lemma reads_only_analysis (w : World) (body : string) (subject : option string) :
  inert w -> reads_only (Agents.Email.analyze_email_content w body subject).
Proof.
  intros Hinert. unfold Agents.Email.analyze_email_content. repeat reads_only_step.
Qed.

Lemma reads_only_crm (w : World) (sender_info : Dict.t) (analysis : PyVal)
    (subject : option string) (body : string) :
  reads_only (Agents.Email.create_crm_record w sender_info analysis subject body).
Proof. unfold Agents.Email.create_crm_record. repeat reads_only_step. Qed.

Lemma reads_only_key_information (w : World) (text : string) (a : Agents.PDF.Analysis) :
  reads_only (Agents.PDF.extract_key_information w text a).
Proof. unfold Agents.PDF.extract_key_information. repeat reads_only_step. Qed.

Lemma reads_only_document_type (w : World) (text : string) :
  reads_only (Agents.PDF.classify_document_type w text).
Proof. unfold Agents.PDF.classify_document_type. repeat reads_only_step. Qed.

Lemma all_or_nothing_email (w : World) (body : PyVal) (subject : option string)
    (sid : string) :
  inert w -> all_or_nothing (Agents.Email.process w body subject sid).
Proof.
  intros Hinert.
  destruct body; try (apply all_or_nothing_reads, reads_only_raise).
  unfold Agents.Email.process, Agents.Email.process_text.
  apply all_or_nothing_bind; [apply reads_only_lift|intros sender_info].
  apply all_or_nothing_bind; [now apply reads_only_analysis|intros analysis].
  apply all_or_nothing_bind; [apply reads_only_crm|intros crm_record].
  apply all_or_nothing_bind; [apply reads_only_now|intros stamp].
  apply (all_or_nothing_then_ret _ (fun r => VDict (snd r))).
  apply all_or_nothing_update_session.
Qed.

Lemma all_or_nothing_pdf (w : World) (content : PyVal) (sid : string) :
  all_or_nothing (Agents.PDF.process w content sid).
Proof.
  unfold Agents.PDF.process.
  apply all_or_nothing_bind; [apply reads_only_key_information|intros extracted_data].
  apply all_or_nothing_bind; [apply reads_only_document_type|intros classification].
  apply all_or_nothing_bind; [apply reads_only_now|intros stamp].
  apply (all_or_nothing_then_ret _ (fun r => VDict (snd r))).
  apply all_or_nothing_update_session.
Qed.

(** X16: the PDF strategy stores all of its record or nothing, and so
    does the email strategy as far as its own code goes.  Each writes to
    the session once, at the end, in one [HSET]: when the PDF strategy
    does not return, whatever exception leaves it, every hash of the
    store is as it was before the call, and so is the set of active
    sessions.  The same holds of the email strategy when the response
    it evaluates leaves the server alone. *)
Theorem email_and_pdf_strategies_store_all_or_nothing (w : World) (sid : string)
    (st : Store) :
  (forall content,
     returned (fst (Agents.PDF.process w content sid st)) = false ->
     hashes (snd (Agents.PDF.process w content sid st)) = hashes st /\
     active (snd (Agents.PDF.process w content sid st)) = active st) /\
  (inert w ->
   forall body subject,
     returned (fst (Agents.Email.process w body subject sid st)) = false ->
     hashes (snd (Agents.Email.process w body subject sid st)) = hashes st /\
     active (snd (Agents.Email.process w body subject sid st)) = active st).
Proof.
  split.
  - intros content H. split.
    + now apply (all_or_nothing_pdf w content sid st).
    + apply (preserves_pdf_process w sid content st).
  - intros Hinert body subject H. split.
    + now apply (all_or_nothing_email w body subject sid Hinert st).
    + apply (preserves_email_process w sid body subject Hinert st).
Qed.

(** A strategy that does not return: the email strategy on the response
    [42], which [eval] reads as a number, after a session was created.
    Nothing of its record is stored. *)
Example email_strategy_stores_nothing_when_it_raises :
  returned
    (fst (Agents.Email.process (Sample.replying (Some "42")) (VStr "Hello") (Some "Hi")
            Sample.session_id Sample.one_session)) = false /\
  hashes
    (snd (Agents.Email.process (Sample.replying (Some "42")) (VStr "Hello") (Some "Hi")
            Sample.session_id Sample.one_session)) = hashes Sample.one_session.
Proof.
  split; [reflexivity|].
  apply (all_or_nothing_email _ _ _ _ (sample_inert (Some "42"))). reflexivity.
Qed.

(** ** A message in several parts *)

Lemma encode_items_none (w : World) (d : Dict.t) (k : string) (v : PyVal) :
  (k, v) ∈ d -> Memory.encode w v = None -> Memory.encode_items w d = None.
Proof.
  intros Hin Hv. induction d as [|[k' v'] d IH]; [now apply elem_of_nil in Hin|].
  apply elem_of_cons in Hin as [[= <- <-]|Hin]; cbn.
  - now rewrite Hv.
  - rewrite (IH Hin). now destruct (Memory.encode w v').
Qed.

Lemma update_session_unserialisable (w : World) (sid : string) (updates : Dict.t)
    (st : Store) (k : string) (v : PyVal) :
  is_Some (hashes st !! Memory.session_key sid) ->
  (forall stamp, (k, v) ∈ Dict.set "updated_at" (VStr stamp) updates) ->
  Memory.encode w v = None ->
  exists e, fst (Memory.update_session w sid updates st) = Raise e.
Proof.
  intros Hs Hin Hv.
  unfold Memory.update_session, bind, Redis.exists_, now, reading, ret,
    Memory.encode_mapping, bind, ret, raise.
  rewrite bool_decide_eq_true_2 by exact Hs. cbn [negb].
  rewrite (encode_items_none w _ k v (Hin _) Hv). eauto.
Qed.



(** In the sample world the exception is the one of [json.dumps]. *)
Example multipart_message_is_not_serialised :
  fst (Agents.Email.process Sample.multipart (VStr "Hello") (Some "Hi")
         Sample.session_id Sample.one_session)
  = Raise (TypeError "Object is not JSON serializable").
Proof. vm_compute. reflexivity. Qed.
(** ** The analysis of a document *)

Lemma split_length (c : ascii) (s : string) :
  length (PyStr.split c s) = S (PyStr.count_char c s).
Proof.
  induction s as [|x s IH]; [reflexivity|]. cbn [PyStr.split PyStr.count_char].
  destruct (Ascii.eqb x c); cbn [length Nat.add].
  - now rewrite IH.
  - destruct (PyStr.split c s) as [|w ws]; [discriminate|]. exact IH.
Qed.

Lemma fields_count_words_go (s : string) :
  PyStr.count_words_go false s = length (PyStr.fields s) /\
  PyStr.count_words_go true s =
    length (PyStr.fields s) - (if PyStr.word_ends s then 0 else 1).
Proof.
  induction s as [|c s [IHf IHt]]; [split; reflexivity|].
  cbn [PyStr.count_words_go PyStr.fields PyStr.word_ends].
  destruct (PyStr.is_space c).
  - rewrite IHf. split; [reflexivity | lia].
  - rewrite IHt.
    destruct (PyStr.fields s) as [|w ws]; cbn [length].
    + split; [reflexivity|]. destruct (PyStr.word_ends s); reflexivity.
    + destruct (PyStr.word_ends s); cbn [length]; split; lia.
Qed.

Lemma fields_count_words (s : string) :
  PyStr.count_words s = length (PyStr.fields s).
Proof. apply fields_count_words_go. Qed.

(** X18: the statistics of [_analyze_document].  [total_lines] is one
    more than the number of line feeds in the text, so it is never
    zero and the guard against an empty list of lines never fires:
    [avg_words_per_line] is always the float quotient of the two
    counts.  [total_words] is the number of words of [text.split()] and
    [total_characters] the length of the text. *)
Theorem document_statistics_count_lines_and_words (w : World) (text : string) :
  Agents.PDF.statistics (Agents.PDF.analyze_document w text) =
  VDict
    [ ("total_lines", VInt (Z.of_nat (S (PyStr.count_char "010" text))));
      ("total_words", VInt (Z.of_nat (length (PyStr.fields text))));
      ("total_characters", VInt (Z.of_nat (String.length text)));
      ("avg_words_per_line",
       VNum (Agents.PDF.float_of_nat (length (PyStr.fields text))
             / Agents.PDF.float_of_nat (S (PyStr.count_char "010" text)))%float) ].
Proof.
  unfold Agents.PDF.analyze_document. cbn [Agents.PDF.statistics].
  rewrite fields_count_words, split_length.
  destruct (PyStr.split "010" text) eqn:E; [|reflexivity].
  pose proof (split_length "010" text) as H. rewrite E in H. discriminate.
Qed.

Lemma rstrip_cons (c : ascii) (s : string) :
  PyStr.is_space c = false -> PyStr.rstrip (String c s) = String c (PyStr.rstrip s).
Proof. intros H. cbn. rewrite H. now destruct (PyStr.rstrip s). Qed.

Lemma rstrip_line_feed (s : string) :
  PyStr.rstrip (String "010" s) = EmptyString \/
  exists r, PyStr.rstrip (String "010" s) = String "010" r.
Proof. cbn. destruct (PyStr.rstrip s); [left | right]; eauto. Qed.

Lemma rstrip_app (a s : string) :
  a <> EmptyString -> PyStr.rstrip a = a ->
  PyStr.rstrip (a +:+ s) = a +:+ PyStr.rstrip s.
Proof.
  induction a as [|c a IH]; [congruence|]. intros _ H.
  change (String c a +:+ s) with (String c (a +:+ s)).
  cbn [PyStr.rstrip] in H.
  destruct (PyStr.rstrip a) as [|x t] eqn:Ea.
  - destruct (PyStr.is_space c) eqn:Ec; [discriminate|].
    injection H as <-. now apply rstrip_cons.
  - injection H as H. cbn [PyStr.rstrip]. rewrite IH; [|congruence|congruence].
    rewrite <- H. reflexivity.
Qed.

Lemma first_page_marker (first : string) (rest : list (option string)) :
  exists lines,
    PyStr.split "010"
      (PyStr.strip (Agents.PDF.pages_text (Some first :: rest) 0 EmptyString))
    = "--- Page 1 ---" :: lines.
Proof.
  rewrite pages_text_pieces. cbn [imap Agents.concat_all].
  set (more := Agents.concat_all _).
  change (EmptyString +:+ Agents.PDF.page_piece (0 + 0) (Some first) +:+ more)
    with (String "010" ("--- Page 1 ---" +:+ String "010" (first +:+ more))).
  unfold PyStr.strip.
  change (PyStr.lstrip (String "010" ("--- Page 1 ---" +:+ String "010" (first +:+ more))))
    with ("--- Page 1 ---" +:+ String "010" (first +:+ more)).
  rewrite rstrip_app; [|discriminate|reflexivity].
  destruct (rstrip_line_feed (first +:+ more)) as [-> | [r ->]].
  - exists []. reflexivity.
  - exists (PyStr.split "010" r). reflexivity.
Qed.

(** X19: every document whose first page can be read has headers.
    The extraction puts the marker of the first page in front of its
    text; the marker is a non-blank line of four words, which
    [_detect_headers] takes for a header, whatever the document
    holds. *)
Theorem first_page_marker_counts_as_a_header (w : World) (content : PyVal)
    (first : string) (rest : list (option string)) :
  w_pdf_pages w content = inr (Some first :: rest) ->
  Agents.PDF.has_headers
    (Agents.PDF.structure
       (Agents.PDF.analyze_document w (Agents.PDF.extract_text_from_pdf w content)))
  = true.
Proof.
  intros Hpages. unfold Agents.PDF.extract_text_from_pdf. rewrite Hpages.
  unfold Agents.PDF.analyze_document.
  cbn [Agents.PDF.structure Agents.PDF.structure_elements Agents.PDF.has_headers].
  destruct (first_page_marker first rest) as [lines ->].
  reflexivity.
Qed.

Lemma first_page_marker_counts_as_a_header_witness :
  Agents.PDF.has_headers
    (Agents.PDF.structure
       (Agents.PDF.analyze_document (Sample.reading_pages [Some "42"; None])
          (Agents.PDF.extract_text_from_pdf (Sample.reading_pages [Some "42"; None])
             (VOther true "b'%PDF'"))))
  = true.
Proof.
  apply (first_page_marker_counts_as_a_header (Sample.reading_pages [Some "42"; None])
           (VOther true "b'%PDF'") "42" [None]).
  reflexivity.
Defined.

(** ** The sections of a document *)

Lemma sections_go_prefix (lines : list string) :
  forall sections current,
    Agents.PDF.sections_go lines sections current =
    sections ++ Agents.PDF.sections_go lines [] current.
Proof.
  induction lines as [|line lines IH]; intros sections current.
  - cbn. destruct current; [now rewrite app_nil_r | reflexivity].
  - cbn [Agents.PDF.sections_go].
    destruct (String.eqb (PyStr.strip line) EmptyString).
    + destruct current as [|x current].
      * apply IH.
      * rewrite IH. rewrite (IH (_ ++ [_])). now rewrite <- app_assoc.
    + apply IH.
Qed.

Lemma sections_go_blank (before after : list string) (blank : string) :
  PyStr.strip blank = EmptyString ->
  forall current,
    Agents.PDF.sections_go (before ++ blank :: after) [] current =
    Agents.PDF.sections_go before [] current ++ Agents.PDF.sections_go after [] [].
Proof.
  intros Hblank. induction before as [|line before IH]; intros current.
  - cbn [app Agents.PDF.sections_go]. rewrite Hblank. cbn [String.eqb].
    destruct current as [|x current]; [reflexivity|]. apply sections_go_prefix.
  - cbn [app Agents.PDF.sections_go].
    destruct (String.eqb (PyStr.strip line) EmptyString).
    + destruct current as [|x current]; [apply IH|].
      rewrite (sections_go_prefix (before ++ _) [_]), IH.
      rewrite (sections_go_prefix before [_]). now rewrite <- app_assoc.
    + apply IH.
Qed.

Lemma sections_go_run (lines : list string) :
  Forall (fun line => PyStr.strip line <> EmptyString) lines ->
  forall current,
    current ++ lines <> [] ->
    Agents.PDF.sections_go lines [] current =
    [PyStr.join Agents.nl (current ++ map PyStr.strip lines)].
Proof.
  induction 1 as [|line lines Hline _ IH]; intros current Hne.
  - rewrite app_nil_r in *. cbn. destruct current; [congruence | reflexivity].
  - cbn [Agents.PDF.sections_go map].
    destruct (String.eqb_spec (PyStr.strip line) EmptyString) as [E|_]; [contradiction|].
    rewrite IH.
    + now rewrite <- app_assoc.
    + now destruct current.
Qed.

(** X20: [_identify_sections] cuts the lines at the blank ones.  A line
    that is blank once stripped ends the section before it and starts
    none; a run of lines none of which is blank makes one section, the
    stripped lines joined by line feeds; no lines give no section.  Of
    the sections found, the first five are answered. *)
Theorem sections_are_the_runs_between_blank_lines :
  (forall before blank after,
     PyStr.strip blank = EmptyString ->
     Agents.PDF.sections_go (before ++ blank :: after) [] [] =
     Agents.PDF.sections_go before [] [] ++ Agents.PDF.sections_go after [] []) /\
  (forall line lines,
     Forall (fun l => PyStr.strip l <> EmptyString) (line :: lines) ->
     Agents.PDF.sections_go (line :: lines) [] [] =
     [PyStr.join Agents.nl (map PyStr.strip (line :: lines))]) /\
  Agents.PDF.sections_go [] [] [] = [] /\
  (forall lines,
     Agents.PDF.identify_sections lines = firstn 5 (Agents.PDF.sections_go lines [] []) /\
     length (Agents.PDF.identify_sections lines) <= 5).
Proof.
  split; [|split; [|split]].
  - intros before blank after H. now apply sections_go_blank.
  - intros line lines H. now apply (sections_go_run (line :: lines) H []).
  - reflexivity.
  - intros lines. split; [reflexivity|]. unfold Agents.PDF.identify_sections.
    rewrite length_firstn. lia.
Qed.
(** ** The keywords of a text *)

Lemma frequency_bump (x y : string) (wf : list (string * nat)) :
  Agents.TextPDF.frequency y (Agents.TextPDF.bump x wf) =
  if String.eqb x y then S (Agents.TextPDF.frequency y wf) else Agents.TextPDF.frequency y wf.
Proof.
  induction wf as [|[k n] wf IH]; cbn [Agents.TextPDF.bump Agents.TextPDF.frequency].
  - destruct (String.eqb x y); reflexivity.
  - destruct (String.eqb_spec k x) as [->|Hkx]; cbn [Agents.TextPDF.frequency].
    + destruct (String.eqb x y); reflexivity.
    + destruct (String.eqb_spec k y) as [->|Hky]; [|exact IH].
      destruct (String.eqb_spec x y) as [->|_]; [contradiction | reflexivity].
Qed.

Lemma keys_bump (x : string) (wf : list (string * nat)) :
  map fst (Agents.TextPDF.bump x wf) =
  map fst wf ++ (if decide (x ∈ map fst wf) then [] else [x]).
Proof.
  induction wf as [|[k n] wf IH]; cbn [Agents.TextPDF.bump map fst app].
  - rewrite decide_False by (intros H; now apply elem_of_nil in H). reflexivity.
  - destruct (String.eqb_spec k x) as [->|Hkx]; cbn [map fst].
    + rewrite decide_True by (apply elem_of_cons; now left). now rewrite app_nil_r.
    + rewrite IH. f_equal. f_equal.
      destruct (decide (x ∈ map fst wf)) as [Hin|Hin].
      * rewrite decide_True; [reflexivity|]. apply elem_of_cons. now right.
      * rewrite decide_False; [reflexivity|].
        intros H. apply elem_of_cons in H as [->|H]; contradiction.
Qed.

(** The words [_extract_keywords] counts: stripped of Agents.TextPDF.punctuation, longer
    than three characters, and no stop word. *)
Lemma count_frequency_spec (words : list string) :
  forall wf : list (string * nat),
    NoDup (map fst wf) ->
    (forall y, y ∈ map fst wf <-> 0 < Agents.TextPDF.frequency y wf) ->
    NoDup (map fst (Agents.TextPDF.count_frequency words wf)) /\
    (forall y, y ∈ map fst (Agents.TextPDF.count_frequency words wf)
               <-> 0 < Agents.TextPDF.frequency y (Agents.TextPDF.count_frequency words wf)) /\
    (forall y,
       Agents.TextPDF.frequency y (Agents.TextPDF.count_frequency words wf) =
       Agents.TextPDF.frequency y wf +
       count_occ string_dec
         (List.filter
            (fun word => (Nat.ltb 3 (String.length word)
                          && negb (PyStr.mem word Agents.TextPDF.stop_words))%bool)
            (map (PyStr.strip_chars Agents.TextPDF.punctuation) words)) y).
Proof.
  induction words as [|word words IH]; intros wf Hnd Hkeys.
  - cbn. split; [exact Hnd|]. split; [exact Hkeys|]. intros y. lia.
  - cbn [Agents.TextPDF.count_frequency map List.filter].
    destruct (Nat.ltb 3 (String.length (PyStr.strip_chars Agents.TextPDF.punctuation word))
              && negb (PyStr.mem (PyStr.strip_chars Agents.TextPDF.punctuation word)
                         Agents.TextPDF.stop_words))%bool.
    + set (x := PyStr.strip_chars Agents.TextPDF.punctuation word).
      destruct (IH (Agents.TextPDF.bump x wf)) as (H1 & H2 & H3).
      * rewrite keys_bump. destruct (decide (x ∈ map fst wf)) as [Hin|Hin].
        -- now rewrite app_nil_r.
        -- apply NoDup_app. split; [exact Hnd|]. split.
           ++ intros y Hy Hy'. apply elem_of_cons in Hy' as [->|Hy']; [contradiction|].
              now apply elem_of_nil in Hy'.
           ++ apply NoDup_singleton.
      * intros y. rewrite keys_bump, frequency_bump, elem_of_app.
        destruct (String.eqb_spec x y) as [->|Hxy].
        -- split; [lia|]. intros _.
           destruct (decide (y ∈ map fst wf)); [now left|].
           right. apply elem_of_cons. now left.
        -- rewrite <- Hkeys. split; [|now left]. intros [H|H]; [exact H|].
           destruct (decide (x ∈ map fst wf)); [now apply elem_of_nil in H|].
           apply elem_of_cons in H as [->|H]; [contradiction|].
           now apply elem_of_nil in H.
      * split; [exact H1|]. split; [exact H2|]. intros y. rewrite H3, frequency_bump.
        cbn [count_occ]. destruct (string_dec x y) as [->|Hxy].
        -- rewrite String.eqb_refl. lia.
        -- destruct (String.eqb_spec x y); [contradiction | lia].
    + now apply IH.
Qed.

Lemma insert_by_frequency_perm (x : string * nat) (l : list (string * nat)) :
  Agents.TextPDF.insert_by_frequency x l ≡ₚ x :: l.
Proof.
  induction l as [|y l IH]; [reflexivity|]. cbn [Agents.TextPDF.insert_by_frequency].
  destruct (Nat.leb (snd y) (snd x)); [reflexivity|].
  rewrite IH. apply Permutation_swap.
Qed.

Lemma sorted_by_frequency_perm (l : list (string * nat)) :
  Agents.TextPDF.sorted_by_frequency l ≡ₚ l.
Proof.
  induction l as [|x l IH]; [reflexivity|]. cbn [Agents.TextPDF.sorted_by_frequency].
  now rewrite insert_by_frequency_perm, IH.
Qed.

Lemma insert_by_frequency_sorted (x : string * nat) (l : list (string * nat)) :
  StronglySorted (fun a b => snd b <= snd a) l ->
  StronglySorted (fun a b => snd b <= snd a) (Agents.TextPDF.insert_by_frequency x l).
Proof.
  induction 1 as [|y l Hs IH Hy]; cbn [Agents.TextPDF.insert_by_frequency].
  - repeat constructor.
  - destruct (Nat.leb_spec (snd y) (snd x)) as [Hle|Hlt].
    + constructor; [now constructor|]. constructor; [exact Hle|].
      eapply Forall_impl; [exact Hy|]. cbn. intros z Hz. lia.
    + constructor; [exact IH|].
      apply List.Forall_forall. intros z Hz.
      apply (Permutation_in _ (insert_by_frequency_perm x l)) in Hz.
      destruct Hz as [<-|Hz]; [lia|].
      rewrite List.Forall_forall in Hy. now apply Hy.
Qed.

Lemma sorted_by_frequency_sorted (l : list (string * nat)) :
  StronglySorted (fun a b => snd b <= snd a) (Agents.TextPDF.sorted_by_frequency l).
Proof.
  induction l as [|x l IH]; [constructor|].
  now apply insert_by_frequency_sorted.
Qed.

Lemma frequency_entry (wf : list (string * nat)) (k : string) (n : nat) :
  NoDup (map fst wf) -> (k, n) ∈ wf -> Agents.TextPDF.frequency k wf = n.
Proof.
  induction wf as [|[k' n'] wf IH]; intros Hnd Hin; [now apply elem_of_nil in Hin|].
  cbn [map fst] in Hnd. apply NoDup_cons in Hnd as [Hk' Hnd].
  apply elem_of_cons in Hin as [[= <- <-]|Hin]; cbn [Agents.TextPDF.frequency].
  - now rewrite String.eqb_refl.
  - destruct (String.eqb_spec k' k) as [->|_]; [|now apply IH].
    exfalso. apply Hk'. apply list_elem_of_fmap. now exists (k, n).
Qed.

Lemma sorted_keys (f : string -> nat) (l : list (string * nat)) :
  (forall e, e ∈ l -> snd e = f (fst e)) ->
  StronglySorted (fun a b => snd b <= snd a) l ->
  StronglySorted (fun a b => f b <= f a) (map fst l).
Proof.
  intros Hf. induction 1 as [|x l Hs IH Hx]; [constructor|].
  cbn [map]. constructor.
  - apply IH. intros e He. apply Hf. apply elem_of_cons. now right.
  - apply List.Forall_forall. intros k Hk. apply List.in_map_iff in Hk as (e & <- & He).
    rewrite List.Forall_forall in Hx. specialize (Hx e He).
    rewrite <- (Hf x) by (apply elem_of_cons; now left).
    rewrite <- (Hf e); [exact Hx|]. apply elem_of_cons. right.
    now apply list_elem_of_In.
Qed.

(** X21: the keywords of a text.  Let the kept words be the words of
    the lowered text ([split()] on blanks), each stripped of the
    punctuation marks at its ends, that are longer than three characters
    and are no stop word.  [_extract_keywords] answers with every kept
    word once, and with nothing else, the words that occur more often
    first. *)
Theorem keywords_are_the_kept_words_by_frequency (text : string) :
  NoDup (Agents.TextPDF.extract_keywords text) /\
  (forall word,
     word ∈ Agents.TextPDF.extract_keywords text <->
     In word (Agents.TextPDF.kept_words text)) /\
  StronglySorted
    (fun a b =>
       count_occ string_dec (Agents.TextPDF.kept_words text) b
       <= count_occ string_dec (Agents.TextPDF.kept_words text) a)
    (Agents.TextPDF.extract_keywords text) /\
  (forall word,
     word ∈ Agents.TextPDF.extract_keywords text ->
     3 < String.length word /\ PyStr.mem word Agents.TextPDF.stop_words = false).
Proof.
  unfold Agents.TextPDF.extract_keywords, Agents.TextPDF.kept_words.
  set (words := PyStr.fields (PyStr.lower text)).
  set (kept := List.filter _ _).
  destruct (count_frequency_spec words []) as (Hnd & Hkeys & Hfreq).
  { constructor. }
  { intros y. cbn. split; [intros H; now apply elem_of_nil in H | lia]. }
  fold kept in Hfreq. cbn [Agents.TextPDF.frequency Nat.add] in Hfreq.
  set (wf := Agents.TextPDF.count_frequency words []) in *.
  assert (Hperm : map fst (Agents.TextPDF.sorted_by_frequency wf) ≡ₚ map fst wf)
    by (apply fmap_Permutation, sorted_by_frequency_perm).
  assert (Hmem : forall word,
            word ∈ map fst (Agents.TextPDF.sorted_by_frequency wf) <-> In word kept).
  { intros word. rewrite Hperm, Hkeys, Hfreq. symmetry. apply count_occ_In. }
  split; [now rewrite Hperm|]. split; [exact Hmem|]. split.
  - apply sorted_keys; [|apply sorted_by_frequency_sorted].
    intros [k n] He. cbn [fst snd]. rewrite <- Hfreq. symmetry.
    apply frequency_entry; [exact Hnd|]. now rewrite <- sorted_by_frequency_perm.
  - intros word Hword. apply Hmem in Hword. unfold kept in Hword.
    apply List.filter_In in Hword as [_ Hkeep].
    apply andb_true_iff in Hkeep as [Hlen Hstop].
    apply Nat.ltb_lt in Hlen. apply negb_true_iff in Hstop. split; assumption.
Qed.

(** The keywords of a short text: the stop word and the short words are
    left out, and the word that occurs twice comes first. *)
Example keywords_of_a_sentence :
  Agents.TextPDF.extract_keywords "With the invoice, pay the total. TOTAL due!"
  = ["total"; "invoice"].
Proof. reflexivity. Qed.

(** ** The record a strategy answers with *)

Lemma update_session_answer (w : World) (sid : string) (updates : Dict.t) (st : Store)
    (r : bool * Dict.t) (st' : Store) :
  Memory.update_session w sid updates st = (Ok r, st') ->
  (hashes st !! Memory.session_key sid = None /\ r = (false, updates) /\ st' = st) \/
  (is_Some (hashes st !! Memory.session_key sid) /\
   r = (true, Dict.set "updated_at" (VStr (w_now w (tick st))) updates) /\
   field st' sid "updated_at" = Some (w_now w (tick st))).
Proof.
  destruct (hashes st !! Memory.session_key sid) as [h|] eqn:Hh.
  - intros H. right. split; [eauto|].
    destruct (Memory.encode_items w
                (Dict.set "updated_at" (VStr (w_now w (tick st))) updates))
      as [items|] eqn:Hi.
    + rewrite (update_session_run w sid updates st h items Hh Hi) in H.
      injection H as <- <-. split; [reflexivity|].
      unfold field. cbn [hashes]. rewrite lookup_insert_eq. cbn [mbind option_bind].
      rewrite lookup_union.
      assert (Hu : (list_to_map items : gmap string string) !! "updated_at"
                   = Some (w_now w (tick st))).
      { clear Hh. revert items Hi.
        induction updates as [|[k v] updates IH]; intros items Hi.
        - cbn in Hi. injection Hi as <-. reflexivity.
        - cbn [Dict.set] in Hi.
          destruct (String.eqb_spec k "updated_at") as [->|Hk].
          + cbn in Hi. destruct (Memory.encode_items w updates); [|discriminate].
            injection Hi as <-. cbn. now rewrite lookup_insert_eq.
          + cbn [Memory.encode_items] in Hi.
            destruct (Memory.encode w v); [|discriminate].
            destruct (Memory.encode_items w (Dict.set _ _ updates)) as [rest|];
              [|discriminate].
            injection Hi as <-. cbn [list_to_map foldr fst snd curry uncurry].
            cbn. rewrite lookup_insert_ne by exact Hk. now apply IH. }
      rewrite Hu. now destruct (h !! "updated_at").
    + exfalso. revert H.
      unfold Memory.update_session, bind, Redis.exists_, now, reading, ret,
        Memory.encode_mapping, bind, ret, raise.
      rewrite Hh. rewrite bool_decide_eq_true_2 by eauto. cbn [negb tick].
      rewrite Hi. discriminate.
  - rewrite (update_session_absent w sid updates st Hh). intros [= <- <-]. left. eauto.
Qed.

Lemma dict_get_set (k : string) (v : PyVal) (d : Dict.t) :
  Dict.get k (Dict.set k v d) = Some v.
Proof.
  induction d as [|[k' v'] d IH]; cbn.
  - now rewrite String.eqb_refl.
  - destruct (String.eqb k' k) eqn:E; cbn; rewrite E; [reflexivity | exact IH].
Qed.

Lemma dict_get_set_ne (k k' : string) (v : PyVal) (d : Dict.t) :
  k <> k' -> Dict.get k (Dict.set k' v d) = Dict.get k d.
Proof.
  intros Hne. induction d as [|[k0 v0] d IH]; cbn.
  - destruct (String.eqb_spec k' k); [congruence | reflexivity].
  - destruct (String.eqb_spec k0 k') as [->|Hk0]; cbn.
    + destruct (String.eqb_spec k' k); [congruence | reflexivity].
    + now rewrite IH.
Qed.

Lemma update_session_stamp (w : World) (sid : string) (updates : Dict.t) (st : Store)
    (r : bool * Dict.t) (st' : Store) :
  Dict.get "updated_at" updates = None ->
  Memory.update_session w sid updates st = (Ok r, st') ->
  (forall k, k <> "updated_at" -> Dict.get k (snd r) = Dict.get k updates) /\
  (hashes st !! Memory.session_key sid = None ->
   Dict.get "updated_at" (snd r) = None /\ st' = st) /\
  (is_Some (hashes st !! Memory.session_key sid) ->
   Dict.get "updated_at" (snd r) = Some (VStr (w_now w (tick st))) /\
   field st' sid "updated_at" = Some (w_now w (tick st))).
Proof.
  intros Hnone Hrun.
  destruct (update_session_answer w sid updates st r st' Hrun)
    as [(Habsent & -> & ->) | (Hpresent & -> & Hfield)].
  - split; [reflexivity|]. split; [now intros _|]. intros [h Hh]. congruence.
  - split; [intros k Hk; now apply dict_get_set_ne|].
    split; [intros Hh; destruct Hpresent; congruence|].
    intros _. cbn [snd]. now rewrite dict_get_set.
Qed.


(** The answer of the PDF strategy on the sample session. *)
Example pdf_answer_has_updated_at :
  match fst (Agents.PDF.process Sample.offline (VOther true "b'%PDF'")
               Sample.session_id Sample.one_session) with
  | Ok (VDict record) =>
      Dict.get "processed_at" record = Some (VStr (Sample.clock 3)) /\
      Dict.get "updated_at" record = Some (VStr (Sample.clock 4))
  | _ => False
  end.
Proof. vm_compute. split; reflexivity. Qed.
(** ** A header field that occurs twice *)

Lemma msg_get_first (name : string) (before rest : list (string * string))
    (k v dflt : string) :
  (forall kv, kv ∈ before -> PyStr.lower (fst kv) <> PyStr.lower name) ->
  PyStr.lower k = PyStr.lower name ->
  Agents.Email.msg_get name (before ++ (k, v) :: rest) dflt = v.
Proof.
  intros Hbefore Hk. induction before as [|[k' v'] before IH];
    cbn [app Agents.Email.msg_get].
  - rewrite Hk. now rewrite String.eqb_refl.
  - destruct (String.eqb_spec (PyStr.lower k') (PyStr.lower name)) as [E|_].
    + exfalso. apply (Hbefore (k', v')); [apply elem_of_cons; now left | exact E].
    + apply IH. intros kv Hkv. apply Hbefore. apply elem_of_cons. now right.
Qed.

Lemma fold_set_other (k : string) (pairs : list (string * PyVal)) :
  forall d : Dict.t,
    (forall kv, kv ∈ pairs -> fst kv <> k) ->
    Dict.get k (fold_left (fun d kv => Dict.set (fst kv) (snd kv) d) pairs d)
    = Dict.get k d.
Proof.
  induction pairs as [|[k' v'] pairs IH]; intros d Hne; [reflexivity|].
  cbn [fold_left fst snd]. rewrite IH.
  - apply dict_get_set_ne. intros ->.
    apply (Hne (k', v')); [apply elem_of_cons; now left | reflexivity].
  - intros kv Hkv. apply Hne. apply elem_of_cons. now right.
Qed.

Lemma of_pairs_last (k : string) (v : PyVal) (before after : list (string * PyVal)) :
  (forall kv, kv ∈ after -> fst kv <> k) ->
  Dict.get k (Dict.of_pairs (before ++ (k, v) :: after)) = Some v.
Proof.
  intros Hafter. unfold Dict.of_pairs. rewrite fold_left_app. cbn [fold_left fst snd].
  rewrite fold_set_other by exact Hafter. apply dict_get_set.
Qed.

(** X23: a header field that occurs twice.  [_parse_email_structure]
    reads [subject] with [msg.get], which answers with the first field
    of that name, letter case apart, and builds [headers] with
    [dict(msg.items())], in which a later field of the same name
    replaces an earlier one: for a message with two [Subject] fields
    the answer has the first value as [subject] and the second under
    [headers["Subject"]]. *)
Theorem subject_is_the_first_field_and_headers_keep_the_last (w : World)
    (body : string) (msg : Message)
    (before between after : list (string * string)) (first last : string) :
  w_parsestr w body = Some msg ->
  msg_items msg = before ++ ("Subject", first) :: between ++ ("Subject", last) :: after ->
  (forall kv, kv ∈ before -> PyStr.lower (fst kv) <> "subject") ->
  (forall kv, kv ∈ after -> fst kv <> "Subject") ->
  Agents.Email.pe_subject (Agents.Email.parse_email_structure w body) = first /\
  Dict.get "Subject" (Agents.Email.pe_headers (Agents.Email.parse_email_structure w body))
    = Some (VStr last).
Proof.
  intros Hparse Hitems Hbefore Hafter.
  unfold Agents.Email.parse_email_structure. rewrite Hparse.
  cbn [Agents.Email.pe_subject Agents.Email.pe_headers]. rewrite Hitems. split.
  - now apply msg_get_first.
  - rewrite app_comm_cons, app_assoc.
    rewrite map_app. cbn [map fst snd].
    apply of_pairs_last. intros kv Hkv.
    apply list_elem_of_fmap in Hkv as ([k v] & -> & Hin). cbn [fst].
    now apply (Hafter (k, v)).
Qed.

Lemma subject_is_the_first_field_and_headers_keep_the_last_witness :
  Agents.Email.pe_subject
    (Agents.Email.parse_email_structure Sample.offline
       ("Subject: one" +:+ Agents.nl +:+ "Subject: two" +:+ Agents.nl +:+ Agents.nl
          +:+ "Hello")) = "one" /\
  Dict.get "Subject"
    (Agents.Email.pe_headers
       (Agents.Email.parse_email_structure Sample.offline
          ("Subject: one" +:+ Agents.nl +:+ "Subject: two" +:+ Agents.nl +:+ Agents.nl
             +:+ "Hello"))) = Some (VStr "two").
Proof.
  apply (subject_is_the_first_field_and_headers_keep_the_last Sample.offline _
           {| msg_items := [("Subject", "one"); ("Subject", "two")];
              msg_payload := VStr "Hello" |}
           [] [] [] "one" "two").
  - reflexivity.
  - reflexivity.
  - intros kv H. now apply elem_of_nil in H.
  - intros kv H. now apply elem_of_nil in H.
Defined.
